(** * Recipe Suggester backend (python_backend): a shallow embedding

    The development follows the modules of the program:
    - [Py]: the Python [str] methods and the [re] idioms the program uses;
    - [utils.py]: [normalize_ingredient], [find_missing_ingredients];
    - [models.py], [memory.py]: the records and the constants;
    - [action.py]: the retry helper, the gateways, the fallback generator;
    - [perception.py]: the reasoning gateway;
    - [decision_making.py]: the pipelines.

    Conventions.  A Python [str] is a [string]; a character is a code point
    below 256 (the Latin-1 block), classified as CPython classifies it.
    [print] and the writes to the log file are not modelled: they return
    nothing the program reads, and creating the log directory is taken to
    succeed.  Outbound HTTP is an oracle ([World]) that answers the
    requests of the process in the order they are made; timeouts are among
    the ways a request can fail. *)

From Stdlib Require Import ZArith QArith Qpower Ascii String DecimalString.
From stdpp Require Import gmap strings list sorting.

(** ** Python strings *)

Module Py.

Definition code (c : ascii) : N := N_of_ascii c.

Definition between (lo hi n : N) : bool := ((lo <=? n) && (n <=? hi))%N.

(** [str.isspace] on one character; also what [\s] matches. *)
Definition isspace (c : ascii) : bool :=
  let n := code c in
  between 9 13 n || between 28 32 n || (n =? 133)%N || (n =? 160)%N.

Definition isupper (c : ascii) : bool :=
  let n := code c in
  between 65 90 n || (between 192 222 n && negb (n =? 215)%N).

(** One character of [str.lower]. *)
Definition lower_char (c : ascii) : ascii :=
  if isupper c then ascii_of_N (code c + 32) else c.

Definition isalnum (c : ascii) : bool :=
  let n := code c in
  between 48 57 n || between 65 90 n || between 97 122 n
  || (n =? 170)%N || (n =? 178)%N || (n =? 179)%N || (n =? 181)%N
  || (n =? 185)%N || (n =? 186)%N || between 188 190 n
  || (between 192 255 n && negb (n =? 215)%N && negb (n =? 247)%N).

(** What [\w] matches: alphanumerics and the underscore. *)
Definition isword (c : ascii) : bool := isalnum c || (code c =? 95)%N.

(** The ASCII punctuation characters ([string.punctuation]). *)
Definition ispunct (c : ascii) : bool :=
  let n := code c in
  between 33 47 n || between 58 64 n || between 91 96 n || between 123 126 n.

(** Truth value of a [str]: non-empty. *)
Definition truthy (s : string) : bool :=
  match s with EmptyString => false | String _ _ => true end.

Fixpoint lower (s : string) : string :=
  match s with
  | EmptyString => EmptyString
  | String c s' => String (lower_char c) (lower s')
  end.

Fixpoint filter_chars (keep : ascii -> bool) (s : string) : string :=
  match s with
  | EmptyString => EmptyString
  | String c s' =>
      if keep c then String c (filter_chars keep s') else filter_chars keep s'
  end.

(** [re.sub(r'[^\w\s]', '', s)]: every character that is neither a word
    character nor whitespace is deleted. *)
Definition re_sub_nonword_nonspace (s : string) : string :=
  filter_chars (fun c => isword c || isspace c) s.

(** [re.sub(r'\s+', ' ', s)]: every maximal run of whitespace becomes one
    space.  [in_run] tells that the previous character was whitespace. *)
Fixpoint re_sub_spaces_from (in_run : bool) (s : string) : string :=
  match s with
  | EmptyString => EmptyString
  | String c s' =>
      if isspace c then
        if in_run then re_sub_spaces_from true s'
        else String " " (re_sub_spaces_from true s')
      else String c (re_sub_spaces_from false s')
  end.

Definition re_sub_spaces (s : string) : string := re_sub_spaces_from false s.

Fixpoint lstrip (s : string) : string :=
  match s with
  | EmptyString => EmptyString
  | String c s' => if isspace c then lstrip s' else s
  end.

Fixpoint rstrip (s : string) : string :=
  match s with
  | EmptyString => EmptyString
  | String c s' =>
      match rstrip s' with
      | EmptyString => if isspace c then EmptyString else String c EmptyString
      | r => String c r
      end
  end.

Definition strip (s : string) : string := rstrip (lstrip s).

(** [s.endswith(suffix)]. *)
Definition endswith (s suffix : string) : bool :=
  let n := String.length s in
  let k := String.length suffix in
  (k <=? n)%nat && String.eqb (String.substring (n - k) k s) suffix.

(** [s[:-k]] for a positive [k]. *)
Definition drop_last (k : nat) (s : string) : string :=
  String.substring 0 (String.length s - k) s.

(** [sub in s]: [sub] occurs in [s] as a contiguous substring. *)
Fixpoint contains (sub s : string) : bool :=
  String.prefix sub s
  || match s with
     | EmptyString => false
     | String _ s' => contains sub s'
     end.

(** [sep.join(l)]. *)
Fixpoint join (sep : string) (l : list string) : string :=
  match l with
  | [] => ""
  | [x] => x
  | x :: rest => x +:+ sep +:+ join sep rest
  end.

(** [str(n)] for an [int]. *)
Definition str_of_Z (n : Z) : string := NilZero.string_of_int (Z.to_int n).

End Py.

(** ** models.py *)

Module SpoonacularIngredient.
Record t := mk {
  id : Z;
  amount : Q;
  unit : string;
  name : string;
  original : string
}.
End SpoonacularIngredient.

Module IngredientDetail.
Record t := mk {
  id : option Z;
  name : string;
  amount : option Q;
  unit : option string;
  is_estimate : option bool
}.
End IngredientDetail.

Module RecipeSummary.
Record t := mk {
  id : Z;
  title : string;
  image : option string;
  usedIngredientCount : option Z;
  missedIngredientCount : option Z
}.
End RecipeSummary.

(** ** utils.py *)

Definition normalize_ingredient (name : string) : string :=
  if negb (Py.truthy name) then ""
  else
    let name := Py.lower name in
    let name := Py.re_sub_nonword_nonspace name in
    let name := Py.strip (Py.re_sub_spaces name) in
    if Py.endswith name "es" then Py.drop_last 2 name
    else if Py.endswith name "s" then Py.drop_last 1 name
    else name.

(** The set comprehension
    [{normalize_ingredient(ing) for ing in user_ingredients if ing}];
    a [None] entry is falsy like the empty string. *)
Definition normalized_user_ingredients
    (user_ingredients : list (option string)) : gset string :=
  list_to_set
    (omap (fun ing =>
             match ing with
             | Some s => if Py.truthy s then Some (normalize_ingredient s) else None
             | None => None
             end) user_ingredients).

(** The inner [for user_ing_norm in normalized_user_ingredients] loop, over
    the elements of the set in the order the iteration yields them. *)
Fixpoint partial_match (normalized_req : string) (user_norms : list string) : bool :=
  match user_norms with
  | [] => false
  | user_ing_norm :: rest =>
      if negb (Py.truthy user_ing_norm) then partial_match normalized_req rest
      else if Py.contains normalized_req user_ing_norm
              || Py.contains user_ing_norm normalized_req
           then true
           else partial_match normalized_req rest
  end.

(** One iteration of the outer loop; [missing] is the list being built. *)
Definition find_missing_step (owned : gset string)
    (missing : list SpoonacularIngredient.t)
    (req_ing : option SpoonacularIngredient.t) : list SpoonacularIngredient.t :=
  match req_ing with
  | None => missing
  | Some r =>
      if negb (Py.truthy (SpoonacularIngredient.name r)) then missing
      else
        let normalized_req := normalize_ingredient (SpoonacularIngredient.name r) in
        if negb (Py.truthy normalized_req) then missing
        else
          let found :=
            if decide (normalized_req ∈ owned) then true
            else partial_match normalized_req (elements owned) in
          if found then missing else missing ++ [r]
  end.

Definition find_missing_ingredients
    (required_ingredients : list (option SpoonacularIngredient.t))
    (user_ingredients : list (option string)) : list SpoonacularIngredient.t :=
  fold_left (find_missing_step (normalized_user_ingredients user_ingredients))
            required_ingredients [].

(** ** Python values, exceptions and HTTP responses *)

(** The values that flow through the gateways: parsed JSON, plus the
    [SpoonacularIngredient] objects that [fetch_spoonacular_details] stores
    back into the parsed recipe. *)
#[warnings="-register-all"]
Inductive value :=
  | VNone
  | VBool (b : bool)
  | VInt (n : Z)
  | VFloat (q : Q)
  | VStr (s : string)
  | VList (l : list value)
  | VDict (kv : list (string * value))
  | VIngredient (i : SpoonacularIngredient.t).

Inductive exn_class :=
  | RequestException | HTTPError | ConnectionError | Timeout
  | RequestsJSONDecodeError
  | JSONDecodeError | KeyError | IndexError | TypeError | AttributeError
  | ValidationError | Exception.

(** [isinstance(e, requests.exceptions.RequestException)]. *)
Definition is_RequestException (c : exn_class) : bool :=
  match c with
  | RequestException | HTTPError | ConnectionError | Timeout
  | RequestsJSONDecodeError => true
  | _ => false
  end.

(** [isinstance(e, json.JSONDecodeError)]. *)
Definition is_JSONDecodeError (c : exn_class) : bool :=
  match c with
  | JSONDecodeError | RequestsJSONDecodeError => true
  | _ => false
  end.

(** What [response.json()] does: return the parsed body or raise. *)
Inductive json_outcome :=
  | JsonOk (v : value)
  | JsonRaises (c : exn_class) (m : string).

Module Response.
Record t := mk {
  status_code : Z;
  text : string;
  json : json_outcome
}.
End Response.

Module Exn.
(** [msg] is [str(e)]; [response] is the attribute [e.response]. *)
Record t := mk {
  cls : exn_class;
  msg : string;
  response : option Response.t
}.
End Exn.

(** Library code the program calls and this repository does not contain. *)
Class Lib := {
  (** [repr] of a value that is not a [str], as an f-string prints it *)
  py_repr : value -> string;
  (** the text of the [HTTPError] that [raise_for_status] raises *)
  http_error_msg : Response.t -> string;
  (** the constructor call [SpoonacularIngredient] on an unpacked [ing]:
      build the validated object or raise *)
  SpoonacularIngredient_new : value -> Exn.t + SpoonacularIngredient.t;
  (** [RecipeSummary(id=.., title=.., image=.., usedIngredientCount=..,
      missedIngredientCount=..)] *)
  RecipeSummary_new :
    value -> value -> value -> value -> value -> Exn.t + RecipeSummary.t
}.

(** ** Operations on Python values *)

Definition res (A : Type) : Type := (Exn.t + A)%type.

Definition type_name (v : value) : string :=
  match v with
  | VNone => "NoneType"
  | VBool _ => "bool"
  | VInt _ => "int"
  | VFloat _ => "float"
  | VStr _ => "str"
  | VList _ => "list"
  | VDict _ => "dict"
  | VIngredient _ => "SpoonacularIngredient"
  end.

Definition value_truthy (v : value) : bool :=
  match v with
  | VNone => false
  | VBool b => b
  | VInt n => negb (n =? 0)%Z
  | VFloat q => negb (Qeq_bool q 0)
  | VStr s => Py.truthy s
  | VList l => match l with [] => false | _ => true end
  | VDict kv => match kv with [] => false | _ => true end
  | VIngredient _ => true
  end.

(** [str(v)] as an f-string or [str.format] renders it. *)
Definition py_str `{Lib} (v : value) : string :=
  match v with
  | VStr s => s
  | VNone => "None"
  | VBool true => "True"
  | VBool false => "False"
  | VInt n => Py.str_of_Z n
  | _ => py_repr v
  end.

(** A [dict] is kept as an association list, first binding first. *)
Fixpoint assoc (k : string) (kv : list (string * value)) : option value :=
  match kv with
  | [] => None
  | (k', v) :: rest => if String.eqb k k' then Some v else assoc k rest
  end.

(** [d[k] = v]. *)
Fixpoint dict_set (k : string) (v : value) (kv : list (string * value))
  : list (string * value) :=
  match kv with
  | [] => [(k, v)]
  | (k', v') :: rest =>
      if String.eqb k k' then (k, v) :: rest else (k', v') :: dict_set k v rest
  end.

Definition exn (c : exn_class) (m : string) : Exn.t := Exn.mk c m None.

Definition not_subscriptable {A} (v : value) : res A :=
  inl (exn TypeError ("'" +:+ type_name v +:+ "' object is not subscriptable")).

Definition no_attribute {A} (v : value) (attr : string) : res A :=
  inl (exn AttributeError
         ("'" +:+ type_name v +:+ "' object has no attribute '" +:+ attr +:+ "'")).

(** [v[k]] for a [str] key; the texts are those of CPython 3.11. *)
Definition getitem_str (v : value) (k : string) : res value :=
  match v with
  | VDict kv =>
      match assoc k kv with
      | Some x => inr x
      | None => inl (exn KeyError ("'" +:+ k +:+ "'"))
      end
  | VList _ => inl (exn TypeError "list indices must be integers or slices, not str")
  | VStr _ => inl (exn TypeError "string indices must be integers, not 'str'")
  | _ => not_subscriptable v
  end.

(** [v[0]]. *)
Definition getitem_0 (v : value) : res value :=
  match v with
  | VList [] => inl (exn IndexError "list index out of range")
  | VList (x :: _) => inr x
  | VStr EmptyString => inl (exn IndexError "string index out of range")
  | VStr (String c _) => inr (VStr (String c EmptyString))
  | VDict _ => inl (exn KeyError "0")
  | _ => not_subscriptable v
  end.

(** [v.get(k, default)]; only a [dict] has the method. *)
Definition py_get (v : value) (k : string) (default : value) : res value :=
  match v with
  | VDict kv => inr (from_option id default (assoc k kv))
  | _ => no_attribute v "get"
  end.

(** [k in v] for a [str] [k]. *)
Definition py_in (k : string) (v : value) : res bool :=
  match v with
  | VDict kv => inr (bool_decide (is_Some (assoc k kv)))
  | VList l =>
      inr (existsb (fun x => match x with VStr s => String.eqb s k | _ => false end) l)
  | VStr s => inr (Py.contains k s)
  | _ => inl (exn TypeError ("argument of type '" +:+ type_name v +:+ "' is not iterable"))
  end.

Fixpoint chars (s : string) : list value :=
  match s with
  | EmptyString => []
  | String c s' => VStr (String c EmptyString) :: chars s'
  end.

(** The items a [for] loop or a comprehension draws from [v]. *)
Definition py_iter (v : value) : res (list value) :=
  match v with
  | VList l => inr l
  | VDict kv => inr (VStr <$> remove_dups (kv.*1))
  | VStr s => inr (chars s)
  | _ => inl (exn TypeError ("'" +:+ type_name v +:+ "' object is not iterable"))
  end.

(** [v == n] for an [int] literal [n]. *)
Definition value_eq_int (v : value) (n : Z) : bool :=
  match v with
  | VInt m => (m =? n)%Z
  | VFloat q => Qeq_bool q (inject_Z n)
  | VBool b => ((if b then 1 else 0) =? n)%Z
  | _ => false
  end.

(** ** The world: credentials, the HTTP oracle, the clock *)

Inductive attempt :=
  | Responds (r : Response.t)
  | Fails (e : Exn.t).

Inductive event :=
  | Request (method url : string)
  | Sleep (seconds : Q).

Module World.
(** [http n] is what the [n]-th HTTP request of the process meets; [made]
    counts the requests made so far; [trace] lists requests and sleeps in
    the order they happen. *)
Record t := mk {
  API_KEYS : gmap string string;
  http : nat -> attempt;
  made : nat;
  trace : list event
}.
End World.

Inductive outcome (A : Type) :=
  | Ok (a : A)
  | Raise (e : Exn.t)
  | OutOfFuel.
Arguments Ok {A} a.
Arguments Raise {A} e.
Arguments OutOfFuel {A}.

Definition M (A : Type) : Type := World.t -> outcome A * World.t.

Definition ret {A} (a : A) : M A := fun w => (Ok a, w).

Definition raise {A} (e : Exn.t) : M A := fun w => (Raise e, w).

Definition bind {A B} (m : M A) (k : A -> M B) : M B :=
  fun w =>
    match m w with
    | (Ok a, w') => k a w'
    | (Raise e, w') => (Raise e, w')
    | (OutOfFuel, w') => (OutOfFuel, w')
    end.

Definition lift {A} (r : res A) : M A :=
  match r with
  | inl e => raise e
  | inr a => ret a
  end.

(** [try: body  except ... as e: handler e]; a handler that matches no
    clause re-raises. *)
Definition try_except {A} (body : M A) (handler : Exn.t -> M A) : M A :=
  fun w =>
    match body w with
    | (Raise e, w') => handler e w'
    | r => r
    end.

Declare Scope py_scope.
Delimit Scope py_scope with py.
Notation "x <- m ;; k" := (bind m (fun x => k))
  (at level 100, m at next level, right associativity) : py_scope.
Notation "m ;;; k" := (bind m (fun _ => k))
  (at level 100, right associativity) : py_scope.
Open Scope py_scope.

(** [requests.request(method, url, ...)] and [requests.post(url, ...)]. *)
Definition requests_request (method url : string) : M Response.t :=
  fun w =>
    let w' := World.mk (World.API_KEYS w) (World.http w) (S (World.made w))
                       (World.trace w ++ [Request method url]) in
    match World.http w (World.made w) with
    | Responds r => (Ok r, w')
    | Fails e => (Raise e, w')
    end.

Definition time_sleep (seconds : Q) : M unit :=
  fun w =>
    (Ok tt, World.mk (World.API_KEYS w) (World.http w) (World.made w)
                     (World.trace w ++ [Sleep seconds])).

Definition response_json (r : Response.t) : res value :=
  match Response.json r with
  | JsonOk v => inr v
  | JsonRaises c m => inl (exn c m)
  end.

(** [response.raise_for_status()]. *)
Definition raise_for_status `{Lib} (r : Response.t) : res unit :=
  if ((400 <=? Response.status_code r) && (Response.status_code r <? 600))%Z
  then inl (Exn.mk HTTPError (http_error_msg r) (Some r))
  else inr tt.

(** ** memory.py *)

Definition MAX_LLM_RETRIES : nat := 2.
Definition MAX_API_RETRIES : nat := 1.

(** A message template, split at its [{}] placeholder. *)
Definition ERROR_MESSAGES (key : string) : option (list string) :=
  if String.eqb key "MISSING_API_KEY"
  then Some [""; " API key not configured in backend environment."]
  else if String.eqb key "SPOONACULAR_ERROR"
  then Some ["Error communicating with Spoonacular: "; ""]
  else if String.eqb key "GEMINI_ERROR"
  then Some ["Error communicating with Gemini API: "; ""]
  else if String.eqb key "TELEGRAM_ERROR"
  then Some ["Error sending Telegram message: "; ""]
  else if String.eqb key "SENDGRID_ERROR"
  then Some ["Error sending email via SendGrid: "; ""]
  else if String.eqb key "INVALID_INPUT"
  then Some ["Invalid input provided: "; ""]
  else if String.eqb key "NOT_FOUND"
  then Some ["Resource not found: "; ""]
  else if String.eqb key "GENERAL_ERROR"
  then Some ["An unexpected backend error occurred: "; ""]
  else if String.eqb key "LLM_FAILURE"
  then Some ["LLM analysis failed: "; ""]
  else if String.eqb key "INGREDIENT_COMPARISON_FAILED"
  then Some ["Failed to compare ingredients."]
  else None.

Definition get_api_key (key_name : string) : M (option string) :=
  fun w => (Ok (World.API_KEYS w !! key_name), w).

(** [not api_key]. *)
Definition no_key (api_key : option string) : bool :=
  match api_key with
  | Some k => negb (Py.truthy k)
  | None => true
  end.

Definition get_error_message `{Lib} (key : string) (detail : value) : string :=
  let message :=
    from_option id ["An unexpected backend error occurred: "; ""] (ERROR_MESSAGES key) in
  if value_truthy detail then Py.join (py_str detail) message
  else Py.join "{}" message.

(** ** action.py *)

(** [wait_time = (2 ** (retries - 1)) * base]; the products are dyadic
    rationals that the floating-point multiplication computes exactly. *)
Definition wait_time (base : Q) (retries : nat) : Q :=
  (inject_Z (Z.of_nat (2 ^ (retries - 1))) * base)%Q.

(** The [while retries <= MAX_API_RETRIES] loop, for any value [max] of the
    constant; [fuel] bounds the number of passes. *)
Fixpoint make_request_loop `{Lib} (max fuel : nat) (method url : string)
    (retries : nat) (last_exception : option Exn.t) : M Response.t :=
  match fuel with
  | O => fun w => (OutOfFuel, w)
  | S fuel' =>
      if (retries <=? max)%nat then
        try_except
          (response <- requests_request method url ;;
           lift (raise_for_status response) ;;;
           ret response)
          (fun e =>
             if is_RequestException (Exn.cls e) then
               let retries := S retries in
               if (max <? retries)%nat then raise e
               else
                 time_sleep (wait_time (1 # 2) retries) ;;;
                 make_request_loop max fuel' method url retries (Some e)
             else raise e)
      else
        raise (from_option id
                 (exn Exception
                    ("Request failed after " +:+ Py.str_of_Z (Z.of_nat max)
                     +:+ " retries"))
                 last_exception)
  end.

Definition _make_request_with_retry `{Lib} (method url : string) : M Response.t :=
  make_request_loop MAX_API_RETRIES (S (S MAX_API_RETRIES)) method url 0 None.

Module ApiResult.
(** The [{"data": ..., "error": ...}] dictionaries of the recipe gateways. *)
Record t := mk {
  data : value;
  error : option string
}.
End ApiResult.

(** [getattr(e.response, 'status_code', 500)]. *)
Definition status_of (e : Exn.t) : Z :=
  match Exn.response e with
  | Some r => Response.status_code r
  | None => 500
  end.

Definition status_detail (status_code : Z) (e : Exn.t) : string :=
  "Status " +:+ Py.str_of_Z status_code +:+ ": " +:+ Exn.msg e.

(** The query parameters, headers and payloads are read by the remote
    service only, and the oracle answers by position, so the functions
    below do not build them; the preference filters of
    [fetch_spoonacular_recipes] are among them. *)
Definition find_by_ingredients_url : string :=
  "https://api.spoonacular.com/recipes/findByIngredients".

Definition fetch_spoonacular_recipes `{Lib} (ingredients : string)
    (foodType cuisine : option string) : M ApiResult.t :=
  api_key <- get_api_key "spoonacular" ;;
  if no_key api_key then
    ret (ApiResult.mk VNone (Some (get_error_message "MISSING_API_KEY" (VStr "Spoonacular"))))
  else
    let base_url := find_by_ingredients_url in
    try_except
      (response <- _make_request_with_retry "GET" base_url ;;
       data <- lift (response_json response) ;;
       ret (ApiResult.mk data None))
      (fun e =>
         if is_RequestException (Exn.cls e) then
           let status_code := status_of e in
           let error_detail :=
             if ((status_code =? 401) || (status_code =? 403))%Z
             then "Authentication failed (Invalid API Key?)"
             else if (status_code =? 429)%Z then "API rate limit exceeded"
             else status_detail status_code e in
           ret (ApiResult.mk VNone
                  (Some (get_error_message "SPOONACULAR_ERROR" (VStr error_detail))))
         else
           ret (ApiResult.mk VNone
                  (Some (get_error_message "GENERAL_ERROR" (VStr (Exn.msg e)))))).

(** The comprehension [[SpoonacularIngredient(..ing) for ing in items]]. *)
Fixpoint build_ingredients `{Lib} (items : list value) : res (list value) :=
  match items with
  | [] => inr []
  | ing :: rest =>
      match SpoonacularIngredient_new ing with
      | inl e => inl e
      | inr i =>
          match build_ingredients rest with
          | inl e => inl e
          | inr l => inr (VIngredient i :: l)
          end
      end
  end.

(** The block under [if 'extendedIngredients' in recipe_data]: the parsed
    list replaces the raw one, or the raw data stay when anything raises. *)
Definition parse_extended `{Lib} (recipe_data : value) : value :=
  let parsed :=
    match py_get recipe_data "extendedIngredients" (VList []) with
    | inl e => inl e
    | inr raw =>
        match py_iter raw with
        | inl e => inl e
        | inr items => build_ingredients items
        end
    end in
  match parsed, recipe_data with
  | inr l, VDict kv => VDict (dict_set "extendedIngredients" (VList l) kv)
  | _, _ => recipe_data
  end.

Definition information_url (recipe_id : Z) : string :=
  "https://api.spoonacular.com/recipes/" +:+ Py.str_of_Z recipe_id +:+ "/information".

Definition fetch_spoonacular_details `{Lib} (recipe_id : Z) : M ApiResult.t :=
  api_key <- get_api_key "spoonacular" ;;
  if no_key api_key then
    ret (ApiResult.mk VNone (Some (get_error_message "MISSING_API_KEY" (VStr "Spoonacular"))))
  else
    let url := information_url recipe_id in
    try_except
      (response <- _make_request_with_retry "GET" url ;;
       recipe_data <- lift (response_json response) ;;
       has <- lift (py_in "extendedIngredients" recipe_data) ;;
       let recipe_data := if has then parse_extended recipe_data else recipe_data in
       ret (ApiResult.mk recipe_data None))
      (fun e =>
         if is_RequestException (Exn.cls e) then
           let status_code := status_of e in
           let error_detail :=
             if ((status_code =? 401) || (status_code =? 403))%Z
             then "Authentication failed (Invalid API Key?)"
             else if (status_code =? 404)%Z
             then "Recipe ID " +:+ Py.str_of_Z recipe_id +:+ " not found"
             else if (status_code =? 429)%Z then "API rate limit exceeded"
             else status_detail status_code e in
           ret (ApiResult.mk VNone
                  (Some (get_error_message "SPOONACULAR_ERROR" (VStr error_detail))))
         else
           ret (ApiResult.mk VNone
                  (Some (get_error_message "GENERAL_ERROR" (VStr (Exn.msg e)))))).

Module SendResult.
(** The [{"success": ..., "message": ...}] dictionaries of the delivery
    gateways. *)
Record t := mk {
  success : bool;
  message : string
}.
End SendResult.

(** The [else] branch of [send_telegram_message]: the payload says not ok. *)
Definition telegram_specific_error (chat_id : string) (response_data : value)
  : res value :=
  match py_get response_data "description" (VStr "Unknown Telegram error") with
  | inl e => inl e
  | inr error_desc =>
      match py_get response_data "error_code" VNone with
      | inl e => inl e
      | inr error_code =>
          if value_eq_int error_code 400 then
            match py_in "chat not found" error_desc with
            | inl e => inl e
            | inr true => inr (VStr ("Chat ID '" +:+ chat_id +:+ "' not found or invalid."))
            | inr false =>
                if value_eq_int error_code 403 then
                  match py_in "bot was blocked" error_desc with
                  | inl e => inl e
                  | inr true => inr (VStr "Bot was blocked by the user.")
                  | inr false => inr error_desc
                  end
                else inr error_desc
            end
          else if value_eq_int error_code 403 then
            match py_in "bot was blocked" error_desc with
            | inl e => inl e
            | inr true => inr (VStr "Bot was blocked by the user.")
            | inr false => inr error_desc
            end
          else inr error_desc
      end
  end.

Definition telegram_url (api_key : string) : string :=
  "https://api.telegram.org/bot" +:+ api_key +:+ "/sendMessage".

Definition send_telegram_message `{Lib} (chat_id text : string) : M SendResult.t :=
  api_key <- get_api_key "telegram_bot" ;;
  if no_key api_key then
    ret (SendResult.mk false (get_error_message "MISSING_API_KEY" (VStr "Telegram Bot")))
  else
    let url := telegram_url (from_option id "" api_key) in
    try_except
      (response <- _make_request_with_retry "POST" url ;;
       response_data <- lift (response_json response) ;;
       ok <- lift (py_get response_data "ok" VNone) ;;
       if value_truthy ok then
         ret (SendResult.mk true "Shopping list sent successfully via Telegram!")
       else
         specific_error <- lift (telegram_specific_error chat_id response_data) ;;
         ret (SendResult.mk false (get_error_message "TELEGRAM_ERROR" specific_error)))
      (fun e =>
         if is_RequestException (Exn.cls e) then
           let status_code := status_of e in
           let error_detail :=
             if ((status_code =? 401) || (status_code =? 403))%Z
             then "Authentication failed (Invalid Bot Token?)"
             else status_detail status_code e in
           ret (SendResult.mk false (get_error_message "TELEGRAM_ERROR" (VStr error_detail)))
         else
           ret (SendResult.mk false (get_error_message "GENERAL_ERROR" (VStr (Exn.msg e))))).

(** The comprehension [[e.get('message', '') for e in error_data['errors']]]. *)
Fixpoint sendgrid_messages (errors : list value) : res (list value) :=
  match errors with
  | [] => inr []
  | e :: rest =>
      match py_get e "message" (VStr "") with
      | inl x => inl x
      | inr m =>
          match sendgrid_messages rest with
          | inl x => inl x
          | inr l => inr (m :: l)
          end
      end
  end.

(** The arguments of ['; '.join(messages)] must all be [str]. *)
Fixpoint all_str (messages : list value) : res (list string) :=
  match messages with
  | [] => inr []
  | VStr s :: rest =>
      match all_str rest with
      | inl x => inl x
      | inr l => inr (s :: l)
      end
  | v :: _ =>
      inl (exn TypeError ("sequence item: expected str instance, " +:+ type_name v
                          +:+ " found"))
  end.

(** The inner [try] of [send_sendgrid_email]: the detail read from the body
    of a response that is not a 202, or the exception that interrupts it. *)
Definition sendgrid_body_detail (to_email sender_email : string)
    (status_line : string) (response : Response.t) : res string :=
  match response_json response with
  | inl x => inl x
  | inr error_data =>
      match py_get error_data "errors" VNone with
      | inl x => inl x
      | inr errors =>
          if value_truthy errors then
            match getitem_str error_data "errors" with
            | inl x => inl x
            | inr errs =>
                match py_iter errs with
                | inl x => inl x
                | inr items =>
                    match sendgrid_messages items with
                    | inl x => inl x
                    | inr messages =>
                        match all_str messages with
                        | inl x => inl x
                        | inr msgs =>
                            if existsb (Py.contains "valid email address") msgs then
                              inr ("Invalid recipient email format '" +:+ to_email +:+ "'.")
                            else if existsb
                                      (fun msg => Py.contains "permission" msg
                                                  || Py.contains "authenticate" msg
                                                  || Py.contains "verified sender" msg)
                                      msgs
                            then
                              inr ("Sender email '" +:+ sender_email
                                   +:+ "' might not be verified or have sending permissions in SendGrid.")
                            else inr ("SendGrid Error(s): " +:+ Py.join "; " msgs)
                        end
                    end
                end
            end
          else inr status_line
      end
  end.

Definition sendgrid_url : string := "https://api.sendgrid.com/v3/mail/send".

Definition send_sendgrid_email `{Lib} (to_email subject body : string)
  : M SendResult.t :=
  api_key <- get_api_key "sendgrid" ;;
  sender_email <- get_api_key "sendgrid_sender" ;;
  if no_key api_key then
    ret (SendResult.mk false (get_error_message "MISSING_API_KEY" (VStr "SendGrid")))
  else if no_key sender_email then
    ret (SendResult.mk false "SendGrid sender email not configured in backend environment.")
  else
    let url := sendgrid_url in
    try_except
      (response <- _make_request_with_retry "POST" url ;;
       if (Response.status_code response =? 202)%Z then
         ret (SendResult.mk true "Shopping list sent successfully via Email!")
       else
         let status_line :=
           "SendGrid returned status " +:+ Py.str_of_Z (Response.status_code response) in
         let error_detail :=
           match sendgrid_body_detail to_email (from_option id "" sender_email)
                   status_line response with
           | inl _ => status_line
           | inr d => d
           end in
         ret (SendResult.mk false (get_error_message "SENDGRID_ERROR" (VStr error_detail))))
      (fun e =>
         if is_RequestException (Exn.cls e) then
           let status_code := status_of e in
           let error_detail :=
             if ((status_code =? 401) || (status_code =? 403))%Z
             then "Authentication failed (Invalid API Key or Permissions?)"
             else status_detail status_code e in
           ret (SendResult.mk false (get_error_message "SENDGRID_ERROR" (VStr error_detail)))
         else
           ret (SendResult.mk false (get_error_message "GENERAL_ERROR" (VStr (Exn.msg e))))).

Definition estimate (name : string) (amount : Q) (unit : string) : IngredientDetail.t :=
  IngredientDetail.mk None name (Some amount) (Some unit) (Some true).

Definition base_estimates : list IngredientDetail.t :=
  [ estimate "(Estimate) Salt" 1 "tsp";
    estimate "(Estimate) Pepper" (1 # 2) "tsp";
    estimate "(Estimate) Cooking Oil" 1 "tbsp" ].

Definition generate_fallback_ingredients (recipe_title : string)
  : list IngredientDetail.t :=
  let title := if Py.truthy recipe_title then Py.lower recipe_title else "" in
  let fallback_ingredients := base_estimates in
  if Py.contains "pasta" title || Py.contains "spaghetti" title
     || Py.contains "lasagna" title || Py.contains "macaroni" title
  then
    fallback_ingredients
      ++ [ estimate "(Estimate) Pasta" 8 "oz";
           estimate "(Estimate) Tomato Sauce" 1 "can" ]
  else if Py.contains "chicken" title then
    fallback_ingredients ++ [ estimate "(Estimate) Chicken" 1 "lb" ]
  else if Py.contains "salad" title then
    fallback_ingredients
      ++ [ estimate "(Estimate) Lettuce" 1 "head";
           estimate "(Estimate) Vinaigrette" 2 "tbsp" ]
  else if Py.contains "soup" title then
    fallback_ingredients ++ [ estimate "(Estimate) Broth" 4 "cups" ]
  else fallback_ingredients.

(** ** The regular expressions of perception.py *)

Module Re.

Definition newline : ascii := "010"%char.

(** A literal of the pattern matched under [re.IGNORECASE] at the start of
    [s]; the result is the rest of [s]. *)
Fixpoint prefix_ci (pat s : string) : option string :=
  match pat with
  | EmptyString => Some s
  | String p pat' =>
      match s with
      | EmptyString => None
      | String c s' =>
          if Ascii.eqb (Py.lower_char p) (Py.lower_char c) then prefix_ci pat' s'
          else None
      end
  end.

(** The rest of [s] after the leftmost occurrence of the literal. *)
Fixpoint find_ci (pat s : string) : option string :=
  match prefix_ci pat s with
  | Some rest => Some rest
  | None =>
      match s with
      | EmptyString => None
      | String _ s' => find_ci pat s'
      end
  end.

(** [(.*?)\]]: the shortest run of characters other than a newline that a
    closing bracket follows; the group and the characters consumed. *)
Fixpoint lazy_to_bracket (s : string) : option (string * nat) :=
  match s with
  | EmptyString => None
  | String c s' =>
      if Ascii.eqb c "]" then Some (EmptyString, 1)
      else if Ascii.eqb c newline then None
      else
        match lazy_to_bracket s' with
        | Some (g, n) => Some (String c g, S n)
        | None => None
        end
  end.

(** [\[TAG:\s*(.*?)\]] at the start of [s]; [opening] is ["[TAG:"].  The
    greedy [\s*] never has to give characters back: what it would return
    the group would have to match before reaching the same bracket. *)
Definition match_tag_at (opening : string) (s : string) : option (string * nat) :=
  match prefix_ci opening s with
  | None => None
  | Some rest =>
      let rest' := Py.lstrip rest in
      match lazy_to_bracket rest' with
      | Some (g, n) =>
          Some (g, String.length opening
                   + (String.length rest - String.length rest') + n)
      | None => None
      end
  end.

(** [[A-Z_]] under [re.IGNORECASE], on the code points below 256.  On a
    Python [str] the class also matches U+0130, U+0131, U+017F and U+212A,
    which fold to ASCII letters; they lie outside the characters of the
    embedding. *)
Definition is_letter_or_underscore (c : ascii) : bool :=
  let n := Py.code c in
  Py.between 65 90 n || Py.between 97 122 n || (n =? 95)%N.

Fixpoint span (p : ascii -> bool) (s : string) : string * string :=
  match s with
  | EmptyString => (EmptyString, EmptyString)
  | String c s' =>
      if p c then let '(g, rest) := span p s' in (String c g, rest)
      else (EmptyString, s)
  end.

(** [\[REASONING TYPE:\s*([A-Z_]+)\]] at the start of [s]. *)
Definition match_reasoning_at (s : string) : option (string * nat) :=
  match prefix_ci "[REASONING TYPE:" s with
  | None => None
  | Some rest =>
      let rest' := Py.lstrip rest in
      match span is_letter_or_underscore rest' with
      | (String c g, String b _) =>
          if Ascii.eqb b "]" then
            Some (String c g,
                  16 + (String.length rest - String.length rest')
                  + S (String.length g) + 1)
          else None
      | _ => None
      end
  end.

(** [re.findall]: the groups of the non-overlapping matches, left to
    right; [skip] counts the characters still inside the last match. *)
Fixpoint findall_from (match_at : string -> option (string * nat))
    (skip : nat) (s : string) : list string :=
  match s with
  | EmptyString => []
  | String _ s' =>
      match skip with
      | S k => findall_from match_at k s'
      | O =>
          match match_at s with
          | Some (g, n) => g :: findall_from match_at (n - 1) s'
          | None => findall_from match_at 0 s'
          end
      end
  end.

Definition findall (match_at : string -> option (string * nat)) (s : string)
  : list string :=
  findall_from match_at 0 s.

(** One of [\n\n], [ERROR HANDLING:], [Here is the query],
    [Please structure] starts here. *)
Definition at_terminator (s : string) : bool :=
  String.prefix (String newline (String newline EmptyString)) s
  || bool_decide (is_Some (prefix_ci "ERROR HANDLING:" s))
  || bool_decide (is_Some (prefix_ci "Here is the query" s))
  || bool_decide (is_Some (prefix_ci "Please structure" s)).

(** [([\s\S]*?)] followed by a terminator or the end of the text. *)
Fixpoint lazy_to_terminator (s : string) : string :=
  match s with
  | EmptyString => EmptyString
  | String c s' =>
      if at_terminator s then EmptyString else String c (lazy_to_terminator s')
  end.

(** Group 1 of the leftmost match of
    [SELF-CHECK(?::|)\s*([\s\S]*?)(?:\n\n|ERROR HANDLING:|Here is the query|Please structure|\Z)]. *)
Definition search_self_check (s : string) : option string :=
  match find_ci "SELF-CHECK" s with
  | None => None
  | Some rest =>
      let rest :=
        match rest with
        | String c r => if Ascii.eqb c ":" then r else rest
        | EmptyString => rest
        end in
      Some (lazy_to_terminator (Py.lstrip rest))
  end.

End Re.

(** ** perception.py *)

Module LLMMetadata.
Record t := mk {
  selfCheck : string;
  reasoningTypes : list string;
  uncertainties : string;
  errors : string
}.
Definition default : t := mk "Not performed" [] "" "".
End LLMMetadata.

Module LLMAnalysisResult.
Record t := mk {
  response_text : value;
  metadata : LLMMetadata.t;
  error : option string;
  final_retry_count : Z;
  prompt : option string
}.
Definition default : t := mk (VStr "") LLMMetadata.default None 0 None.
End LLMAnalysisResult.

(** [sorted(list(set(l)))]. *)
Definition sorted_set (l : list string) : list string :=
  merge_sort String.le (elements (list_to_set l : gset string)).

Definition preference_suffix (label : string) (l : list string) : string :=
  match l with
  | [] => ""
  | _ => "; Preference-related " +:+ label +:+ ": " +:+ Py.join "; " l
  end.

(** The pattern operations raise nothing on a [str], so the handler of the
    source's [try] is never entered. *)
Definition extract_reasoning_metadata (llm_response : value) : LLMMetadata.t :=
  match llm_response with
  | VStr text =>
      let selfCheck :=
        match Re.search_self_check text with
        | Some g => Py.strip g
        | None => "No explicit self-check section found."
        end in
      let reasoning_matches := Re.findall Re.match_reasoning_at text in
      let uncertainty_matches := Re.findall (Re.match_tag_at "[UNCERTAINTY:") text in
      let uncertainties := Py.join "; " (sorted_set (Py.strip <$> uncertainty_matches)) in
      let error_matches := Re.findall (Re.match_tag_at "[ERROR:") text in
      let errors := Py.join "; " (sorted_set (Py.strip <$> error_matches)) in
      let preference_errors :=
        List.filter (fun e => Py.contains "preference" (Py.lower e)) error_matches in
      let preference_uncertainties :=
        List.filter (fun u => Py.contains "preference" (Py.lower u)
                              || Py.contains "cuisine" (Py.lower u)
                              || Py.contains "food type" (Py.lower u))
                    uncertainty_matches in
      LLMMetadata.mk selfCheck (sorted_set reasoning_matches)
        (uncertainties +:+ preference_suffix "uncertainties" preference_uncertainties)
        (errors +:+ preference_suffix "errors" preference_errors)
  | _ => LLMMetadata.mk "Invalid input type" [] "" "Invalid input type"
  end.

Definition rbind {A B} (r : res A) (k : A -> res B) : res B :=
  match r with
  | inl e => inl e
  | inr a => k a
  end.

Notation "x <~ r ;; k" := (rbind r (fun x => k))
  (at level 100, r at next level, right associativity) : py_scope.

(** The fixed texts of [build_reasoning_prompt], which no result depends
    on: the opening instructions and the block of each stage. *)
Class PromptText := {
  prompt_opening : string;
  prompt_stage_1 : string;
  prompt_stage_2 : string;
  prompt_stage_3 : string
}.

Definition build_reasoning_prompt `{PromptText} (query : string) (stage : Z) : string :=
  let reasoning_prompt := prompt_opening in
  let reasoning_prompt :=
    if (stage =? 1)%Z then reasoning_prompt +:+ prompt_stage_1
    else if (stage =? 2)%Z then reasoning_prompt +:+ prompt_stage_2
    else if (stage =? 3)%Z then reasoning_prompt +:+ prompt_stage_3
    else reasoning_prompt in
  reasoning_prompt +:+ "

    Here is the query/context to respond to:
    " +:+ query +:+ "

    Please structure your response with clearly labeled reasoning types using [REASONING TYPE: X] tags, include your SELF-CHECK section, flag any uncertainties with [UNCERTAINTY: X] tags, mark any errors with [ERROR: X] tags, and then conclude with the most helpful answer or action plan.
    ".

Definition error_dict (message : string) : value :=
  VDict [("error", VDict [("message", VStr message)])].

(** The body of the [try] of [_call_gemini_api_with_retry] once
    [requests.post] has returned [response]. *)
Definition gemini_response `{Lib} (response : Response.t) : res value :=
  if (Response.status_code response =? 200)%Z then
    response_data <~ response_json response ;;
    feedback <~ py_get response_data "promptFeedback" (VDict []) ;;
    block <~ py_get feedback "blockReason" VNone ;;
    if value_truthy block then
      feedback <~ getitem_str response_data "promptFeedback" ;;
      reason <~ getitem_str feedback "blockReason" ;;
      feedback <~ py_get response_data "promptFeedback" (VDict []) ;;
      ratings <~ py_get feedback "safetyRatings" (VList []) ;;
      inl (exn Exception ("Gemini request blocked due to: " +:+ py_str reason
                          +:+ ". Ratings: " +:+ py_str ratings))
    else
      candidates <~ py_get response_data "candidates" VNone ;;
      if negb (value_truthy candidates)
      then inl (exn Exception "Gemini response missing candidates.")
      else inr response_data
  else
    let error_details := "Status " +:+ Py.str_of_Z (Response.status_code response) in
    let detail :=
      error_json <~ response_json response ;;
      error <~ py_get error_json "error" (VDict []) ;;
      message <~ py_get error "message" (VStr (Response.text response)) ;;
      inr (error_details +:+ ": " +:+ py_str message) in
    match detail with
    | inr error_details =>
        inl (Exn.mk RequestException error_details (Some response))
    | inl e =>
        if is_JSONDecodeError (Exn.cls e) then
          inl (Exn.mk RequestException
                 (error_details +:+ ": " +:+ Response.text response) (Some response))
        else inl e
    end.

(** The [while retries <= MAX_LLM_RETRIES] loop, for any value [max] of the
    constant. *)
Fixpoint gemini_loop `{Lib} (max fuel : nat) (url : string) (retries : nat)
    (last_exception : option Exn.t) : M value :=
  match fuel with
  | O => fun w => (OutOfFuel, w)
  | S fuel' =>
      if (retries <=? max)%nat then
        try_except
          (response <- requests_request "POST" url ;;
           lift (gemini_response response))
          (fun e =>
             if is_RequestException (Exn.cls e) then
               let retries := S retries in
               if (max <? retries)%nat then
                 ret (error_dict ("LLM API failed after retries: " +:+ Exn.msg e))
               else
                 time_sleep (wait_time 1 retries) ;;;
                 gemini_loop max fuel' url retries (Some e)
             else ret (error_dict ("LLM call failed: " +:+ Exn.msg e)))
      else
        ret (error_dict
               ("LLM API failed after " +:+ Py.str_of_Z (Z.of_nat max)
                +:+ " retries: "
                +:+ match last_exception with
                    | Some e => Exn.msg e
                    | None => "None"
                    end))
  end.

Definition gemini_url (api_key : string) : string :=
  "https://generativelanguage.googleapis.com/v1beta/models/gemini-1.5-flash-latest:generateContent"
  +:+ "?key=" +:+ api_key.

Definition _call_gemini_api_with_retry `{Lib} (prompt api_key : string) : M value :=
  gemini_loop MAX_LLM_RETRIES (S (S MAX_LLM_RETRIES)) (gemini_url api_key) 0 None.

(** [raw["candidates"][0]["content"]["parts"][0]["text"]]. *)
Definition candidate_text (raw_response_data : value) : res value :=
  candidates <~ getitem_str raw_response_data "candidates" ;;
  candidate <~ getitem_0 candidates ;;
  content <~ getitem_str candidate "content" ;;
  parts <~ getitem_str content "parts" ;;
  part <~ getitem_0 parts ;;
  getitem_str part "text".

(** The prompt is printed and appended to a log file before the call, the
    reply after it.  The writes stand in [try] blocks of their own whose
    handlers only print; [print] and [os.makedirs("logs", exist_ok=True)]
    stand outside every [try] and are taken to succeed, so what they could
    raise (an [OSError]) is not among the outcomes below. *)
Definition run_llm_analysis `{Lib} `{PromptText} (query : string) (stage : Z)
  : M LLMAnalysisResult.t :=
  api_key <- get_api_key "gemini" ;;
  let result := LLMAnalysisResult.default in
  if no_key api_key then
    ret (LLMAnalysisResult.mk
           (VStr "[Fallback due to missing API key]")
           (LLMAnalysisResult.metadata result)
           (Some (get_error_message "MISSING_API_KEY" (VStr "Gemini")))
           (LLMAnalysisResult.final_retry_count result)
           (LLMAnalysisResult.prompt result))
  else
    let prompt := build_reasoning_prompt query stage in
    raw_response_data <- _call_gemini_api_with_retry prompt (from_option id "" api_key) ;;
    error <- lift (py_get raw_response_data "error" VNone) ;;
    if value_truthy error then
      error <- lift (getitem_str raw_response_data "error") ;;
      message <- lift (py_get error "message" (VStr "Unknown API error")) ;;
      let result_error := get_error_message "LLM_FAILURE" message in
      ret (LLMAnalysisResult.mk
             (VStr ("[Fallback due to LLM API error: " +:+ result_error +:+ "]"))
             (LLMAnalysisResult.metadata result)
             (Some result_error)
             (LLMAnalysisResult.final_retry_count result)
             (Some prompt))
    else
      try_except
        (response_text <- lift (candidate_text raw_response_data) ;;
         let metadata := extract_reasoning_metadata response_text in
         let result_error :=
           if Py.truthy (LLMMetadata.errors metadata)
           then Some ("LLM identified issues: " +:+ LLMMetadata.errors metadata)
           else LLMAnalysisResult.error result in
         ret (LLMAnalysisResult.mk response_text metadata result_error
                (LLMAnalysisResult.final_retry_count result) (Some prompt)))
        (fun e =>
           match Exn.cls e with
           | KeyError | IndexError | TypeError =>
               let result_error :=
                 get_error_message "LLM_FAILURE"
                   (VStr ("Invalid response structure: " +:+ Exn.msg e)) in
               ret (LLMAnalysisResult.mk
                      (VStr ("[Fallback due to response parsing error: "
                             +:+ result_error +:+ "]"))
                      (LLMMetadata.mk "Not performed" [] "" "Response parsing failed")
                      (Some result_error)
                      (LLMAnalysisResult.final_retry_count result)
                      (Some prompt))
           | _ => raise e
           end).

(** ** decision_making.py *)

Module FindRecipesRequest.
Record t := mk {
  ingredients : string;
  foodType : option string;
  cuisine : option string
}.
End FindRecipesRequest.

Module FindRecipesResponse.
Record t := mk {
  recipes : option (list RecipeSummary.t);
  error : option string;
  llm_prompt : option string;
  metadata : option LLMMetadata.t
}.
End FindRecipesResponse.

Module GetMissingIngredientsRequest.
Record t := mk {
  recipeId : Z;
  recipeTitle : string;
  userIngredients : list string
}.
End GetMissingIngredientsRequest.

Module GetMissingIngredientsResponse.
Record t := mk {
  missingIngredients : option (list IngredientDetail.t);
  isEstimate : bool;
  error : option string;
  llm_prompt : option string;
  metadata : option LLMMetadata.t
}.
End GetMissingIngredientsResponse.

(** Truth value of an [Optional[str]]. *)
Definition opt_truthy (o : option string) : bool :=
  match o with
  | Some s => Py.truthy s
  | None => false
  end.

(** [x and x != 'any'] for a preference. *)
Definition preference_given (o : option string) : bool :=
  match o with
  | Some s => Py.truthy s && negb (String.eqb s "any")
  | None => false
  end.

(** The body of the loop over [api_result["data"]]: one [RecipeSummary]. *)
Definition recipe_of_item `{Lib} (item : value) : res RecipeSummary.t :=
  id <~ getitem_str item "id" ;;
  title <~ getitem_str item "title" ;;
  image <~ py_get item "image" VNone ;;
  used <~ py_get item "usedIngredientCount" (VInt 0) ;;
  missed <~ py_get item "missedIngredientCount" (VInt 0) ;;
  RecipeSummary_new id title image used missed.

Fixpoint recipes_of_items `{Lib} (items : list value) : res (list RecipeSummary.t) :=
  match items with
  | [] => inr []
  | item :: rest =>
      recipe <~ recipe_of_item item ;;
      recipes <~ recipes_of_items rest ;;
      inr (recipe :: recipes)
  end.

Definition find_recipes_query (request : FindRecipesRequest.t) : string :=
  let query :=
    "The user wants recipe suggestions for these ingredients: '"
    +:+ FindRecipesRequest.ingredients request +:+ "'" in
  let query :=
    if preference_given (FindRecipesRequest.foodType request)
    then query +:+ ", with food type preference: "
         +:+ from_option id "" (FindRecipesRequest.foodType request)
    else query in
  if preference_given (FindRecipesRequest.cuisine request)
  then query +:+ ", and cuisine preference: "
       +:+ from_option id "" (FindRecipesRequest.cuisine request)
  else query.

(** [process_find_recipes] from the point where [api_result] is known. *)
Definition find_recipes_response `{Lib} (llm_result : LLMAnalysisResult.t)
    (api_result : ApiResult.t) : FindRecipesResponse.t :=
  let respond recipes error :=
    FindRecipesResponse.mk recipes error (LLMAnalysisResult.prompt llm_result)
      (Some (LLMAnalysisResult.metadata llm_result)) in
  if opt_truthy (ApiResult.error api_result) then
    respond None (ApiResult.error api_result)
  else
    let built :=
      if value_truthy (ApiResult.data api_result) then
        items <~ py_iter (ApiResult.data api_result) ;;
        recipes_of_items items
      else inr [] in
    match built with
    | inl e => respond None (Some ("Error processing recipe data: " +:+ Exn.msg e))
    | inr recipes =>
        respond (Some recipes)
          (match recipes with
           | [] => Some "No recipes found matching your ingredients and preferences."
           | _ => None
           end)
    end.

(** The two nested tests that make [process_find_recipes] return before
    it calls the recipe provider. *)
Definition invalid_ingredients_flagged (llm_result : LLMAnalysisResult.t) : bool :=
  opt_truthy (LLMAnalysisResult.error llm_result)
  && Py.contains "LLM identified issues"
       (from_option id "" (LLMAnalysisResult.error llm_result))
  && Py.contains "Invalid ingredients"
       (LLMMetadata.errors (LLMAnalysisResult.metadata llm_result)).

Definition process_find_recipes `{Lib} `{PromptText} (request : FindRecipesRequest.t)
  : M FindRecipesResponse.t :=
  let query := find_recipes_query request in
  llm_result <- run_llm_analysis query 1 ;;
  let errors := LLMMetadata.errors (LLMAnalysisResult.metadata llm_result) in
  if invalid_ingredients_flagged llm_result
  then
    ret (FindRecipesResponse.mk None
           (Some ("Invalid ingredients detected: " +:+ errors))
           (LLMAnalysisResult.prompt llm_result)
           (Some (LLMAnalysisResult.metadata llm_result)))
  else
    let ingredients := Py.strip (FindRecipesRequest.ingredients request) in
    api_result <- fetch_spoonacular_recipes ingredients
                    (FindRecipesRequest.foodType request)
                    (FindRecipesRequest.cuisine request) ;;
    ret (find_recipes_response llm_result api_result).

(** What [find_missing_ingredients] meets in an element of the list it is
    given: an ingredient, a falsy value that it skips, or a value without
    the attribute [name]. *)
Definition as_required (v : value) : res (option SpoonacularIngredient.t) :=
  match v with
  | VIngredient i => inr (Some i)
  | _ => if value_truthy v then no_attribute v "name" else inr None
  end.

Fixpoint all_required (l : list value) : res (list (option SpoonacularIngredient.t)) :=
  match l with
  | [] => inr []
  | v :: rest =>
      r <~ as_required v ;;
      rs <~ all_required rest ;;
      inr (r :: rs)
  end.

(** The [try] block of [process_get_missing_ingredients]: the value bound
    to [required_ingredients], or the exception the block raises. *)
Definition extract_required `{Lib} (recipe_data : value) : res (list value) :=
  has <~ py_in "extendedIngredients" recipe_data ;;
  if has then
    extended <~ getitem_str recipe_data "extendedIngredients" ;;
    first <~ getitem_0 extended ;;
    match first with
    | VIngredient _ =>
        extended <~ getitem_str recipe_data "extendedIngredients" ;;
        py_iter extended
    | _ =>
        extended <~ getitem_str recipe_data "extendedIngredients" ;;
        items <~ py_iter extended ;;
        build_ingredients items
    end
  else inr [].

Definition detail_of_ingredient (ing : SpoonacularIngredient.t) : IngredientDetail.t :=
  IngredientDetail.mk
    (Some (SpoonacularIngredient.id ing))
    (SpoonacularIngredient.name ing)
    (Some (SpoonacularIngredient.amount ing))
    (Some (SpoonacularIngredient.unit ing))
    (Some false).

Definition missing_ingredients_query (request : GetMissingIngredientsRequest.t) : string :=
  "The user selected the recipe '" +:+ GetMissingIngredientsRequest.recipeTitle request
  +:+ "' (ID: " +:+ Py.str_of_Z (GetMissingIngredientsRequest.recipeId request)
  +:+ ") and has these ingredients: "
  +:+ Py.join ", " (GetMissingIngredientsRequest.userIngredients request)
  +:+ "."
  +:+ " We need to determine what ingredients they're missing for this recipe.".

(** [process_get_missing_ingredients] from the point where [api_result] is
    known; the comparison runs outside the [try], so what it raises leaves
    the function. *)
Definition missing_ingredients_response `{Lib}
    (request : GetMissingIngredientsRequest.t)
    (llm_result : LLMAnalysisResult.t) (api_result : ApiResult.t)
  : res GetMissingIngredientsResponse.t :=
  let fallback error :=
    GetMissingIngredientsResponse.mk
      (Some (generate_fallback_ingredients
               (GetMissingIngredientsRequest.recipeTitle request)))
      true (Some error) (LLMAnalysisResult.prompt llm_result) None in
  if opt_truthy (ApiResult.error api_result) then
    inr (fallback ("Could not retrieve exact recipe ingredients: "
                   +:+ from_option id "" (ApiResult.error api_result)))
  else
    match extract_required (ApiResult.data api_result) with
    | inl e => inr (fallback ("Error processing recipe ingredients: " +:+ Exn.msg e))
    | inr required_ingredients =>
        required <~ all_required required_ingredients ;;
        let missing_ingredients_raw :=
          find_missing_ingredients required
            (Some <$> GetMissingIngredientsRequest.userIngredients request) in
        inr (GetMissingIngredientsResponse.mk
               (Some (detail_of_ingredient <$> missing_ingredients_raw))
               false None (LLMAnalysisResult.prompt llm_result) None)
    end.

Definition process_get_missing_ingredients `{Lib} `{PromptText}
    (request : GetMissingIngredientsRequest.t) : M GetMissingIngredientsResponse.t :=
  let query := missing_ingredients_query request in
  llm_result <- run_llm_analysis query 2 ;;
  api_result <- fetch_spoonacular_details
                  (GetMissingIngredientsRequest.recipeId request) ;;
  lift (missing_ingredients_response request llm_result api_result).

(** ** The ingredient matcher as the specification words it *)

(** The entries of the owned list that the set comprehension keeps. *)
Definition owned_names (user_ingredients : list (option string)) : list string :=
  omap (fun ing =>
          match ing with
          | Some s => if Py.truthy s then Some s else None
          | None => None
          end) user_ingredients.

(** Equal, or one a substring of the other. *)
Definition related (a b : string) : bool :=
  String.eqb a b || Py.contains a b || Py.contains b a.

(** "Satisfied" read literally: any owned normalized form counts. *)
Definition satisfied_as_claimed (user_ingredients : list (option string))
    (n : string) : bool :=
  existsb (fun o => related n (normalize_ingredient o)) (owned_names user_ingredients).

Definition find_missing_as_claimed
    (required_ingredients : list (option SpoonacularIngredient.t))
    (user_ingredients : list (option string)) : list SpoonacularIngredient.t :=
  List.filter
    (fun r => Py.truthy (SpoonacularIngredient.name r)
              && negb (satisfied_as_claimed user_ingredients
                         (normalize_ingredient (SpoonacularIngredient.name r))))
    (omap id required_ingredients).

(** "Satisfied" as the guards of the code make it: an owned form that
    normalizes to the empty string satisfies nothing. *)
Definition satisfied (user_ingredients : list (option string)) (n : string) : bool :=
  existsb (fun o => Py.truthy (normalize_ingredient o)
                    && related n (normalize_ingredient o))
          (owned_names user_ingredients).

(** A required ingredient is reported when its normalized name is not
    empty and nothing owned satisfies it. *)
Definition is_missing (user_ingredients : list (option string))
    (r : SpoonacularIngredient.t) : bool :=
  Py.truthy (normalize_ingredient (SpoonacularIngredient.name r))
  && negb (satisfied user_ingredients
             (normalize_ingredient (SpoonacularIngredient.name r))).

Definition ingredient (name : string) : SpoonacularIngredient.t :=
  SpoonacularIngredient.mk 1 1 "" name name.

(** The character [c] occurs in [s]. *)
Fixpoint occurs (c : ascii) (s : string) : bool :=
  match s with
  | EmptyString => false
  | String c' s' => Ascii.eqb c c' || occurs c s'
  end.

(** ** The fallback generator as the specification words it *)

Inductive category := Pasta | Chicken | Salad | Soup.

Definition priority : list category := [Pasta; Chicken; Salad; Soup].

Definition keywords (c : category) : list string :=
  match c with
  | Pasta => ["pasta"; "spaghetti"; "lasagna"; "macaroni"]
  | Chicken => ["chicken"]
  | Salad => ["salad"]
  | Soup => ["soup"]
  end.

Definition addition (c : category) : list IngredientDetail.t :=
  match c with
  | Pasta => [ estimate "(Estimate) Pasta" 8 "oz";
               estimate "(Estimate) Tomato Sauce" 1 "can" ]
  | Chicken => [ estimate "(Estimate) Chicken" 1 "lb" ]
  | Salad => [ estimate "(Estimate) Lettuce" 1 "head";
               estimate "(Estimate) Vinaigrette" 2 "tbsp" ]
  | Soup => [ estimate "(Estimate) Broth" 4 "cups" ]
  end.

(** A keyword of the category occurs in the title, letter case ignored. *)
Definition mentions (recipe_title : string) (c : category) : bool :=
  existsb (fun k => Py.contains k (Py.lower recipe_title)) (keywords c).

(** The first category, in priority order, that the title mentions. *)
Definition chosen (recipe_title : string) : option category :=
  head (List.filter (mentions recipe_title) priority).

(** ** The retry wrappers: vocabulary *)

(** What one pass of the loop of [_make_request_with_retry] draws from the
    attempt it makes: the response, or the exception raised by the request
    or by [raise_for_status]. *)
Definition api_attempt `{Lib} (a : attempt) : res Response.t :=
  match a with
  | Fails e => inl e
  | Responds r => _ <~ raise_for_status r ;; inr r
  end.

(** The same for [_call_gemini_api_with_retry]. *)
Definition gemini_attempt `{Lib} (a : attempt) : res value :=
  match a with
  | Fails e => inl e
  | Responds r => gemini_response r
  end.

(** A failure that the loops retry: a [RequestException]. *)
Definition transient {A} (o : res A) : bool :=
  match o with
  | inl e => is_RequestException (Exn.cls e)
  | inr _ => false
  end.

(** The events of [k] failed attempts, the first of them being failure
    number [retries + 1], followed by one more request. *)
Fixpoint backoff_trace (base : Q) (method url : string) (retries k : nat)
  : list event :=
  match k with
  | O => [Request method url]
  | S k' =>
      Request method url :: Sleep (wait_time base (S retries))
      :: backoff_trace base method url (S retries) k'
  end.

(** Raising what the attempt raised, returning what it returned. *)
Definition outcome_of {A} (o : res A) : outcome A :=
  match o with
  | inr r => Ok r
  | inl e => Raise e
  end.

(** How the two wrappers end on the outcome of their last attempt. *)
Definition api_result_of (o : res Response.t) : outcome Response.t := outcome_of o.

Definition gemini_result_of (o : res value) : outcome value :=
  match o with
  | inr v => Ok v
  | inl e =>
      if is_RequestException (Exn.cls e)
      then Ok (error_dict ("LLM API failed after retries: " +:+ Exn.msg e))
      else Ok (error_dict ("LLM call failed: " +:+ Exn.msg e))
  end.

Definition after (w : World.t) (requests : nat) (events : list event) : World.t :=
  World.mk (World.API_KEYS w) (World.http w) (World.made w + requests)
           (World.trace w ++ events).

Definition is_request (ev : event) : bool :=
  match ev with
  | Request _ _ => true
  | Sleep _ => false
  end.

(** ** The delivery gateways: vocabulary *)

(** The payload of the response parses to a dictionary whose ["ok"] entry
    is truthy. *)
Definition payload_ok (r : Response.t) : bool :=
  match response_json r with
  | inr v =>
      match py_get v "ok" VNone with
      | inr ok => value_truthy ok
      | inl _ => false
      end
  | inl _ => false
  end.

(** The status is one for which [raise_for_status] raises. *)
Definition error_status (r : Response.t) : bool :=
  ((400 <=? Response.status_code r) && (Response.status_code r <? 600))%Z.

(** The credential is configured. *)
Definition has_key (w : World.t) (key_name : string) : bool :=
  negb (no_key (World.API_KEYS w !! key_name)).

Definition key_of (w : World.t) (key_name : string) : string :=
  from_option id "" (World.API_KEYS w !! key_name).

(** ** The reasoning gateway: vocabulary *)

(** The contents of the [[ERROR: X]] tags of a reply, as the pattern of
    [extract_reasoning_metadata] finds them. *)
Definition error_tags (text : string) : list string :=
  Re.findall (Re.match_tag_at "[ERROR:") text.

(** Every character is whitespace. *)
Fixpoint blank (s : string) : bool :=
  match s with
  | EmptyString => true
  | String c s' => Py.isspace c && blank s'
  end.

(** The top-level error of a finished analysis, [None] when it did not
    finish. *)
Definition top_level_error (o : outcome LLMAnalysisResult.t) : option (option string) :=
  match o with
  | Ok result => Some (LLMAnalysisResult.error result)
  | _ => None
  end.

Definition gemini_reply (text : string) : value :=
  VDict [("candidates",
          VList [VDict [("content",
                         VDict [("parts", VList [VDict [("text", VStr text)]])])]])].

(** ** The pipelines: vocabulary *)

(** What a run returned, [None] when it raised or did not finish. *)
Definition returned {A} (o : outcome A) : option A :=
  match o with
  | Ok a => Some a
  | _ => None
  end.

Definition no_recipes_message : string :=
  "No recipes found matching your ingredients and preferences.".

(** The response of the missing-ingredients pipeline when it falls back on
    the estimates. *)
Definition fallback_response (request : GetMissingIngredientsRequest.t)
    (llm_result : LLMAnalysisResult.t) (error : string)
  : GetMissingIngredientsResponse.t :=
  GetMissingIngredientsResponse.mk
    (Some (generate_fallback_ingredients
             (GetMissingIngredientsRequest.recipeTitle request)))
    true (Some error) (LLMAnalysisResult.prompt llm_result) None.

(** ** Sample inputs *)

(** A library instance with strict validators. *)
Definition strict_ingredient (v : value) : res SpoonacularIngredient.t :=
  match v with
  | VDict kv =>
      match assoc "id" kv, assoc "amount" kv, assoc "unit" kv, assoc "name" kv,
            assoc "original" kv with
      | Some (VInt i), Some (VFloat a), Some (VStr u), Some (VStr n), Some (VStr o) =>
          inr (SpoonacularIngredient.mk i a u n o)
      | Some (VInt i), Some (VInt a), Some (VStr u), Some (VStr n), Some (VStr o) =>
          inr (SpoonacularIngredient.mk i (inject_Z a) u n o)
      | _, _, _, _, _ => inl (exn ValidationError "validation error for SpoonacularIngredient")
      end
  | _ => inl (exn TypeError "argument after ** must be a mapping")
  end.

Definition strict_recipe (id title image used missed : value) : res RecipeSummary.t :=
  match id, title with
  | VInt i, VStr t =>
      inr (RecipeSummary.mk i t
             (match image with VStr s => Some s | _ => None end)
             (match used with VInt n => Some n | _ => None end)
             (match missed with VInt n => Some n | _ => None end))
  | _, _ => inl (exn ValidationError "validation error for RecipeSummary")
  end.

Definition strict_lib : Lib :=
  {| py_repr := fun v => "<" +:+ type_name v +:+ ">";
     http_error_msg := fun r => Py.str_of_Z (Response.status_code r) +:+ " Error";
     SpoonacularIngredient_new := strict_ingredient;
     RecipeSummary_new := strict_recipe |}.

Definition plain_prompts : PromptText :=
  {| prompt_opening := "Think step by step.";
     prompt_stage_1 := " Stage 1.";
     prompt_stage_2 := " Stage 2.";
     prompt_stage_3 := " Stage 3." |}.

Definition all_keys : gmap string string :=
  list_to_map [("spoonacular", "k1"); ("gemini", "k2"); ("telegram_bot", "k3");
               ("sendgrid", "k4"); ("sendgrid_sender", "bot@example.com")].

Definition timeout_error : Exn.t := exn Timeout "Read timed out.".

Definition respond (status_code : Z) (body : value) : attempt :=
  Responds (Response.mk status_code "" (JsonOk body)).

(** A world whose [n]-th request meets the [n]-th attempt of the list, and
    [rest] once the list is exhausted. *)
Definition world_of (keys : gmap string string) (attempts : list attempt)
    (rest : attempt) : World.t :=
  World.mk keys (fun n => nth n attempts rest) 0 [].

(** Only the recipe provider is configured: the reasoning stage is
    skipped and makes no request. *)
Definition recipe_keys : gmap string string := {[ "spoonacular" := "k1" ]}.

Definition find_request : FindRecipesRequest.t :=
  FindRecipesRequest.mk "chicken, rice" (Some "any") (Some "any").

Definition missing_request : GetMissingIngredientsRequest.t :=
  GetMissingIngredientsRequest.mk 7 "Chicken Soup" ["salt"].

(** The result of the reasoning stage when its credential is absent. *)
Definition skipped_analysis : LLMAnalysisResult.t :=
  LLMAnalysisResult.mk (VStr "[Fallback due to missing API key]") LLMMetadata.default
    (Some "Gemini API key not configured in backend environment.") 0 None.

Definition empty_recipe : list (string * value) :=
  [("title", VStr "Stone Soup"); ("extendedIngredients", VList [])].

(** ** Further vocabulary *)

Definition is_dict (v : value) : bool :=
  match v with
  | VDict _ => true
  | _ => false
  end.

(** What a recipe gateway hands back has one of two shapes: no error, or
    no data and a non-empty error. *)
Definition outcome_shape (api_result : ApiResult.t) : Prop :=
  ApiResult.error api_result = None
  \/ (ApiResult.data api_result = VNone
      /\ opt_truthy (ApiResult.error api_result) = true).

(** The exceptions that the last handler of [run_llm_analysis] catches. *)
Definition caught_by_analysis (e : Exn.t) : bool :=
  match Exn.cls e with
  | KeyError | IndexError | TypeError => true
  | _ => false
  end.

(** The text of the exception raised for a blocked prompt. *)
Definition blocked_text `{Lib} (reason ratings : value) : string :=
  "Gemini request blocked due to: " +:+ py_str reason
  +:+ ". Ratings: " +:+ py_str ratings.

Definition blocked_reply (reason : value) : value :=
  VDict [("promptFeedback", VDict [("blockReason", reason)])].

(** What the handlers of [fetch_spoonacular_details] report for an
    exception [e] raised in its [try] block: the [except
    RequestException] clause words the status code, the [except Exception]
    clause the text of the exception. *)
Definition details_error_message `{Lib} (recipe_id : Z) (e : Exn.t) : string :=
  if is_RequestException (Exn.cls e) then
    get_error_message "SPOONACULAR_ERROR"
      (VStr (if ((status_of e =? 401) || (status_of e =? 403))%Z
             then "Authentication failed (Invalid API Key?)"
             else if (status_of e =? 404)%Z
             then "Recipe ID " +:+ Py.str_of_Z recipe_id +:+ " not found"
             else if (status_of e =? 429)%Z then "API rate limit exceeded"
             else status_detail (status_of e) e))
  else get_error_message "GENERAL_ERROR" (VStr (Exn.msg e)).

(** The [try] block of [fetch_spoonacular_details] raises [e] and leaves
    the world [w']: the request wrapper raises it, or reading the body
    does, or the membership test on what was read. *)
Definition details_call_raises `{Lib} (recipe_id : Z) (w : World.t) (e : Exn.t)
    (w' : World.t) : Prop :=
  _make_request_with_retry "GET" (information_url recipe_id) w = (Raise e, w')
  \/ exists r,
       _make_request_with_retry "GET" (information_url recipe_id) w = (Ok r, w')
       /\ (response_json r = inl e
           \/ exists recipe_data,
                response_json r = inr recipe_data
                /\ py_in "extendedIngredients" recipe_data = inl e).

(** ** decision_making.py: sending the list *)

Module SendListRequest.
Record t := mk {
  deliveryMethod : string;
  deliveryDetails : string;
  recipeTitle : string;
  missingIngredients : list IngredientDetail.t
}.
End SendListRequest.

Module SendListResponse.
Record t := mk {
  success : bool;
  message : string;
  llm_prompt : option string;
  metadata : option LLMMetadata.t
}.
End SendListResponse.

(** The one-character string of a line feed. *)
Definition LF : string := String Re.newline EmptyString.

(** Truth value of an [Optional[float]]. *)
Definition amount_truthy (o : option Q) : bool :=
  match o with
  | Some q => negb (Qeq_bool q 0)
  | None => false
  end.

(** The body of the loop over [request.missingIngredients]: one line of the
    list. *)
Definition format_ingredient `{Lib} (ing : IngredientDetail.t) : string :=
  if amount_truthy (IngredientDetail.amount ing)
     && opt_truthy (IngredientDetail.unit ing)
  then py_str (VFloat (from_option id 0%Q (IngredientDetail.amount ing)))
       +:+ " " +:+ from_option id "" (IngredientDetail.unit ing)
       +:+ " " +:+ IngredientDetail.name ing
  else IngredientDetail.name ing.

Definition formatted_ingredients `{Lib} (request : SendListRequest.t) : list string :=
  format_ingredient <$> SendListRequest.missingIngredients request.

Definition ingredients_text `{Lib} (request : SendListRequest.t) : string :=
  match formatted_ingredients request with
  | [] => "You have all needed ingredients!"
  | formatted => Py.join LF ((fun ing => "- " +:+ ing) <$> formatted)
  end.

Definition send_list_query `{Lib} (request : SendListRequest.t) : string :=
  ("The user wants to send a shopping list for the recipe '"
   +:+ SendListRequest.recipeTitle request +:+ "' via "
   +:+ SendListRequest.deliveryMethod request +:+ " to '"
   +:+ SendListRequest.deliveryDetails request +:+ "'.")
  +:+ (" The list contains these items:" +:+ LF +:+ ingredients_text request).

Definition send_list_subject (request : SendListRequest.t) : string :=
  "Shopping List for " +:+ SendListRequest.recipeTitle request.

Definition send_list_message `{Lib} (request : SendListRequest.t) : string :=
  let message :=
    "Shopping List for: " +:+ SendListRequest.recipeTitle request +:+ LF +:+ LF in
  let message :=
    match formatted_ingredients request with
    | [] => message +:+ "Good news! You have all the ingredients needed for this recipe."
    | _ => message +:+ ("Items you need:" +:+ LF +:+ ingredients_text request)
    end in
  message +:+ (LF +:+ LF +:+ "Happy cooking!" +:+ LF +:+ "Sent via Recipe Suggester").

Definition process_send_list `{Lib} `{PromptText} (request : SendListRequest.t)
  : M SendListResponse.t :=
  let query := send_list_query request in
  llm_result <- run_llm_analysis query 3 ;;
  let subject := send_list_subject request in
  let message := send_list_message request in
  result <- (if String.eqb (SendListRequest.deliveryMethod request) "telegram"
             then send_telegram_message (SendListRequest.deliveryDetails request) message
             else send_sendgrid_email (SendListRequest.deliveryDetails request)
                    subject message) ;;
  ret (SendListResponse.mk (SendResult.success result) (SendResult.message result)
         (LLMAnalysisResult.prompt llm_result) None).

(** ** main.py *)

Module HTTPException.
Record t := mk {
  status_code : Z;
  detail : string
}.
End HTTPException.

(** [try: return process(request)] with [except Exception: raise
    HTTPException(status_code=500, detail=...)]: the body of the answer, or
    the [HTTPException] that the endpoint raises.  Every exception of the
    embedding is an [Exception]. *)
Definition endpoint {A} (process : M A) (detail : string)
  : M (HTTPException.t + A) :=
  fun w =>
    match process w with
    | (Ok a, w') => (Ok (inr a), w')
    | (Raise _, w') => (Ok (inl (HTTPException.mk 500 detail)), w')
    | (OutOfFuel, w') => (OutOfFuel, w')
    end.

Definition find_recipes `{Lib} `{PromptText} (request : FindRecipesRequest.t)
  : M (HTTPException.t + FindRecipesResponse.t) :=
  endpoint (process_find_recipes request) "Internal server error processing recipes.".

Definition get_missing_ingredients `{Lib} `{PromptText}
    (request : GetMissingIngredientsRequest.t)
  : M (HTTPException.t + GetMissingIngredientsResponse.t) :=
  endpoint (process_get_missing_ingredients request)
    "Internal server error processing missing ingredients.".

Definition send_list `{Lib} `{PromptText} (request : SendListRequest.t)
  : M (HTTPException.t + SendListResponse.t) :=
  endpoint (process_send_list request) "Internal server error sending shopping list.".

(** ** Further sample inputs *)

Definition recipe_item (id : Z) (name unit : string) : value :=
  VDict [("id", VInt id); ("amount", VInt 1); ("unit", VStr unit);
         ("name", VStr name); ("original", VStr name)].

Definition soup_recipe (items : list value) : list (string * value) :=
  [("title", VStr "Chicken Soup"); ("extendedIngredients", VList items)].

(** Only the recipe provider is configured, and it answers every request
    with the recipe. *)
Definition soup_world (items : list value) : World.t :=
  world_of recipe_keys [] (respond 200 (VDict (soup_recipe items))).

(** The world after the one request for the recipe of [missing_request]. *)
Definition soup_world_asked (items : list value) : World.t :=
  World.mk recipe_keys (fun n => nth n [] (respond 200 (VDict (soup_recipe items))))
    1 [Request "GET" (information_url 7)].

(** The recipe provider answers the search with one recipe. *)
Definition search_reply : value :=
  VList [VDict [("id", VInt 7); ("title", VStr "Chicken Soup");
                ("usedIngredientCount", VInt 2); ("missedIngredientCount", VInt 1)]].

Definition search_world : World.t := world_of recipe_keys [] (respond 200 search_reply).

Definition search_world_asked : World.t :=
  World.mk recipe_keys (fun n => nth n [] (respond 200 search_reply))
    1 [Request "GET" find_by_ingredients_url].

Definition search_response : FindRecipesResponse.t :=
  FindRecipesResponse.mk
    (Some [RecipeSummary.mk 7 "Chicken Soup" None (Some 2%Z) (Some 1%Z)])
    None None (Some LLMMetadata.default).

Definition chicken_missing : GetMissingIngredientsResponse.t :=
  GetMissingIngredientsResponse.mk
    (Some [IngredientDetail.mk (Some 2%Z) "Chicken" (Some 1%Q) (Some "lb") (Some false)])
    false None None None.

(** The reasoning service answers the first request, the chat service the
    second. *)
Definition chat_world : World.t :=
  world_of all_keys [respond 200 (gemini_reply "Looks fine.")]
    (respond 200 (VDict [("ok", VBool true)])).

Definition chat_request : SendListRequest.t :=
  SendListRequest.mk "telegram" "42" "Chicken Soup"
    [IngredientDetail.mk (Some 2%Z) "Chicken" (Some 1%Q) (Some "lb") (Some false)].

Definition chat_world_sent : World.t :=
  World.mk all_keys (World.http chat_world) 2
    [Request "POST" (gemini_url "k2"); Request "POST" (telegram_url "k3")].

Definition chat_response : SendListResponse.t :=
  SendListResponse.mk true "Shopping list sent successfully via Telegram!"
    (Some (build_reasoning_prompt (H := plain_prompts)
             (send_list_query (H := strict_lib) chat_request) 3))
    None.
(** * Properties *)

(** ** utils.py *)

Section Matcher.

Implicit Types (n o : string) (user : list (option string)).

Lemma truthy_true (s : string) : Py.truthy s = true <-> s <> "".
Proof. destruct s; simpl; split; congruence. Qed.

Lemma truthy_false (s : string) : Py.truthy s = false <-> s = "".
Proof. destruct s; simpl; split; congruence. Qed.

Lemma normalized_user_ingredients_owned user :
  normalized_user_ingredients user
  = list_to_set (normalize_ingredient <$> owned_names user).
Proof.
  unfold normalized_user_ingredients, owned_names. f_equal.
  induction user as [|[s|] user IH]; simpl.
  - done.
  - destruct (Py.truthy s); simpl; [f_equal|]; exact IH.
  - exact IH.
Qed.

Lemma elem_of_normalized_user_ingredients user n :
  n ∈ normalized_user_ingredients user
  <-> exists o, o ∈ owned_names user /\ n = normalize_ingredient o.
Proof.
  rewrite normalized_user_ingredients_owned, elem_of_list_to_set, list_elem_of_fmap.
  split; intros (o & ? & ?); eauto.
Qed.

Lemma partial_match_existsb n (l : list string) :
  partial_match n l
  = existsb (fun o => Py.truthy o && (Py.contains n o || Py.contains o n)) l.
Proof.
  induction l as [|o l IH]; simpl; [done|].
  destruct (Py.truthy o); simpl; [|done].
  destruct (Py.contains n o || Py.contains o n); simpl; [done|apply IH].
Qed.

Lemma existsb_elem_of {A} (f : A -> bool) (l : list A) :
  existsb f l = true <-> exists x, x ∈ l /\ f x = true.
Proof.
  rewrite existsb_exists. setoid_rewrite list_elem_of_In. done.
Qed.

(** The direct test followed by the partial-match loop decides [satisfied];
    the order in which the set is iterated does not matter. *)
Lemma found_satisfied user n :
  Py.truthy n = true ->
  (if decide (n ∈ normalized_user_ingredients user) then true
   else partial_match n (elements (normalized_user_ingredients user)))
  = satisfied user n.
Proof.
  intros Hn. apply eq_true_iff_eq. unfold satisfied.
  rewrite existsb_elem_of. split.
  - destruct (decide _) as [Hin|Hnin]; intros Hf.
    + apply elem_of_normalized_user_ingredients in Hin as (o & Ho & ->).
      exists o. split; [done|]. rewrite Hn. unfold related.
      by rewrite String.eqb_refl.
    + rewrite partial_match_existsb, existsb_elem_of in Hf.
      destruct Hf as (x & Hx & Hf). apply elem_of_elements in Hx.
      apply elem_of_normalized_user_ingredients in Hx as (o & Ho & ->).
      exists o. split; [done|]. unfold related.
      apply andb_true_iff in Hf as [-> Hc]. simpl.
      apply orb_true_iff in Hc as [-> | ->]; by rewrite ?orb_true_r.
  - intros (o & Ho & Hf). destruct (decide _) as [Hin|Hnin]; [done|].
    rewrite partial_match_existsb, existsb_elem_of.
    exists (normalize_ingredient o). split.
    + apply elem_of_elements, elem_of_normalized_user_ingredients. eauto.
    + apply andb_true_iff in Hf as [-> Hr]. simpl. unfold related in Hr.
      destruct (String.eqb_spec n (normalize_ingredient o)) as [->|_].
      * exfalso. apply Hnin, elem_of_normalized_user_ingredients. eauto.
      * by rewrite <- orb_assoc in Hr.
Qed.

Lemma find_missing_step_spec user missing (req_ing : option SpoonacularIngredient.t) :
  find_missing_step (normalized_user_ingredients user) missing req_ing
  = missing ++ List.filter (is_missing user) (option_list req_ing).
Proof.
  destruct req_ing as [r|]; simpl; [|by rewrite app_nil_r].
  unfold is_missing.
  destruct (Py.truthy (SpoonacularIngredient.name r)) eqn:Hname; simpl.
  - destruct (Py.truthy (normalize_ingredient _)) eqn:Hn; simpl;
      [|by rewrite app_nil_r].
    rewrite (found_satisfied _ _ Hn).
    destruct (satisfied user _); simpl; [by rewrite app_nil_r|done].
  - apply truthy_false in Hname. rewrite Hname. simpl. by rewrite app_nil_r.
Qed.

Lemma find_missing_fold user (required : list (option SpoonacularIngredient.t)) missing :
  fold_left (find_missing_step (normalized_user_ingredients user)) required missing
  = missing ++ List.filter (is_missing user) (omap id required).
Proof.
  revert missing. induction required as [|req required IH]; intros missing; simpl.
  - by rewrite app_nil_r.
  - rewrite IH, find_missing_step_spec, <- app_assoc. f_equal.
    destruct req as [r|]; simpl; [|done]. by destruct (is_missing user r).
Qed.

Lemma find_missing_filter user (required : list (option SpoonacularIngredient.t)) :
  find_missing_ingredients required user
  = List.filter (is_missing user) (omap id required).
Proof. unfold find_missing_ingredients. by rewrite find_missing_fold. Qed.

Lemma owned_names_elem_of user o :
  o ∈ owned_names user <-> Some o ∈ user /\ o <> "".
Proof.
  unfold owned_names. rewrite list_elem_of_omap. split.
  - intros ([s|] & Hin & Hs); [|done].
    destruct (Py.truthy s) eqn:Ht; [|done].
    injection Hs as ->. by apply truthy_true in Ht.
  - intros [Hin Hne]. exists (Some o). split; [done|].
    apply truthy_true in Hne. by rewrite Hne.
Qed.

Lemma satisfied_iff user n :
  satisfied user n = true
  <-> exists o, Some o ∈ user /\ normalize_ingredient o <> ""
                /\ (n = normalize_ingredient o
                    \/ Py.contains n (normalize_ingredient o) = true
                    \/ Py.contains (normalize_ingredient o) n = true).
Proof.
  unfold satisfied, related. rewrite existsb_elem_of. split.
  - intros (o & Ho & Hf). apply owned_names_elem_of in Ho as [Ho _].
    apply andb_true_iff in Hf as [Ht Hr]. apply truthy_true in Ht.
    exists o. split_and!; [done..|].
    apply orb_true_iff in Hr as [Hr|Hr]; [|by right; right].
    apply orb_true_iff in Hr as [Hr|Hr]; [|by right; left].
    left. by apply String.eqb_eq.
  - intros (o & Ho & Hne & Hr). exists o. split.
    + apply owned_names_elem_of. split; [done|]. by intros ->.
    + apply truthy_true in Hne. rewrite Hne. simpl.
      destruct Hr as [->|[->| ->]]; by rewrite ?String.eqb_refl, ?orb_true_r.
Qed.

Lemma owned_names_app user1 user2 :
  owned_names (user1 ++ user2) = owned_names user1 ++ owned_names user2.
Proof. apply omap_app. Qed.

Lemma is_missing_owned_names user1 user2 r :
  owned_names user1 = owned_names user2 -> is_missing user1 r = is_missing user2 r.
Proof. unfold is_missing, satisfied. by intros ->. Qed.

End Matcher.

(** C1, as amended.  [find_missing_ingredients] returns, in the order of the
    required list, exactly the required ingredients whose normalized name is
    not empty and is not satisfied; a name is satisfied when some owned
    entry has a non-empty normalized form that equals it, contains it, or
    is contained in it.  In particular a required ingredient is left out
    whenever its normalized name and the normalized form of an owned entry
    are both non-empty and one is a substring of the other. *)
Theorem find_missing_ingredients_spec
    (required : list (option SpoonacularIngredient.t))
    (user : list (option string)) :
  find_missing_ingredients required user
  = List.filter (is_missing user) (omap id required)
  /\ (forall r,
        is_missing user r = true
        <-> normalize_ingredient (SpoonacularIngredient.name r) <> ""
            /\ ~ exists o,
                  Some o ∈ user /\ normalize_ingredient o <> ""
                  /\ (normalize_ingredient (SpoonacularIngredient.name r)
                      = normalize_ingredient o
                      \/ Py.contains (normalize_ingredient (SpoonacularIngredient.name r))
                           (normalize_ingredient o) = true
                      \/ Py.contains (normalize_ingredient o)
                           (normalize_ingredient (SpoonacularIngredient.name r)) = true))
  /\ (forall r o,
        Some o ∈ user ->
        normalize_ingredient (SpoonacularIngredient.name r) <> "" ->
        normalize_ingredient o <> "" ->
        Py.contains (normalize_ingredient (SpoonacularIngredient.name r))
          (normalize_ingredient o) = true
        \/ Py.contains (normalize_ingredient o)
             (normalize_ingredient (SpoonacularIngredient.name r)) = true ->
        r ∉ find_missing_ingredients required user).
Proof.
  assert (Hiff : forall r,
    is_missing user r = true
    <-> normalize_ingredient (SpoonacularIngredient.name r) <> ""
        /\ ~ satisfied user (normalize_ingredient (SpoonacularIngredient.name r)) = true).
  { intros r. unfold is_missing.
    rewrite andb_true_iff, truthy_true, negb_true_iff, not_true_iff_false. done. }
  split_and!.
  - apply find_missing_filter.
  - intros r. rewrite Hiff, satisfied_iff. done.
  - intros r o Ho Hr Hno Hsub.
    rewrite find_missing_filter, list_elem_of_In, filter_In.
    intros [_ Hm]. apply Hiff in Hm as [_ Hm]. apply Hm, satisfied_iff.
    exists o. split_and!; [done..|]. by right.
Qed.

(** A required "onion" against the owned entries "red onions" and " ": the
    theorem above, applied. *)
Lemma find_missing_ingredients_spec_witness :
  find_missing_ingredients [Some (ingredient "salt"); Some (ingredient "onion")]
    [Some "red onions"; Some " "]
  = [ingredient "salt"]
  /\ ingredient "onion"
     ∉ find_missing_ingredients [Some (ingredient "salt"); Some (ingredient "onion")]
         [Some "red onions"; Some " "].
Proof.
  destruct (find_missing_ingredients_spec
              [Some (ingredient "salt"); Some (ingredient "onion")]
              [Some "red onions"; Some " "]) as (Heq & _ & Hex).
  split.
  - rewrite Heq. vm_compute. reflexivity.
  - apply (Hex (ingredient "onion") "red onions").
    + apply list_elem_of_here.
    + vm_compute. discriminate.
    + vm_compute. discriminate.
    + left. vm_compute. reflexivity.
Defined.

(** C1 as stated fails.  The owned entry " " normalizes to the empty string,
    which is a substring of "onion"; read literally the claim leaves the
    onion out, and the code reports it. *)
Lemma find_missing_ingredients_blank_owned :
  Py.contains (normalize_ingredient " ") (normalize_ingredient "onion") = true
  /\ find_missing_as_claimed [Some (ingredient "onion")] [Some " "] = []
  /\ find_missing_ingredients [Some (ingredient "onion")] [Some " "]
     = [ingredient "onion"].
Proof. vm_compute. auto. Qed.

(** C8, as amended.  An empty required list gives an empty result; an empty
    owned list gives every required ingredient whose normalized name is not
    empty; a null entry or an entry with an empty name, in either list,
    changes nothing. *)
Theorem find_missing_ingredients_edges :
  (forall user, find_missing_ingredients [] user = [])
  /\ (forall required,
        find_missing_ingredients required []
        = List.filter
            (fun r => Py.truthy (normalize_ingredient (SpoonacularIngredient.name r)))
            (omap id required))
  /\ (forall l1 l2 user,
        find_missing_ingredients (l1 ++ None :: l2) user
        = find_missing_ingredients (l1 ++ l2) user)
  /\ (forall l1 l2 user i a u o,
        find_missing_ingredients (l1 ++ Some (SpoonacularIngredient.mk i a u "" o) :: l2) user
        = find_missing_ingredients (l1 ++ l2) user)
  /\ (forall required u1 u2,
        find_missing_ingredients required (u1 ++ None :: u2)
        = find_missing_ingredients required (u1 ++ u2))
  /\ (forall required u1 u2,
        find_missing_ingredients required (u1 ++ Some "" :: u2)
        = find_missing_ingredients required (u1 ++ u2)).
Proof.
  split_and!.
  - done.
  - intros required. rewrite find_missing_filter.
    apply filter_ext. intros r. unfold is_missing, satisfied. simpl.
    by rewrite andb_true_r.
  - intros l1 l2 user. rewrite !find_missing_filter, !omap_app. done.
  - intros l1 l2 user i a u o. rewrite !find_missing_filter, !omap_app. simpl.
    rewrite !List.filter_app. simpl. done.
  - intros required u1 u2. rewrite !find_missing_filter.
    apply filter_ext. intros r. apply is_missing_owned_names.
    rewrite !owned_names_app. done.
  - intros required u1 u2. rewrite !find_missing_filter.
    apply filter_ext. intros r. apply is_missing_owned_names.
    rewrite !owned_names_app. done.
Qed.

(** C8 as stated fails.  The required name "-" is not empty, nothing is
    owned, and the ingredient is not returned: its normalized name is empty
    and the code skips it. *)
Lemma find_missing_ingredients_dash :
  Py.truthy (SpoonacularIngredient.name (ingredient "-")) = true
  /\ find_missing_ingredients [Some (ingredient "-")] [] = [].
Proof. vm_compute. auto. Qed.

(** The three spellings of the specification normalize to one string. *)
Lemma normalize_ingredient_onion :
  normalize_ingredient "Onions" = "onion"
  /\ normalize_ingredient "onion" = "onion"
  /\ normalize_ingredient "Onion!" = "onion".
Proof. vm_compute. auto. Qed.

(** The suffix "es" is tried before "s", and one suffix at most is removed. *)
Lemma normalize_ingredient_plural :
  normalize_ingredient "Tomatoes" = "tomato"
  /\ normalize_ingredient "glasses" = "glass"
  /\ normalize_ingredient "  Red   Bell  Peppers, diced. " = "red bell peppers diced".
Proof. vm_compute. auto. Qed.

Lemma occurs_filter_chars (keep : ascii -> bool) (c : ascii) (s : string) :
  occurs c (Py.filter_chars keep s) = true -> keep c = true.
Proof.
  induction s as [|c' s IH]; simpl; [done|].
  destruct (keep c') eqn:Hk; simpl; [|done].
  intros [Hc|Hs]%orb_true_iff; [|by apply IH].
  by apply Ascii.eqb_eq in Hc as ->.
Qed.

Lemma occurs_re_sub_spaces (in_run : bool) (c : ascii) (s : string) :
  occurs c (Py.re_sub_spaces_from in_run s) = true ->
  occurs c s = true \/ c = " "%char.
Proof.
  revert in_run. induction s as [|c' s IH]; intros in_run; simpl; [done|].
  destruct (Py.isspace c'), in_run; simpl.
  - intros [?|?]%IH; [left; by apply orb_true_iff; right|by right].
  - intros [Hc|[?|?]%IH]%orb_true_iff.
    + right. by apply Ascii.eqb_eq in Hc.
    + left. apply orb_true_iff. by right.
    + by right.
  - intros [Hc|[?|?]%IH]%orb_true_iff.
    + left. by rewrite Hc.
    + left. apply orb_true_iff. by right.
    + by right.
  - intros [Hc|[?|?]%IH]%orb_true_iff.
    + left. by rewrite Hc.
    + left. apply orb_true_iff. by right.
    + by right.
Qed.

Lemma occurs_lstrip (c : ascii) (s : string) :
  occurs c (Py.lstrip s) = true -> occurs c s = true.
Proof.
  induction s as [|c' s IH]; simpl; [done|].
  destruct (Py.isspace c'); simpl; [|done].
  intros ?%IH. apply orb_true_iff. by right.
Qed.

Lemma occurs_rstrip (c : ascii) (s : string) :
  occurs c (Py.rstrip s) = true -> occurs c s = true.
Proof.
  induction s as [|c' s IH]; simpl; [done|].
  destruct (Py.rstrip s) as [|c'' r]; simpl in *.
  - destruct (Py.isspace c'); simpl; [done|]. rewrite orb_false_r. by intros ->.
  - intros [->|Hr]%orb_true_iff; [done|]. rewrite (IH Hr). apply orb_true_r.
Qed.

Lemma occurs_substring (c : ascii) (n m : nat) (s : string) :
  occurs c (String.substring n m s) = true -> occurs c s = true.
Proof.
  revert n m. induction s as [|c' s IH]; intros [|n] [|m]; simpl; try done.
  - intros [->|?%IH]%orb_true_iff; [done|]. apply orb_true_iff. by right.
  - intros ?%IH. apply orb_true_iff. by right.
  - intros ?%IH. apply orb_true_iff. by right.
Qed.

Lemma punctuation_is_not_word (c : ascii) :
  Py.ispunct c = true -> Py.isword c || Py.isspace c = true -> c = "_"%char.
Proof. destruct c as [[] [] [] [] [] [] [] []]; vm_compute; congruence. Qed.

Lemma lower_char_not_upper (c : ascii) : Py.isupper (Py.lower_char c) = false.
Proof. destruct c as [[] [] [] [] [] [] [] []]; reflexivity. Qed.

Lemma occurs_lower (c : ascii) (s : string) :
  occurs c (Py.lower s) = true -> Py.isupper c = false.
Proof.
  induction s as [|c' s IH]; simpl; [done|].
  intros [Hc|?]%orb_true_iff; [|by apply IH].
  apply Ascii.eqb_eq in Hc as ->. apply lower_char_not_upper.
Qed.

(** What normalization does remove: the result holds only word characters
    and spaces, none of them an uppercase letter, so every punctuation
    character other than the underscore is gone. *)
Lemma normalize_ingredient_characters (name : string) (c : ascii) :
  occurs c (normalize_ingredient name) = true ->
  Py.isword c || Py.isspace c = true
  /\ Py.isupper c = false
  /\ (Py.ispunct c = true -> c = "_"%char).
Proof.
  intros Hc.
  assert (Hin : occurs c (Py.strip (Py.re_sub_spaces
                  (Py.re_sub_nonword_nonspace (Py.lower name)))) = true).
  { unfold normalize_ingredient in Hc.
    destruct (Py.truthy name); simpl in Hc; [|done].
    destruct (Py.endswith _ "es"); [by apply occurs_substring in Hc|].
    destruct (Py.endswith _ "s"); [by apply occurs_substring in Hc|done]. }
  apply occurs_rstrip, occurs_lstrip, occurs_re_sub_spaces in Hin.
  assert (Hclass : Py.isword c || Py.isspace c = true
                   /\ Py.isupper c = false).
  { destruct Hin as [Hin| ->]; [|done]. split.
    - by apply occurs_filter_chars in Hin.
    - unfold Py.re_sub_nonword_nonspace in Hin.
      assert (occurs c (Py.lower name) = true) as Hl; [|by apply occurs_lower in Hl].
      clear -Hin. induction (Py.lower name) as [|c' s IH]; simpl in *; [done|].
      destruct (Py.isword c' || Py.isspace c'); simpl in Hin.
      + apply orb_true_iff in Hin as [->|?]; [done|].
        apply orb_true_iff. right. by apply IH.
      + apply orb_true_iff. right. by apply IH. }
  destruct Hclass as [Hw Hu]. split_and!; [done..|].
  intros Hp. by apply punctuation_is_not_word.
Qed.

(** C4 at the failing input.  The underscore is a punctuation character,
    and [[^\w\s]] does not match it: it survives normalization, against the
    comment "remove punctuation" of the source. *)
Theorem normalize_ingredient_keeps_underscore :
  Py.ispunct "_" = true
  /\ normalize_ingredient "red_onion" = "red_onion"
  /\ normalize_ingredient "red_onion" <> normalize_ingredient "red onion".
Proof. vm_compute. split_and!; [done..|discriminate]. Qed.

(** ** action.py: the fallback generator *)

Lemma lower_char_idempotent (c : ascii) :
  Py.lower_char (Py.lower_char c) = Py.lower_char c.
Proof. destruct c as [[] [] [] [] [] [] [] []]; reflexivity. Qed.

Lemma lower_idempotent (s : string) : Py.lower (Py.lower s) = Py.lower s.
Proof.
  induction s as [|c s IH]; simpl; [done|].
  by rewrite lower_char_idempotent, IH.
Qed.

Lemma lower_or_empty (s : string) :
  (if Py.truthy s then Py.lower s else "") = Py.lower s.
Proof. by destruct s. Qed.

Lemma generate_fallback_ingredients_chosen (recipe_title : string) :
  generate_fallback_ingredients recipe_title
  = base_estimates ++ from_option addition [] (chosen recipe_title).
Proof.
  unfold generate_fallback_ingredients, chosen, mentions, priority.
  rewrite lower_or_empty. simpl. rewrite !orb_false_r.
  destruct (Py.contains "pasta" _), (Py.contains "spaghetti" _),
    (Py.contains "lasagna" _), (Py.contains "macaroni" _),
    (Py.contains "chicken" _), (Py.contains "salad" _),
    (Py.contains "soup" _); reflexivity.
Qed.

(** C3.  For every title the generator returns the three base estimates
    (salt, pepper, cooking oil) followed by the addition of the first
    category, in the order pasta family, chicken, salad, soup, one of whose
    keywords occurs in the lowercased title, or by nothing when there is
    none; every element is flagged as an estimate; the letter case of the
    title is immaterial.  "Chicken Alfredo Pasta" gets the pasta addition
    and no chicken; "Plain Rice" gets the base estimates only. *)
Theorem generate_fallback_ingredients_spec :
  (forall recipe_title,
     generate_fallback_ingredients recipe_title
     = base_estimates ++ from_option addition [] (chosen recipe_title))
  /\ (forall recipe_title,
        Forall (fun i => IngredientDetail.is_estimate i = Some true)
               (generate_fallback_ingredients recipe_title))
  /\ (forall recipe_title,
        generate_fallback_ingredients (Py.lower recipe_title)
        = generate_fallback_ingredients recipe_title)
  /\ IngredientDetail.name <$> base_estimates
     = ["(Estimate) Salt"; "(Estimate) Pepper"; "(Estimate) Cooking Oil"]
  /\ generate_fallback_ingredients "Chicken Alfredo Pasta"
     = base_estimates ++ addition Pasta
  /\ Forall (fun i => i ∉ generate_fallback_ingredients "Chicken Alfredo Pasta")
            (addition Chicken)
  /\ generate_fallback_ingredients "Plain Rice" = base_estimates.
Proof.
  pose proof generate_fallback_ingredients_chosen as Hspec.
  split_and!.
  - exact Hspec.
  - intros t. rewrite Hspec. apply Forall_app. split.
    + repeat constructor.
    + destruct (chosen t) as [[]|]; repeat constructor.
  - intros t. rewrite !Hspec. unfold chosen, mentions.
    by rewrite lower_idempotent.
  - reflexivity.
  - vm_compute. reflexivity.
  - constructor; [|constructor]. intros H.
    apply list_elem_of_In in H. vm_compute in H. intuition discriminate.
  - vm_compute. reflexivity.
Qed.

(** ** The retry wrappers *)

Section Retry.

Context `{Lib}.

Lemma api_body_spec (method url : string) (w : World.t) :
  (response <- requests_request method url ;;
   lift (raise_for_status response) ;;;
   ret response) w
  = (outcome_of (api_attempt (World.http w (World.made w))),
     after w 1 [Request method url]).
Proof.
  unfold bind, requests_request, api_attempt, after. rewrite Nat.add_1_r.
  destruct (World.http w (World.made w)) as [r|e]; simpl; [|done].
  by destruct (raise_for_status r) as [e|[]].
Qed.

Lemma gemini_body_spec (url : string) (w : World.t) :
  (response <- requests_request "POST" url ;; lift (gemini_response response)) w
  = (outcome_of (gemini_attempt (World.http w (World.made w))),
     after w 1 [Request "POST" url]).
Proof.
  unfold bind, requests_request, gemini_attempt, after. rewrite Nat.add_1_r.
  destruct (World.http w (World.made w)) as [r|e]; simpl; [|done].
  by destruct (gemini_response r).
Qed.

Lemma after_after (w : World.t) (n1 n2 : nat) (ev1 ev2 : list event) :
  after (after w n1 ev1) n2 ev2 = after w (n1 + n2) (ev1 ++ ev2).
Proof. unfold after. simpl. by rewrite Nat.add_assoc, app_assoc. Qed.

(** The loop of the request wrapper, entered with [retries] failures behind
    it: [k] more transient failures, then an attempt that succeeds, or
    fails for good, or is the last one allowed. *)
Lemma make_request_loop_spec (max : nat) (method url : string) (k : nat) :
  forall (fuel retries : nat) (last : option Exn.t) (w : World.t),
    retries + k <= max ->
    k < fuel ->
    (forall j, j < k ->
       transient (api_attempt (World.http w (World.made w + j))) = true) ->
    (transient (api_attempt (World.http w (World.made w + k))) = false
     \/ retries + k = max) ->
    make_request_loop max fuel method url retries last w
    = (api_result_of (api_attempt (World.http w (World.made w + k))),
       after w (S k) (backoff_trace (1 # 2) method url retries k)).
Proof.
  induction k as [|k IH]; intros fuel retries last w Hmax Hfuel Hfail Hlast.
  - destruct fuel as [|fuel]; [lia|]. simpl.
    rewrite !Nat.add_0_r in *.
    assert ((retries <=? max) = true) as -> by (apply Nat.leb_le; lia).
    unfold try_except. rewrite api_body_spec.
    destruct (api_attempt (World.http w (World.made w))) as [e|r]; simpl; [|done].
    simpl in Hlast.
    destruct (is_RequestException (Exn.cls e)); [|done].
    destruct Hlast as [?| ->]; [done|].
    by assert ((max <? S max) = true) as -> by (apply Nat.ltb_lt; lia).
  - destruct fuel as [|fuel]; [lia|]. simpl.
    assert ((retries <=? max) = true) as -> by (apply Nat.leb_le; lia).
    unfold try_except. rewrite api_body_spec.
    pose proof (Hfail 0 ltac:(lia)) as H0. rewrite Nat.add_0_r in H0.
    destruct (api_attempt (World.http w (World.made w))) as [e|r]; simpl in *;
      [|done].
    rewrite H0.
    assert ((max <? S retries) = false) as -> by (apply Nat.ltb_ge; lia).
    unfold bind at 1, time_sleep. simpl.
    rewrite (IH fuel (S retries) (Some e)); simpl.
    + replace (World.made w + 1 + k) with (World.made w + S k) by lia.
      f_equal. unfold after. simpl. f_equal; [lia|].
      by rewrite <- !app_assoc.
    + lia.
    + lia.
    + intros j Hj. replace (World.made w + 1 + j) with (World.made w + S j) by lia.
      apply Hfail. lia.
    + replace (World.made w + 1 + k) with (World.made w + S k) by lia.
      destruct Hlast; [by left|right; lia].
Qed.

Lemma gemini_loop_spec (max : nat) (url : string) (k : nat) :
  forall (fuel retries : nat) (last : option Exn.t) (w : World.t),
    retries + k <= max ->
    k < fuel ->
    (forall j, j < k ->
       transient (gemini_attempt (World.http w (World.made w + j))) = true) ->
    (transient (gemini_attempt (World.http w (World.made w + k))) = false
     \/ retries + k = max) ->
    gemini_loop max fuel url retries last w
    = (gemini_result_of (gemini_attempt (World.http w (World.made w + k))),
       after w (S k) (backoff_trace 1 "POST" url retries k)).
Proof.
  induction k as [|k IH]; intros fuel retries last w Hmax Hfuel Hfail Hlast.
  - destruct fuel as [|fuel]; [lia|]. simpl.
    rewrite !Nat.add_0_r in *.
    assert ((retries <=? max) = true) as -> by (apply Nat.leb_le; lia).
    unfold try_except. rewrite gemini_body_spec.
    destruct (gemini_attempt (World.http w (World.made w))) as [e|r]; simpl; [|done].
    simpl in Hlast.
    destruct (is_RequestException (Exn.cls e)); [|done].
    destruct Hlast as [?| ->]; [done|].
    by assert ((max <? S max) = true) as -> by (apply Nat.ltb_lt; lia).
  - destruct fuel as [|fuel]; [lia|]. simpl.
    assert ((retries <=? max) = true) as -> by (apply Nat.leb_le; lia).
    unfold try_except. rewrite gemini_body_spec.
    pose proof (Hfail 0 ltac:(lia)) as H0. rewrite Nat.add_0_r in H0.
    destruct (gemini_attempt (World.http w (World.made w))) as [e|r]; simpl in *;
      [|done].
    rewrite H0.
    assert ((max <? S retries) = false) as -> by (apply Nat.ltb_ge; lia).
    unfold bind at 1, time_sleep. simpl.
    rewrite (IH fuel (S retries) (Some e)); simpl.
    + replace (World.made w + 1 + k) with (World.made w + S k) by lia.
      f_equal. unfold after. simpl. f_equal; [lia|].
      by rewrite <- !app_assoc.
    + lia.
    + lia.
    + intros j Hj. replace (World.made w + 1 + j) with (World.made w + S j) by lia.
      apply Hfail. lia.
    + replace (World.made w + 1 + k) with (World.made w + S k) by lia.
      destruct Hlast; [by left|right; lia].
Qed.

(** Among the attempts [f 0], [f 1], ... there is a first one, not later
    than attempt [max], that is not a transient failure or is attempt [max]. *)
Lemma first_settled {A} (f : nat -> res A) (max : nat) :
  exists k, k <= max
            /\ (forall j, j < k -> transient (f j) = true)
            /\ (transient (f k) = false \/ k = max).
Proof.
  induction max as [|max (k & Hk & Hfail & Hlast)].
  - exists 0. split_and!; [lia| |by right]. intros j Hj. lia.
  - destruct (transient (f k)) eqn:Hfk.
    + destruct Hlast as [?| ->]; [done|].
      exists (S max). split_and!; [lia| |by right].
      intros j Hj. destruct (decide (j = max)) as [->|]; [done|].
      apply Hfail. lia.
    + exists k. split_and!; [lia|done|by left].
Qed.

Lemma wait_time_formula (base : Q) (a : nat) :
  (wait_time base (S a) == base * 2 ^ Z.of_nat a)%Q.
Proof.
  unfold wait_time. simpl. rewrite Nat.sub_0_r, Nat2Z.inj_pow. simpl.
  rewrite Zpower_Qpower by lia. apply Qmult_comm.
Qed.

Lemma backoff_trace_requests (base : Q) (method url : string) (retries k : nat) :
  length (List.filter is_request (backoff_trace base method url retries k)) = S k.
Proof.
  revert retries. induction k as [|k IH]; intros retries; simpl; [done|].
  by rewrite IH.
Qed.

Lemma make_request_with_retry_run (method url : string) (w : World.t) (k : nat) :
  k <= MAX_API_RETRIES ->
  (forall j, j < k ->
     transient (api_attempt (World.http w (World.made w + j))) = true) ->
  (transient (api_attempt (World.http w (World.made w + k))) = false
   \/ k = MAX_API_RETRIES) ->
  _make_request_with_retry method url w
  = (outcome_of (api_attempt (World.http w (World.made w + k))),
     after w (S k) (backoff_trace (1 # 2) method url 0 k)).
Proof.
  intros Hk Hfail Hlast. unfold _make_request_with_retry.
  apply make_request_loop_spec; [lia|lia|done|]. destruct Hlast; [by left|by right].
Qed.

Lemma call_gemini_api_with_retry_run (prompt api_key : string) (w : World.t) (k : nat) :
  k <= MAX_LLM_RETRIES ->
  (forall j, j < k ->
     transient (gemini_attempt (World.http w (World.made w + j))) = true) ->
  (transient (gemini_attempt (World.http w (World.made w + k))) = false
   \/ k = MAX_LLM_RETRIES) ->
  _call_gemini_api_with_retry prompt api_key w
  = (gemini_result_of (gemini_attempt (World.http w (World.made w + k))),
     after w (S k) (backoff_trace 1 "POST" (gemini_url api_key) 0 k)).
Proof.
  intros Hk Hfail Hlast. unfold _call_gemini_api_with_retry.
  apply gemini_loop_spec; [lia|lia|done|]. destruct Hlast; [by left|by right].
Qed.

(** The request wrapper always ends: it returns a response that
    [raise_for_status] accepts, or it raises. *)
Lemma make_request_with_retry_cases (method url : string) (w : World.t) :
  (exists r w', _make_request_with_retry method url w = (Ok r, w')
                /\ raise_for_status r = inr tt)
  \/ (exists e w', _make_request_with_retry method url w = (Raise e, w')).
Proof.
  destruct (first_settled
              (fun j => api_attempt (World.http w (World.made w + j)))
              MAX_API_RETRIES) as (k & Hk & Hfail & Hlast).
  rewrite (make_request_with_retry_run method url w k Hk Hfail Hlast).
  destruct (api_attempt _) as [e|r] eqn:Ha; simpl; [right; eauto|left].
  exists r, (after w (S k) (backoff_trace (1 # 2) method url 0 k)).
  split; [done|]. unfold api_attempt in Ha.
  destruct (World.http w _) as [r'|e']; [|done]. simpl in Ha.
  destruct (raise_for_status r') as [e|[]] eqn:Hs; simpl in Ha; [done|].
  injection Ha as <-. exact Hs.
Qed.

(** The reasoning wrapper always ends, and by returning. *)
Lemma call_gemini_api_with_retry_returns (prompt api_key : string) (w : World.t) :
  exists k v, k <= MAX_LLM_RETRIES
              /\ _call_gemini_api_with_retry prompt api_key w
                 = (Ok v, after w (S k)
                            (backoff_trace 1 "POST" (gemini_url api_key) 0 k)).
Proof.
  destruct (first_settled
              (fun j => gemini_attempt (World.http w (World.made w + j)))
              MAX_LLM_RETRIES) as (k & Hk & Hfail & Hlast).
  exists k. rewrite (call_gemini_api_with_retry_run prompt api_key w k Hk Hfail Hlast).
  destruct (gemini_attempt _) as [e|v]; simpl; [|by eauto].
  destruct (is_RequestException _); eauto.
Qed.

(** C2, as amended.  Each wrapper makes at most [max + 1] attempts and
    always ends.  After [k <= max] transient failures it stops at the first
    attempt that succeeds or fails otherwise, or at attempt [max + 1]; the
    requests and sleeps alternate as [backoff_trace] lists them, the sleep
    after failure number [a] lasting [base * 2 ^ (a - 1)] seconds with
    [base] 0.5 for the request wrapper and 1 for the reasoning wrapper.  A
    success after transient failures is returned as it is.  On exhaustion
    the request wrapper re-raises the exception of the last attempt
    unchanged; the reasoning wrapper raises nothing and returns an error
    dictionary whose message quotes the text of the last exception. *)
Theorem retry_wrappers_spec :
  (forall method url w k,
     k <= MAX_API_RETRIES ->
     (forall j, j < k ->
        transient (api_attempt (World.http w (World.made w + j))) = true) ->
     (transient (api_attempt (World.http w (World.made w + k))) = false
      \/ k = MAX_API_RETRIES) ->
     _make_request_with_retry method url w
     = (outcome_of (api_attempt (World.http w (World.made w + k))),
        after w (S k) (backoff_trace (1 # 2) method url 0 k)))
  /\ (forall prompt api_key w k,
        k <= MAX_LLM_RETRIES ->
        (forall j, j < k ->
           transient (gemini_attempt (World.http w (World.made w + j))) = true) ->
        (transient (gemini_attempt (World.http w (World.made w + k))) = false
         \/ k = MAX_LLM_RETRIES) ->
        _call_gemini_api_with_retry prompt api_key w
        = (gemini_result_of (gemini_attempt (World.http w (World.made w + k))),
           after w (S k) (backoff_trace 1 "POST" (gemini_url api_key) 0 k)))
  /\ (forall method url w,
        exists k, k <= MAX_API_RETRIES
                  /\ snd (_make_request_with_retry method url w)
                     = after w (S k) (backoff_trace (1 # 2) method url 0 k)
                  /\ fst (_make_request_with_retry method url w) <> OutOfFuel)
  /\ (forall prompt api_key w,
        exists k v, k <= MAX_LLM_RETRIES
                    /\ _call_gemini_api_with_retry prompt api_key w
                       = (Ok v, after w (S k)
                                  (backoff_trace 1 "POST" (gemini_url api_key) 0 k)))
  /\ (forall a, (wait_time (1 # 2) (S a) == (1 # 2) * 2 ^ Z.of_nat a)%Q)
  /\ (forall a, (wait_time 1 (S a) == 1 * 2 ^ Z.of_nat a)%Q)
  /\ (forall base method url k,
        length (List.filter is_request (backoff_trace base method url 0 k)) = S k).
Proof.
  split_and!.
  - apply make_request_with_retry_run.
  - apply call_gemini_api_with_retry_run.
  - intros method url w.
    destruct (first_settled
                (fun j => api_attempt (World.http w (World.made w + j)))
                MAX_API_RETRIES) as (k & Hk & Hfail & Hlast).
    exists k. rewrite (make_request_with_retry_run method url w k Hk Hfail Hlast).
    simpl. split_and!; [done..|].
    by destruct (api_attempt _).
  - apply call_gemini_api_with_retry_returns.
  - intros a. apply wait_time_formula.
  - intros a. apply wait_time_formula.
  - intros base method url k. apply backoff_trace_requests.
Qed.

End Retry.

(** One timeout, then a response: the request wrapper sleeps half a second
    and returns the response.  Three timeouts: the reasoning wrapper sleeps
    one and two seconds and returns its error dictionary. *)
Lemma retry_wrappers_spec_witness :
  _make_request_with_retry (H := strict_lib) "GET" "u"
    (world_of all_keys [Fails timeout_error] (respond 200 (VList [])))
  = (Ok (Response.mk 200 "" (JsonOk (VList []))),
     World.mk all_keys (fun n => nth n [Fails timeout_error] (respond 200 (VList [])))
       2 [Request "GET" "u"; Sleep (wait_time (1 # 2) 1); Request "GET" "u"])
  /\ _call_gemini_api_with_retry (H := strict_lib) "p" "k"
       (world_of all_keys [] (Fails timeout_error))
     = (Ok (error_dict "LLM API failed after retries: Read timed out."),
        World.mk all_keys (fun n => nth n [] (Fails timeout_error)) 3
          [Request "POST" (gemini_url "k"); Sleep (wait_time 1 1);
           Request "POST" (gemini_url "k"); Sleep (wait_time 1 2);
           Request "POST" (gemini_url "k")]).
Proof.
  destruct (@retry_wrappers_spec strict_lib) as (Hapi & Hllm & _).
  split.
  - rewrite (Hapi "GET" "u" _ 1).
    + reflexivity.
    + unfold MAX_API_RETRIES. lia.
    + intros j Hj. assert (j = 0) as -> by lia. reflexivity.
    + left. reflexivity.
  - rewrite (Hllm "p" "k" _ 2).
    + reflexivity.
    + unfold MAX_LLM_RETRIES. lia.
    + intros j Hj. destruct j as [|[|j]]; [reflexivity..|lia].
    + right. reflexivity.
Defined.

(** C2 as stated fails for the reasoning wrapper.  When every attempt times
    out the wrapper does not raise the timeout: it returns a dictionary. *)
Lemma gemini_exhaustion_returns :
  (forall n, World.http (world_of all_keys [] (Fails timeout_error)) n
             = Fails timeout_error)
  /\ fst (_call_gemini_api_with_retry (H := strict_lib) "p" "k"
            (world_of all_keys [] (Fails timeout_error)))
     = Ok (error_dict "LLM API failed after retries: Read timed out.")
  /\ fst (_call_gemini_api_with_retry (H := strict_lib) "p" "k"
            (world_of all_keys [] (Fails timeout_error)))
     <> Raise timeout_error.
Proof.
  split_and!.
  - intros n. simpl. by destruct n.
  - reflexivity.
  - discriminate.
Qed.

(** ** action.py: the delivery gateways *)

Section Delivery.

Context `{Lib}.

Lemma raise_for_status_accepts (r : Response.t) :
  raise_for_status r = inr tt <-> error_status r = false.
Proof.
  unfold raise_for_status, error_status.
  destruct (_ && _)%Z; split; congruence.
Qed.

Lemma send_telegram_message_success (chat_id text : string) (w : World.t) :
  exists result w',
    send_telegram_message chat_id text w = (Ok result, w')
    /\ (SendResult.success result = true
        <-> has_key w "telegram_bot" = true
            /\ exists r w1,
                 _make_request_with_retry "POST"
                   (telegram_url (key_of w "telegram_bot")) w = (Ok r, w1)
                 /\ payload_ok r = true).
Proof.
  unfold send_telegram_message, bind at 1, get_api_key, has_key, key_of.
  destruct (no_key (World.API_KEYS w !! "telegram_bot")) eqn:Hkey.
  { eexists _, _. split; [reflexivity|]. simpl.
    split; [discriminate|]. by intros [? _]. }
  unfold try_except, bind.
  destruct (make_request_with_retry_cases "POST"
              (telegram_url (from_option id "" (World.API_KEYS w !! "telegram_bot"))) w)
    as [(r & w1 & Hrun & _)|(e & w1 & Hrun)]; rewrite Hrun.
  2:{ destruct (is_RequestException (Exn.cls e));
      (eexists _, _; split; [reflexivity|]; simpl;
       split; [discriminate|]; by intros (_ & r' & w1' & [=] & _)). }
  unfold payload_ok, lift.
  destruct (response_json r) as [e|v] eqn:Hjson.
  { unfold raise. destruct (is_RequestException (Exn.cls e));
      (eexists _, _; split; [reflexivity|]; simpl;
       split; [discriminate|]; intros (_ & r' & w1' & [= <- <-] & Hok);
       by rewrite Hjson in Hok). }
  unfold ret at 1.
  destruct (py_get v "ok" VNone) as [e|ok] eqn:Hget.
  { unfold raise. destruct (is_RequestException (Exn.cls e));
      (eexists _, _; split; [reflexivity|]; simpl;
       split; [discriminate|]; intros (_ & r' & w1' & [= <- <-] & Hok);
       by rewrite Hjson, Hget in Hok). }
  unfold ret at 1.
  destruct (value_truthy ok) eqn:Hok.
  { eexists _, _. split; [reflexivity|]. simpl. split; [|done].
    intros _. split; [done|]. exists r, w1. by rewrite Hjson, Hget. }
  destruct (telegram_specific_error chat_id v) as [e|m].
  { unfold raise. destruct (is_RequestException (Exn.cls e));
      (eexists _, _; split; [reflexivity|]; simpl;
       split; [discriminate|]; intros (_ & r' & w1' & [= <- <-] & Hok');
       rewrite Hjson, Hget in Hok'; congruence). }
  eexists _, _. split; [reflexivity|]. simpl.
  split; [discriminate|]. intros (_ & r' & w1' & [= <- <-] & Hok').
  rewrite Hjson, Hget in Hok'. congruence.
Qed.

Lemma send_sendgrid_email_success (to_email subject body : string) (w : World.t) :
  exists result w',
    send_sendgrid_email to_email subject body w = (Ok result, w')
    /\ (SendResult.success result = true
        <-> has_key w "sendgrid" = true
            /\ has_key w "sendgrid_sender" = true
            /\ exists r w1,
                 _make_request_with_retry "POST" sendgrid_url w = (Ok r, w1)
                 /\ Response.status_code r = 202%Z).
Proof.
  unfold send_sendgrid_email, bind at 1 2, get_api_key, has_key.
  destruct (no_key (World.API_KEYS w !! "sendgrid")) eqn:Hkey.
  { eexists _, _. split; [reflexivity|]. simpl.
    split; [discriminate|]. by intros [? _]. }
  destruct (no_key (World.API_KEYS w !! "sendgrid_sender")) eqn:Hsender.
  { eexists _, _. split; [reflexivity|]. simpl.
    split; [discriminate|]. by intros (_ & ? & _). }
  unfold try_except, bind.
  destruct (make_request_with_retry_cases "POST" sendgrid_url w)
    as [(r & w1 & Hrun & _)|(e & w1 & Hrun)]; rewrite Hrun.
  2:{ destruct (is_RequestException (Exn.cls e));
      (eexists _, _; split; [reflexivity|]; simpl;
       split; [discriminate|]; by intros (_ & _ & r' & w1' & [=] & _)). }
  destruct (Response.status_code r =? 202)%Z eqn:Hst.
  - eexists _, _. split; [reflexivity|]. simpl. split; [|done].
    intros _. split_and!; [done..|]. exists r, w1. split; [done|].
    by apply Z.eqb_eq.
  - eexists _, _. split; [reflexivity|]. simpl.
    split; [discriminate|]. intros (_ & _ & r' & w1' & [= <- <-] & Hst').
    apply Z.eqb_neq in Hst. done.
Qed.

(** Where the message of a failed email delivery comes from: the body of a
    response that is not a 202 when the wrapper returns one, the status
    code of the exception when the wrapper raises. *)
Lemma send_sendgrid_email_failure (to_email subject body : string) (w : World.t) :
  has_key w "sendgrid" = true ->
  has_key w "sendgrid_sender" = true ->
  (forall r w1,
     _make_request_with_retry "POST" sendgrid_url w = (Ok r, w1) ->
     Response.status_code r <> 202%Z ->
     send_sendgrid_email to_email subject body w
     = (Ok (SendResult.mk false
              (get_error_message "SENDGRID_ERROR"
                 (VStr (match sendgrid_body_detail to_email
                                (key_of w "sendgrid_sender")
                                ("SendGrid returned status "
                                 +:+ Py.str_of_Z (Response.status_code r)) r with
                        | inl _ => "SendGrid returned status "
                                   +:+ Py.str_of_Z (Response.status_code r)
                        | inr d => d
                        end)))), w1))
  /\ (forall e w1,
        _make_request_with_retry "POST" sendgrid_url w = (Raise e, w1) ->
        is_RequestException (Exn.cls e) = true ->
        send_sendgrid_email to_email subject body w
        = (Ok (SendResult.mk false
                 (get_error_message "SENDGRID_ERROR"
                    (VStr (if ((status_of e =? 401) || (status_of e =? 403))%Z
                           then "Authentication failed (Invalid API Key or Permissions?)"
                           else status_detail (status_of e) e)))), w1)).
Proof.
  unfold has_key. intros Hkey%negb_true_iff Hsender%negb_true_iff. split.
  - intros r w1 Hrun Hst.
    unfold send_sendgrid_email, bind at 1 2, get_api_key.
    rewrite Hkey, Hsender. unfold try_except, bind. rewrite Hrun.
    apply Z.eqb_neq in Hst. rewrite Hst. reflexivity.
  - intros e w1 Hrun He.
    unfold send_sendgrid_email, bind at 1 2, get_api_key.
    rewrite Hkey, Hsender. unfold try_except, bind. rewrite Hrun, He. reflexivity.
Qed.

(** C7, as amended.  Chat delivery reports success exactly when the bot
    token is configured, the request wrapper returns a response, and the
    payload of that response has a truthy [ok] entry; the wrapper returns
    no response whose status is between 400 and 599, so with such a status
    the payload is never consulted.  Email delivery reports success exactly
    when key and sender are configured and the wrapper returns a response
    with status 202; any other returned status, 2xx included, is a failure
    whose message is read from the body of the response, falling back on
    the status code; when the wrapper raises, the message is built from the
    status code of the exception. *)
Theorem delivery_success_spec :
  (forall chat_id text w,
     exists result w',
       send_telegram_message chat_id text w = (Ok result, w')
       /\ (SendResult.success result = true
           <-> has_key w "telegram_bot" = true
               /\ exists r w1,
                    _make_request_with_retry "POST"
                      (telegram_url (key_of w "telegram_bot")) w = (Ok r, w1)
                    /\ payload_ok r = true))
  /\ (forall method url w r w1,
        _make_request_with_retry method url w = (Ok r, w1) ->
        error_status r = false)
  /\ (forall to_email subject body w,
        exists result w',
          send_sendgrid_email to_email subject body w = (Ok result, w')
          /\ (SendResult.success result = true
              <-> has_key w "sendgrid" = true
                  /\ has_key w "sendgrid_sender" = true
                  /\ exists r w1,
                       _make_request_with_retry "POST" sendgrid_url w = (Ok r, w1)
                       /\ Response.status_code r = 202%Z))
  /\ (forall to_email subject body w r w1,
        has_key w "sendgrid" = true ->
        has_key w "sendgrid_sender" = true ->
        _make_request_with_retry "POST" sendgrid_url w = (Ok r, w1) ->
        Response.status_code r <> 202%Z ->
        send_sendgrid_email to_email subject body w
        = (Ok (SendResult.mk false
                 (get_error_message "SENDGRID_ERROR"
                    (VStr (match sendgrid_body_detail to_email
                                   (key_of w "sendgrid_sender")
                                   ("SendGrid returned status "
                                    +:+ Py.str_of_Z (Response.status_code r)) r with
                           | inl _ => "SendGrid returned status "
                                      +:+ Py.str_of_Z (Response.status_code r)
                           | inr d => d
                           end)))), w1))
  /\ (forall to_email subject body w e w1,
        has_key w "sendgrid" = true ->
        has_key w "sendgrid_sender" = true ->
        _make_request_with_retry "POST" sendgrid_url w = (Raise e, w1) ->
        is_RequestException (Exn.cls e) = true ->
        send_sendgrid_email to_email subject body w
        = (Ok (SendResult.mk false
                 (get_error_message "SENDGRID_ERROR"
                    (VStr (if ((status_of e =? 401) || (status_of e =? 403))%Z
                           then "Authentication failed (Invalid API Key or Permissions?)"
                           else status_detail (status_of e) e)))), w1)).
Proof.
  split_and!.
  - apply send_telegram_message_success.
  - intros method url w r w1 Hrun.
    destruct (make_request_with_retry_cases method url w)
      as [(r' & w' & Hrun' & Hst)|(e & w' & Hrun')];
      rewrite Hrun in Hrun'; [|done].
    injection Hrun' as -> _. by apply raise_for_status_accepts.
  - apply send_sendgrid_email_success.
  - intros to_email subject body w r w1 Hkey Hsender Hrun Hst.
    by apply (send_sendgrid_email_failure to_email subject body w Hkey Hsender).
  - intros to_email subject body w e w1 Hkey Hsender Hrun He.
    by apply (send_sendgrid_email_failure to_email subject body w Hkey Hsender).
Qed.

End Delivery.

(** One failed delivery and one successful one.  A 500 response whose
    payload says [ok] is never read: chat delivery fails on the status. *)
Lemma delivery_success_spec_witness :
  (exists result w',
     send_telegram_message (H := strict_lib) "42" "list"
       (world_of all_keys [] (respond 200 (VDict [("ok", VBool true)])))
     = (Ok result, w')
     /\ SendResult.success result = true)
  /\ error_status (Response.mk 200 "" (JsonOk (VDict [("ok", VBool true)]))) = false.
Proof.
  destruct (@delivery_success_spec strict_lib) as (Htelegram & Hstatus & _).
  split.
  - destruct (Htelegram "42" "list"
                (world_of all_keys [] (respond 200 (VDict [("ok", VBool true)]))))
      as (result & w' & Hrun & Hiff).
    exists result, w'. split; [exact Hrun|].
    apply Hiff. split; [reflexivity|].
    eexists _, _. split; reflexivity.
  - eapply (Hstatus "POST" "u"
              (world_of all_keys [] (respond 200 (VDict [("ok", VBool true)])))).
    reflexivity.
Defined.

(** C7 as stated fails for chat delivery.  The payload reports [ok], the
    HTTP status is 500 on every attempt, and the delivery is a failure. *)
Lemma telegram_status_matters :
  payload_ok (Response.mk 500 "" (JsonOk (VDict [("ok", VBool true)]))) = true
  /\ fst (send_telegram_message (H := strict_lib) "42" "list"
            (world_of all_keys [] (respond 500 (VDict [("ok", VBool true)]))))
     = Ok (SendResult.mk false
             "Error sending Telegram message: Status 500: 500 Error").
Proof. split; reflexivity. Qed.

(** ** perception.py: promotion of the errors found in the reply *)

Section Reasoning.

Context `{Lib} `{PromptText}.

Lemma append_nonempty (a b : string) : a <> "" -> a +:+ b <> "".
Proof. destruct a; [done|]. intros _. discriminate. Qed.

Lemma append_empty (a b : string) : a = "" -> b = "" -> a +:+ b = "".
Proof. by intros -> ->. Qed.

Lemma join_nonempty (sep x : string) (l : list string) :
  x ∈ l -> x <> "" -> Py.join sep l <> "".
Proof.
  induction l as [|y l IH]; intros Hin Hx; [by apply elem_of_nil in Hin|].
  apply elem_of_cons in Hin as [->|Hin].
  - destruct l; simpl; [done|]. by apply append_nonempty.
  - destruct l as [|z l]; [by apply elem_of_nil in Hin|].
    change (Py.join sep (y :: z :: l)) with (y +:+ sep +:+ Py.join sep (z :: l)).
    destruct y; [|discriminate].
    change ("" +:+ sep +:+ Py.join sep (z :: l)) with (sep +:+ Py.join sep (z :: l)).
    destruct sep; [|discriminate]. by apply IH.
Qed.

Lemma sorted_set_elem_of (x : string) (l : list string) :
  x ∈ sorted_set l <-> x ∈ l.
Proof.
  unfold sorted_set. rewrite merge_sort_Permutation, elem_of_elements.
  apply elem_of_list_to_set.
Qed.

Lemma sorted_set_NoDup (l : list string) : NoDup (sorted_set l).
Proof.
  unfold sorted_set. rewrite merge_sort_Permutation. apply NoDup_elements.
Qed.

(** A duplicate-free list of empty strings joins to the empty string. *)
Lemma join_all_empty (sep : string) (l : list string) :
  NoDup l -> (forall x, x ∈ l -> x = "") -> Py.join sep l = "".
Proof.
  intros Hnd Hall. destruct l as [|x [|y l]]; [done| |].
  - simpl. apply Hall, list_elem_of_here.
  - exfalso. apply NoDup_cons in Hnd as [Hx _]. apply Hx.
    rewrite (Hall x), (Hall y).
    + apply list_elem_of_here.
    + apply list_elem_of_further, list_elem_of_here.
    + apply list_elem_of_here.
Qed.

Lemma rstrip_empty (s : string) : Py.rstrip s = "" -> blank s = true.
Proof.
  induction s as [|c s IH]; simpl; [done|].
  destruct (Py.rstrip s); [|discriminate].
  destruct (Py.isspace c); [|discriminate]. intros _. by apply IH.
Qed.

Lemma lstrip_blank (s : string) : blank (Py.lstrip s) = true -> blank s = true.
Proof.
  induction s as [|c s IH]; simpl; [done|].
  destruct (Py.isspace c) eqn:Hc; simpl; [done|]. by rewrite Hc.
Qed.

Lemma strip_empty_blank (s : string) : Py.strip s = "" -> blank s = true.
Proof. intros Hs. by apply lstrip_blank, rstrip_empty. Qed.

Lemma space_not_lowered_to (c p : ascii) :
  Py.isspace c = true -> Py.isspace p = false -> Py.lower_char c <> p.
Proof.
  intros Hc Hp <-. revert Hc Hp.
  destruct c as [[] [] [] [] [] [] [] []]; vm_compute; congruence.
Qed.

(** A blank string contains no word that starts with a letter. *)
Lemma blank_contains (p : ascii) (pat s : string) :
  Py.isspace p = false ->
  blank s = true ->
  Py.contains (String p pat) (Py.lower s) = false.
Proof.
  intros Hp. induction s as [|c s IH]; simpl; [done|].
  intros [Hc Hs]%andb_true_iff. rewrite (IH Hs), orb_false_r.
  destruct (ascii_dec p (Py.lower_char c)) as [->|]; [|done].
  by destruct (space_not_lowered_to c (Py.lower_char c) Hc Hp).
Qed.

Lemma no_preference_in_blank (ms : list string) :
  Forall (fun m => Py.strip m = "") ms ->
  List.filter (fun e => Py.contains "preference" (Py.lower e)) ms = [].
Proof.
  induction 1 as [|m ms Hm _ IH]; [done|]. simpl.
  rewrite blank_contains; [done..|]. by apply strip_empty_blank.
Qed.

(** The [errors] field is not empty exactly when some tag has a content
    that is not blank. *)
Lemma errors_nonempty_iff (text : string) :
  Py.truthy (LLMMetadata.errors (extract_reasoning_metadata (VStr text))) = true
  <-> exists m, m ∈ error_tags text /\ Py.strip m <> "".
Proof.
  unfold extract_reasoning_metadata. cbn [LLMMetadata.errors].
  fold (error_tags text). rewrite truthy_true. split.
  - intros Hne. destruct (decide (Forall (fun m => Py.strip m = "") (error_tags text)))
      as [Hall|Hex].
    + exfalso. apply Hne. rewrite Forall_forall in Hall. apply append_empty.
      * apply join_all_empty; [apply sorted_set_NoDup|].
        intros x Hx. apply sorted_set_elem_of, list_elem_of_fmap in Hx as (m & -> & Hm).
        by apply Hall.
      * rewrite no_preference_in_blank; [done|]. by apply Forall_forall.
    + apply not_Forall_Exists in Hex; [|apply _].
      apply Exists_exists in Hex as (m & Hm & Hs). eauto.
  - intros (m & Hm & Hs). apply append_nonempty.
    apply (join_nonempty _ (Py.strip m)); [|done].
    apply sorted_set_elem_of, list_elem_of_fmap. eauto.
Qed.

(** C9, as amended.  When the credential is configured, the reasoning
    wrapper returns a dictionary without a truthy [error] entry and the
    text of its first candidate can be read, the analysis returns that text
    with the metadata extracted from it, and its top-level error is
    ["LLM identified issues: "] followed by the extracted errors exactly
    when the [errors] field of the metadata is not empty, and is left unset
    otherwise.  For a reply that is a string the field is not empty exactly
    when some [[ERROR: X]] tag has a content [X] that is not blank; so the
    error is set when such a tag exists, and not set when the reply has no
    error tag or only tags with blank content. *)
Theorem error_promotion_spec (query : string) (stage : Z) (w w1 : World.t)
    (raw err response_text : value) :
  has_key w "gemini" = true ->
  _call_gemini_api_with_retry (build_reasoning_prompt query stage)
    (key_of w "gemini") w = (Ok raw, w1) ->
  py_get raw "error" VNone = inr err ->
  value_truthy err = false ->
  candidate_text raw = inr response_text ->
  run_llm_analysis query stage w
  = (Ok (LLMAnalysisResult.mk response_text
           (extract_reasoning_metadata response_text)
           (if Py.truthy (LLMMetadata.errors (extract_reasoning_metadata response_text))
            then Some ("LLM identified issues: "
                       +:+ LLMMetadata.errors (extract_reasoning_metadata response_text))
            else None)
           0 (Some (build_reasoning_prompt query stage))), w1)
  /\ (forall text,
        response_text = VStr text ->
        (Py.truthy (LLMMetadata.errors (extract_reasoning_metadata response_text)) = true
         <-> exists m, m ∈ error_tags text /\ Py.strip m <> "")
        /\ (error_tags text = [] ->
            Py.truthy (LLMMetadata.errors (extract_reasoning_metadata response_text))
            = false)).
Proof.
  intros Hkey%negb_true_iff Hrun Hget Herr Htext. split.
  - unfold run_llm_analysis, bind at 1, get_api_key. rewrite Hkey.
    unfold key_of in Hrun. unfold bind at 1. rewrite Hrun.
    unfold bind at 1, lift at 1. rewrite Hget. unfold ret at 1. rewrite Herr.
    unfold try_except, bind, lift. rewrite Htext. reflexivity.
  - intros text ->. split; [apply errors_nonempty_iff|].
    intros Hnone. apply not_true_is_false. intros Ht.
    apply errors_nonempty_iff in Ht as (m & Hm & _).
    rewrite Hnone in Hm. by apply elem_of_nil in Hm.
Qed.

End Reasoning.

(** A reply with one error tag: the error is promoted. *)
Lemma error_promotion_spec_witness :
  top_level_error
    (fst (run_llm_analysis (H := strict_lib) (H0 := plain_prompts) "q" 1
            (world_of all_keys []
               (respond 200 (gemini_reply "[ERROR: Invalid ingredients provided: rocks]")))))
  = Some (Some "LLM identified issues: Invalid ingredients provided: rocks").
Proof.
  destruct (@error_promotion_spec strict_lib plain_prompts "q" 1
              (world_of all_keys []
                 (respond 200 (gemini_reply "[ERROR: Invalid ingredients provided: rocks]")))
              (World.mk all_keys
                 (fun n => nth n []
                   (respond 200 (gemini_reply "[ERROR: Invalid ingredients provided: rocks]")))
                 1 [Request "POST" (gemini_url "k2")])
              (gemini_reply "[ERROR: Invalid ingredients provided: rocks]")
              VNone
              (VStr "[ERROR: Invalid ingredients provided: rocks]"))
    as [Hrun _]; [reflexivity..|].
  rewrite Hrun. vm_compute. reflexivity.
Defined.

(** C9 as stated fails.  The reply "[ERROR: ]" carries an error tag, which
    the pattern finds, and the call succeeds; the top-level error stays
    unset, because the content of the tag is blank. *)
Lemma blank_error_tag_not_promoted :
  error_tags "[ERROR: ]" = [""]
  /\ top_level_error
       (fst (run_llm_analysis (H := strict_lib) (H0 := plain_prompts) "q" 1
               (world_of all_keys [] (respond 200 (gemini_reply "[ERROR: ]")))))
     = Some None.
Proof. split; vm_compute; reflexivity. Qed.

(** ** decision_making.py: the pipelines *)

Section Pipelines.

Context `{Lib} `{PromptText}.

Lemma truthy_append_l (a b : string) :
  Py.truthy a = true -> Py.truthy (a +:+ b) = true.
Proof. by destruct a. Qed.

Lemma truthy_append_r (a b : string) :
  Py.truthy b = true -> Py.truthy (a +:+ b) = true.
Proof. destruct a; [done|]. by intros _. Qed.

(** Every formatted error message is a non-empty string. *)
Lemma get_error_message_truthy (key : string) (detail : value) :
  Py.truthy (get_error_message key detail) = true.
Proof.
  unfold get_error_message, ERROR_MESSAGES.
  repeat match goal with
         | |- context [String.eqb key ?k] => destruct (String.eqb key k)
         end;
    destruct (value_truthy detail); cbn [from_option id Py.join];
    first [ reflexivity
          | apply truthy_append_l; reflexivity
          | apply truthy_append_r, truthy_append_r; reflexivity ].
Qed.

Lemma assoc_dict_set (k : string) (v : value) (kv : list (string * value)) :
  assoc k (dict_set k v kv) = Some v.
Proof.
  induction kv as [|[k' v'] kv IH]; simpl.
  - by rewrite String.eqb_refl.
  - destruct (String.eqb k k') eqn:Hk; simpl.
    + by rewrite String.eqb_refl.
    + by rewrite Hk.
Qed.

(** The detail gateway never raises, and what it reports as an error is a
    non-empty string: the test [if api_result["error"]] misses no failure. *)
Lemma fetch_spoonacular_details_result (recipe_id : Z) (w : World.t) :
  exists api w',
    fetch_spoonacular_details recipe_id w = (Ok api, w')
    /\ (ApiResult.error api = None \/ opt_truthy (ApiResult.error api) = true).
Proof.
  unfold fetch_spoonacular_details, bind at 1, get_api_key.
  destruct (no_key (World.API_KEYS w !! "spoonacular")).
  { eexists _, _. split; [reflexivity|]. right. apply get_error_message_truthy. }
  unfold try_except, bind.
  destruct (make_request_with_retry_cases "GET" (information_url recipe_id) w)
    as [(r & w1 & Hrun & _)|(e & w1 & Hrun)]; rewrite Hrun.
  2:{ destruct (is_RequestException (Exn.cls e));
      (eexists _, _; split; [reflexivity|]; right; apply get_error_message_truthy). }
  unfold lift.
  destruct (response_json r) as [e|recipe_data].
  { unfold raise. destruct (is_RequestException (Exn.cls e));
      (eexists _, _; split; [reflexivity|]; right; apply get_error_message_truthy). }
  unfold ret at 1.
  destruct (py_in "extendedIngredients" recipe_data) as [e|has].
  { unfold raise. destruct (is_RequestException (Exn.cls e));
      (eexists _, _; split; [reflexivity|]; right; apply get_error_message_truthy). }
  eexists _, _. split; [reflexivity|]. by left.
Qed.

(** The detail gateway on a recipe whose [extendedIngredients] is the
    empty list: the list is stored back, still empty. *)
Lemma fetch_spoonacular_details_empty (recipe_id : Z) (w w' : World.t)
    (r : Response.t) (kv : list (string * value)) :
  has_key w "spoonacular" = true ->
  _make_request_with_retry "GET" (information_url recipe_id) w = (Ok r, w') ->
  response_json r = inr (VDict kv) ->
  assoc "extendedIngredients" kv = Some (VList []) ->
  fetch_spoonacular_details recipe_id w
  = (Ok (ApiResult.mk (VDict (dict_set "extendedIngredients" (VList []) kv)) None), w').
Proof.
  intros Hkey%negb_true_iff Hrun Hjson Hext.
  unfold fetch_spoonacular_details, bind at 1, get_api_key. rewrite Hkey.
  unfold try_except, bind. rewrite Hrun. unfold lift. rewrite Hjson.
  unfold ret at 1. unfold py_in, parse_extended, py_get. rewrite Hext.
  simpl. reflexivity.
Qed.

Lemma fetch_spoonacular_recipes_ok (ingredients : string)
    (foodType cuisine : option string) (w w' : World.t)
    (r : Response.t) (data : value) :
  has_key w "spoonacular" = true ->
  _make_request_with_retry "GET" find_by_ingredients_url w = (Ok r, w') ->
  response_json r = inr data ->
  fetch_spoonacular_recipes ingredients foodType cuisine w
  = (Ok (ApiResult.mk data None), w').
Proof.
  intros Hkey%negb_true_iff Hrun Hjson.
  unfold fetch_spoonacular_recipes, bind at 1, get_api_key. rewrite Hkey.
  unfold try_except, bind. rewrite Hrun. unfold lift. by rewrite Hjson.
Qed.

(** C5, as amended.  When the reasoning stage does not flag invalid
    ingredients and the recipe provider answers with an empty list (or any
    falsy body), the pipeline returns normally with [recipes = []], not
    null, and carries the "no recipes found" message in the [error] field
    of the response, which is therefore not null. *)
Theorem find_recipes_no_matches (request : FindRecipesRequest.t)
    (w w1 w2 : World.t) (llm_result : LLMAnalysisResult.t)
    (r : Response.t) (data : value) :
  run_llm_analysis (find_recipes_query request) 1 w = (Ok llm_result, w1) ->
  invalid_ingredients_flagged llm_result = false ->
  has_key w1 "spoonacular" = true ->
  _make_request_with_retry "GET" find_by_ingredients_url w1 = (Ok r, w2) ->
  response_json r = inr data ->
  value_truthy data = false ->
  process_find_recipes request w
  = (Ok (FindRecipesResponse.mk (Some []) (Some no_recipes_message)
           (LLMAnalysisResult.prompt llm_result)
           (Some (LLMAnalysisResult.metadata llm_result))), w2).
Proof.
  intros Hllm Hflag Hkey Hrun Hjson Hdata.
  unfold process_find_recipes, bind. rewrite Hllm, Hflag.
  rewrite (fetch_spoonacular_recipes_ok _ _ _ w1 w2 r data Hkey Hrun Hjson).
  unfold ret, find_recipes_response. simpl. by rewrite Hdata.
Qed.

(** C6.  Once the analysis has returned, the pipeline does not abort on a
    failure of the detail call or of the extraction; it returns the
    estimates of the fallback generator with [isEstimate = true] and an
    error that names the trigger.
    - The credential is missing: the gateway reports it without a request,
      and the error is "Could not retrieve exact recipe ingredients: "
      followed by the gateway's "not configured" message.
    - The [try] block of the gateway raises (the request wrapper, the
      reading of the body, or the membership test): the gateway reports
      the non-empty message of its handler with no data, and the error is
      "Could not retrieve exact recipe ingredients: " followed by that
      message.
    - The detail call succeeds and the extraction raises: the error is
      "Error processing recipe ingredients: " followed by the text of the
      exception.
    With the credential configured the detail call always ends, and in
    one of two ways: its [try] block raises, or the body is read and the
    pipeline goes on to the extraction.  The estimates begin with the
    three base estimates, whatever the title. *)
Theorem missing_ingredients_fallback (request : GetMissingIngredientsRequest.t)
    (w w1 : World.t) (llm_result : LLMAnalysisResult.t) :
  run_llm_analysis (missing_ingredients_query request) 2 w = (Ok llm_result, w1) ->
  (has_key w1 "spoonacular" = false ->
   fetch_spoonacular_details (GetMissingIngredientsRequest.recipeId request) w1
   = (Ok (ApiResult.mk VNone
            (Some "Spoonacular API key not configured in backend environment.")), w1)
   /\ process_get_missing_ingredients request w
      = (Ok (GetMissingIngredientsResponse.mk
               (Some (generate_fallback_ingredients
                        (GetMissingIngredientsRequest.recipeTitle request)))
               true
               (Some ("Could not retrieve exact recipe ingredients: "
                      +:+ "Spoonacular API key not configured in backend environment."))
               (LLMAnalysisResult.prompt llm_result) None), w1))
  /\ (has_key w1 "spoonacular" = true ->
      forall e w2,
        details_call_raises (GetMissingIngredientsRequest.recipeId request) w1 e w2 ->
        fetch_spoonacular_details (GetMissingIngredientsRequest.recipeId request) w1
        = (Ok (ApiResult.mk VNone
                 (Some (details_error_message
                          (GetMissingIngredientsRequest.recipeId request) e))), w2)
        /\ Py.truthy (details_error_message
                        (GetMissingIngredientsRequest.recipeId request) e) = true
        /\ process_get_missing_ingredients request w
           = (Ok (GetMissingIngredientsResponse.mk
                    (Some (generate_fallback_ingredients
                             (GetMissingIngredientsRequest.recipeTitle request)))
                    true
                    (Some ("Could not retrieve exact recipe ingredients: "
                           +:+ details_error_message
                                 (GetMissingIngredientsRequest.recipeId request) e))
                    (LLMAnalysisResult.prompt llm_result) None), w2))
  /\ (has_key w1 "spoonacular" = true ->
      forall r w2 recipe_data has e,
        _make_request_with_retry "GET"
          (information_url (GetMissingIngredientsRequest.recipeId request)) w1
        = (Ok r, w2) ->
        response_json r = inr recipe_data ->
        py_in "extendedIngredients" recipe_data = inr has ->
        extract_required (if has then parse_extended recipe_data else recipe_data)
        = inl e ->
        fetch_spoonacular_details (GetMissingIngredientsRequest.recipeId request) w1
        = (Ok (ApiResult.mk (if has then parse_extended recipe_data else recipe_data)
                 None), w2)
        /\ process_get_missing_ingredients request w
           = (Ok (GetMissingIngredientsResponse.mk
                    (Some (generate_fallback_ingredients
                             (GetMissingIngredientsRequest.recipeTitle request)))
                    true
                    (Some ("Error processing recipe ingredients: " +:+ Exn.msg e))
                    (LLMAnalysisResult.prompt llm_result) None), w2))
  /\ (has_key w1 "spoonacular" = true ->
      (exists e w2,
         details_call_raises (GetMissingIngredientsRequest.recipeId request) w1 e w2)
      \/ (exists r w2 recipe_data has,
            _make_request_with_retry "GET"
              (information_url (GetMissingIngredientsRequest.recipeId request)) w1
            = (Ok r, w2)
            /\ response_json r = inr recipe_data
            /\ py_in "extendedIngredients" recipe_data = inr has))
  /\ (exists extra,
        generate_fallback_ingredients (GetMissingIngredientsRequest.recipeTitle request)
        = base_estimates ++ extra)
  /\ length base_estimates = 3.
Proof.
  intros Hllm. split_and!.
  - intros Hkey%negb_false_iff.
    assert (fetch_spoonacular_details (GetMissingIngredientsRequest.recipeId request) w1
            = (Ok (ApiResult.mk VNone
                     (Some "Spoonacular API key not configured in backend environment.")),
               w1)) as Hfetch.
    { unfold fetch_spoonacular_details, bind at 1, get_api_key. by rewrite Hkey. }
    split; [done|].
    unfold process_get_missing_ingredients, bind. by rewrite Hllm, Hfetch.
  - intros Hkey%negb_true_iff e w2 Hraises.
    assert (fetch_spoonacular_details (GetMissingIngredientsRequest.recipeId request) w1
            = (Ok (ApiResult.mk VNone
                     (Some (details_error_message
                              (GetMissingIngredientsRequest.recipeId request) e))), w2))
      as Hfetch.
    { unfold fetch_spoonacular_details, bind at 1, get_api_key. rewrite Hkey.
      unfold try_except, bind, details_error_message.
      destruct Hraises as [Hrun|(r & Hrun & [Hjson|(recipe_data & Hjson & Hin)])];
        rewrite Hrun.
      - by destruct (is_RequestException (Exn.cls e)).
      - unfold lift. rewrite Hjson. unfold raise.
        by destruct (is_RequestException (Exn.cls e)).
      - unfold lift. rewrite Hjson. unfold ret at 1. rewrite Hin. unfold raise.
        by destruct (is_RequestException (Exn.cls e)). }
    assert (Py.truthy (details_error_message
                         (GetMissingIngredientsRequest.recipeId request) e) = true)
      as Htruthy.
    { unfold details_error_message.
      destruct (is_RequestException (Exn.cls e)); apply get_error_message_truthy. }
    split_and!; [done..|].
    unfold process_get_missing_ingredients, bind. rewrite Hllm, Hfetch.
    unfold missing_ingredients_response.
    cbn [ApiResult.error opt_truthy from_option id]. by rewrite Htruthy.
  - intros Hkey%negb_true_iff r w2 recipe_data has e Hrun Hjson Hin Hextract.
    assert (fetch_spoonacular_details (GetMissingIngredientsRequest.recipeId request) w1
            = (Ok (ApiResult.mk (if has then parse_extended recipe_data else recipe_data)
                     None), w2)) as Hfetch.
    { unfold fetch_spoonacular_details, bind at 1, get_api_key. rewrite Hkey.
      unfold try_except, bind. rewrite Hrun. unfold lift. rewrite Hjson.
      unfold ret at 1. by rewrite Hin. }
    split; [done|].
    unfold process_get_missing_ingredients, bind. rewrite Hllm, Hfetch.
    unfold missing_ingredients_response.
    cbn [ApiResult.error ApiResult.data opt_truthy]. by rewrite Hextract.
  - intros _. unfold details_call_raises.
    destruct (make_request_with_retry_cases "GET"
                (information_url (GetMissingIngredientsRequest.recipeId request)) w1)
      as [(r & w2 & Hrun & _)|(e & w2 & Hrun)].
    2:{ left. exists e, w2. by left. }
    destruct (response_json r) as [e|recipe_data] eqn:Hjson.
    { left. exists e, w2. right. exists r. split; [done|]. by left. }
    destruct (py_in "extendedIngredients" recipe_data) as [e|has] eqn:Hin.
    + left. exists e, w2. right. exists r. split; [done|]. right.
      by exists recipe_data.
    + right. by exists r, w2, recipe_data, has.
  - eexists. apply generate_fallback_ingredients_chosen.
  - reflexivity.
Qed.

(** C10.  When the detail call succeeds and the recipe it returns has an
    empty [extendedIngredients] list, reading the first element raises
    [IndexError], the handler of the pipeline catches it, and the pipeline
    returns the fallback estimates with [isEstimate = true] and the error
    "Error processing recipe ingredients: list index out of range". *)
Theorem missing_ingredients_empty_list (request : GetMissingIngredientsRequest.t)
    (w w1 w2 : World.t) (llm_result : LLMAnalysisResult.t)
    (r : Response.t) (kv : list (string * value)) :
  run_llm_analysis (missing_ingredients_query request) 2 w = (Ok llm_result, w1) ->
  has_key w1 "spoonacular" = true ->
  _make_request_with_retry "GET"
    (information_url (GetMissingIngredientsRequest.recipeId request)) w1 = (Ok r, w2) ->
  response_json r = inr (VDict kv) ->
  assoc "extendedIngredients" kv = Some (VList []) ->
  getitem_0 (VList []) = inl (exn IndexError "list index out of range")
  /\ process_get_missing_ingredients request w
     = (Ok (GetMissingIngredientsResponse.mk
              (Some (generate_fallback_ingredients
                       (GetMissingIngredientsRequest.recipeTitle request)))
              true
              (Some "Error processing recipe ingredients: list index out of range")
              (LLMAnalysisResult.prompt llm_result) None), w2).
Proof.
  intros Hllm Hkey Hrun Hjson Hext. split; [done|].
  unfold process_get_missing_ingredients, bind. rewrite Hllm.
  rewrite (fetch_spoonacular_details_empty _ w1 w2 r kv Hkey Hrun Hjson Hext).
  unfold missing_ingredients_response, extract_required, py_in, getitem_str.
  cbn [ApiResult.error ApiResult.data opt_truthy].
  rewrite assoc_dict_set. reflexivity.
Qed.

End Pipelines.

(** The recipe provider answers "chicken, rice" with an empty list. *)
Lemma find_recipes_no_matches_witness :
  returned
    (fst (process_find_recipes (H := strict_lib) (H0 := plain_prompts) find_request
            (world_of recipe_keys [] (respond 200 (VList [])))))
  = Some (FindRecipesResponse.mk (Some []) (Some no_recipes_message) None
            (Some LLMMetadata.default)).
Proof.
  rewrite (@find_recipes_no_matches strict_lib plain_prompts find_request
             (world_of recipe_keys [] (respond 200 (VList [])))
             (world_of recipe_keys [] (respond 200 (VList [])))
             (World.mk recipe_keys (fun n => nth n [] (respond 200 (VList []))) 1
                [Request "GET" find_by_ingredients_url])
             skipped_analysis
             (Response.mk 200 "" (JsonOk (VList []))) (VList [])
             eq_refl eq_refl eq_refl eq_refl eq_refl eq_refl).
  reflexivity.
Defined.

(** C5 as stated fails.  With zero matches the response has [recipes = []]
    and its [error] field is not null: it holds the "no recipes" message. *)
Lemma find_recipes_no_matches_error_set :
  FindRecipesResponse.recipes
    <$> returned
          (fst (process_find_recipes (H := strict_lib) (H0 := plain_prompts) find_request
                  (world_of recipe_keys [] (respond 200 (VList [])))))
  = Some (Some [])
  /\ FindRecipesResponse.error
       <$> returned
             (fst (process_find_recipes (H := strict_lib) (H0 := plain_prompts)
                     find_request
                     (world_of recipe_keys [] (respond 200 (VList [])))))
     = Some (Some "No recipes found matching your ingredients and preferences.")
  /\ Some "No recipes found matching your ingredients and preferences."
     <> @None string.
Proof. split_and!; [vm_compute; reflexivity..|discriminate]. Qed.

(** The recipe provider answers 404 on both attempts: the estimates for
    "Chicken Soup" come back, and the error says that the recipe was not
    found. *)
Lemma missing_ingredients_fallback_witness :
  process_get_missing_ingredients (H := strict_lib) (H0 := plain_prompts)
    missing_request (world_of recipe_keys [] (respond 404 VNone))
  = (Ok (GetMissingIngredientsResponse.mk
           (Some (base_estimates ++ [estimate "(Estimate) Chicken" 1 "lb"]))
           true
           (Some ("Could not retrieve exact recipe ingredients: "
                  +:+ "Error communicating with Spoonacular: Recipe ID 7 not found"))
           None None),
     World.mk recipe_keys (fun n => nth n [] (respond 404 VNone)) 2
       [Request "GET" (information_url 7); Sleep (wait_time (1 # 2) 1);
        Request "GET" (information_url 7)]).
Proof.
  destruct (@missing_ingredients_fallback strict_lib plain_prompts missing_request
              (world_of recipe_keys [] (respond 404 VNone))
              (world_of recipe_keys [] (respond 404 VNone))
              skipped_analysis eq_refl)
    as (_ & Hraises & _).
  destruct (Hraises eq_refl
              (Exn.mk HTTPError "404 Error" (Some (Response.mk 404 "" (JsonOk VNone))))
              (World.mk recipe_keys (fun n => nth n [] (respond 404 VNone)) 2
                 [Request "GET" (information_url 7); Sleep (wait_time (1 # 2) 1);
                  Request "GET" (information_url 7)])
              (or_introl eq_refl))
    as (_ & _ & Hrun).
  rewrite Hrun. reflexivity.
Defined.

(** The recipe provider returns a recipe that lists no ingredient. *)
Lemma missing_ingredients_empty_list_witness :
  returned
    (fst (process_get_missing_ingredients (H := strict_lib) (H0 := plain_prompts)
            missing_request (world_of recipe_keys [] (respond 200 (VDict empty_recipe)))))
  = Some (GetMissingIngredientsResponse.mk
            (Some (generate_fallback_ingredients "Chicken Soup"))
            true
            (Some "Error processing recipe ingredients: list index out of range")
            None None).
Proof.
  destruct (@missing_ingredients_empty_list strict_lib plain_prompts missing_request
              (world_of recipe_keys [] (respond 200 (VDict empty_recipe)))
              (world_of recipe_keys [] (respond 200 (VDict empty_recipe)))
              (World.mk recipe_keys
                 (fun n => nth n [] (respond 200 (VDict empty_recipe))) 1
                 [Request "GET" (information_url 7)])
              skipped_analysis
              (Response.mk 200 "" (JsonOk (VDict empty_recipe))) empty_recipe
              eq_refl eq_refl eq_refl eq_refl eq_refl) as [_ Hrun].
  rewrite Hrun. reflexivity.
Defined.

(** * Further properties *)

(** ** utils.py *)

Lemma re_sub_spaces_plain (in_run : bool) (c : ascii) (s : string) :
  occurs c (Py.re_sub_spaces_from in_run s) = true ->
  Py.isspace c = true -> c = " "%char.
Proof.
  intros Hc Hs. revert in_run Hc.
  induction s as [|c' s IH]; intros in_run; simpl; [done|].
  destruct (Py.isspace c') eqn:Hc'.
  - destruct in_run; [apply IH|]. simpl.
    intros [Heq%Ascii.eqb_eq|Hc]%orb_true_iff; [done|by eapply IH].
  - simpl. intros [Heq%Ascii.eqb_eq|Hc]%orb_true_iff; [congruence|by eapply IH].
Qed.

Lemma lower_fixed (s : string) :
  (forall c, occurs c s = true -> Py.isupper c = false) -> Py.lower s = s.
Proof.
  induction s as [|c s IH]; [done|]. intros Hs. cbn [Py.lower]. f_equal.
  - unfold Py.lower_char. rewrite (Hs c); [done|].
    cbn [occurs]. by rewrite Ascii.eqb_refl.
  - apply IH. intros c' Hc'. apply Hs. cbn [occurs]. rewrite Hc'. apply orb_true_r.
Qed.

(** X1.  The alphabet of a normalized name: every character is a word
    character or the plain space, so no whitespace other than the space and
    no punctuation other than the underscore is left; and the name is in
    lower case already: [lower] leaves it as it is. *)
Theorem normalize_ingredient_alphabet (name : string) :
  (forall c,
     occurs c (normalize_ingredient name) = true ->
     (Py.isword c = true \/ c = " "%char)
     /\ (Py.ispunct c = true -> c = "_"%char))
  /\ Py.lower (normalize_ingredient name) = normalize_ingredient name.
Proof.
  split.
  - intros c Hc.
    destruct (normalize_ingredient_characters name c Hc) as (Hclass & Hu & Hp).
    split; [|done].
    apply orb_true_iff in Hclass as [Hw|Hs]; [by left|right].
    assert (Hin : occurs c (Py.re_sub_spaces
                              (Py.re_sub_nonword_nonspace (Py.lower name))) = true).
    { unfold normalize_ingredient in Hc.
      destruct (Py.truthy name); simpl in Hc; [|done].
      apply occurs_lstrip, occurs_rstrip.
      destruct (Py.endswith _ "es"); [by apply occurs_substring in Hc|].
      destruct (Py.endswith _ "s"); [by apply occurs_substring in Hc|done]. }
    by eapply re_sub_spaces_plain.
  - apply lower_fixed. intros c Hc.
    by destruct (normalize_ingredient_characters name c Hc) as (_ & Hu & _).
Qed.

(** A name with capitals, punctuation, a double space and a plural. *)
Lemma normalize_ingredient_alphabet_witness :
  normalize_ingredient "Red  Onion's!" = "red onion"
  /\ Py.lower (normalize_ingredient "Red  Onion's!") = normalize_ingredient "Red  Onion's!".
Proof.
  split; [reflexivity|].
  apply (normalize_ingredient_alphabet "Red  Onion's!").
Defined.

Lemma filter_sublist {A} (f : A -> bool) (l : list A) :
  List.filter f l `sublist_of` l.
Proof.
  induction l as [|x l IH]; simpl; [done|].
  destruct (f x); [by apply sublist_skip|by apply sublist_cons].
Qed.

Lemma filter_sublist_mono {A} (f g : A -> bool) (l : list A) :
  (forall x, f x = true -> g x = true) ->
  List.filter f l `sublist_of` List.filter g l.
Proof.
  intros Hfg. induction l as [|x l IH]; simpl; [done|].
  destruct (f x) eqn:Hf.
  - rewrite (Hfg x Hf). by apply sublist_skip.
  - destruct (g x); [by apply sublist_cons|done].
Qed.

Lemma is_missing_antitone (user1 user2 : list (option string))
    (r : SpoonacularIngredient.t) :
  (forall o, o ∈ user1 -> o ∈ user2) ->
  is_missing user2 r = true -> is_missing user1 r = true.
Proof.
  intros Hsub. unfold is_missing.
  intros [Hn Hs]%andb_true_iff. rewrite Hn. simpl.
  apply negb_true_iff, not_true_iff_false. intros Hsat.
  apply negb_true_iff, not_true_iff_false in Hs. apply Hs.
  apply satisfied_iff in Hsat as (o & Ho & Hrest).
  apply satisfied_iff. exists o. split; [by apply Hsub|done].
Qed.

(** X2.  The matcher invents nothing and keeps the order: its result is a
    subsequence of the required list.  Owning more never makes more
    missing: when every owned entry of one list is in another, what is
    missing against the larger list is a subsequence of what is missing
    against the smaller. *)
Theorem find_missing_ingredients_sublist :
  (forall required user,
     find_missing_ingredients required user `sublist_of` omap id required)
  /\ (forall required user1 user2,
        (forall o, o ∈ user1 -> o ∈ user2) ->
        find_missing_ingredients required user2
        `sublist_of` find_missing_ingredients required user1).
Proof.
  split.
  - intros required user. rewrite find_missing_filter. apply filter_sublist.
  - intros required user1 user2 Hsub. rewrite !find_missing_filter.
    apply filter_sublist_mono. intros r. by apply is_missing_antitone.
Qed.

Lemma find_missing_ingredients_sublist_witness :
  find_missing_ingredients [Some (ingredient "salt"); Some (ingredient "onion")]
    [Some "salt"; Some "red onions"]
  `sublist_of` find_missing_ingredients
                 [Some (ingredient "salt"); Some (ingredient "onion")]
                 [Some "red onions"].
Proof.
  apply (proj2 find_missing_ingredients_sublist).
  intros o Ho. by apply list_elem_of_further.
Defined.

(** ** The gateways without their credential *)

Section Gateways.

Context `{Lib} `{PromptText}.

Lemma has_key_false (w : World.t) (key_name : string) :
  has_key w key_name = false -> no_key (World.API_KEYS w !! key_name) = true.
Proof. unfold has_key. by intros ?%negb_false_iff. Qed.

Lemma has_key_true (w : World.t) (key_name : string) :
  has_key w key_name = true -> no_key (World.API_KEYS w !! key_name) = false.
Proof. unfold has_key. by intros ?%negb_true_iff. Qed.

(** X3.  A gateway whose credential is absent, or is the empty string, reports
    the missing credential and leaves the world as it found it: no request
    is made and nothing sleeps.  Email delivery needs the sender address as
    well as the key, and reports the absence of each in its own words. *)
Theorem missing_credential_no_request (w : World.t) :
  (has_key w "spoonacular" = false ->
   (forall ingredients foodType cuisine,
      fetch_spoonacular_recipes ingredients foodType cuisine w
      = (Ok (ApiResult.mk VNone
               (Some "Spoonacular API key not configured in backend environment.")), w))
   /\ (forall recipe_id,
         fetch_spoonacular_details recipe_id w
         = (Ok (ApiResult.mk VNone
                  (Some "Spoonacular API key not configured in backend environment.")), w)))
  /\ (has_key w "telegram_bot" = false ->
      forall chat_id text,
        send_telegram_message chat_id text w
        = (Ok (SendResult.mk false
                 "Telegram Bot API key not configured in backend environment."), w))
  /\ (has_key w "sendgrid" = false ->
      forall to_email subject body,
        send_sendgrid_email to_email subject body w
        = (Ok (SendResult.mk false
                 "SendGrid API key not configured in backend environment."), w))
  /\ (has_key w "sendgrid" = true ->
      has_key w "sendgrid_sender" = false ->
      forall to_email subject body,
        send_sendgrid_email to_email subject body w
        = (Ok (SendResult.mk false
                 "SendGrid sender email not configured in backend environment."), w)).
Proof.
  split_and!.
  - intros Hkey%has_key_false. split.
    + intros ingredients foodType cuisine.
      unfold fetch_spoonacular_recipes, bind, get_api_key. by rewrite Hkey.
    + intros recipe_id.
      unfold fetch_spoonacular_details, bind, get_api_key. by rewrite Hkey.
  - intros Hkey%has_key_false chat_id text.
    unfold send_telegram_message, bind, get_api_key. by rewrite Hkey.
  - intros Hkey%has_key_false to_email subject body.
    unfold send_sendgrid_email, bind, get_api_key. by rewrite Hkey.
  - intros Hkey%has_key_true Hsender%has_key_false to_email subject body.
    unfold send_sendgrid_email, bind, get_api_key. by rewrite Hkey, Hsender.
Qed.

(** X4.  Without the credential of the reasoning service the analysis makes no
    request and returns its fixed fallback, with no prompt; the find-recipes
    pipeline goes on to query the recipe provider all the same and builds
    its response from what the provider says. *)
Theorem missing_reasoning_credential (w : World.t) :
  has_key w "gemini" = false ->
  (forall query stage,
     run_llm_analysis query stage w
     = (Ok (LLMAnalysisResult.mk (VStr "[Fallback due to missing API key]")
              LLMMetadata.default
              (Some "Gemini API key not configured in backend environment.")
              0 None), w))
  /\ (forall request api_result w',
        fetch_spoonacular_recipes (Py.strip (FindRecipesRequest.ingredients request))
          (FindRecipesRequest.foodType request) (FindRecipesRequest.cuisine request) w
        = (Ok api_result, w') ->
        process_find_recipes request w
        = (Ok (find_recipes_response skipped_analysis api_result), w')).
Proof.
  intros Hkey%has_key_false.
  assert (Hrun : forall query stage,
    run_llm_analysis query stage w = (Ok skipped_analysis, w)).
  { intros query stage. unfold run_llm_analysis, bind, get_api_key. by rewrite Hkey. }
  split; [exact Hrun|].
  intros request api_result w' Hfetch.
  unfold process_find_recipes, bind. rewrite Hrun.
  change (invalid_ingredients_flagged skipped_analysis) with false.
  cbv beta iota zeta. by rewrite Hfetch.
Qed.

End Gateways.

Lemma missing_credential_no_request_witness :
  send_sendgrid_email (H := strict_lib) "a@b.c" "s" "b"
    (world_of {[ "sendgrid" := "k4" ]} [] (respond 202 VNone))
  = (Ok (SendResult.mk false
           "SendGrid sender email not configured in backend environment."),
     world_of {[ "sendgrid" := "k4" ]} [] (respond 202 VNone)).
Proof.
  apply (@missing_credential_no_request strict_lib); reflexivity.
Defined.

Lemma missing_reasoning_credential_witness :
  fst (run_llm_analysis (H := strict_lib) (H0 := plain_prompts) "q" 1
         (world_of recipe_keys [] (respond 200 (VList []))))
  = Ok skipped_analysis.
Proof.
  destruct (@missing_reasoning_credential strict_lib plain_prompts
              (world_of recipe_keys [] (respond 200 (VList []))) eq_refl)
    as [Hrun _].
  rewrite Hrun. reflexivity.
Defined.

(** ** The recipe gateways *)

Section RecipeGateways.

Context `{Lib}.

(** The request wrapper ends after at most [MAX_API_RETRIES + 1] requests,
    in the world reached by those requests and the sleeps between them. *)
Lemma make_request_with_retry_bounded (method url : string) (w : World.t) :
  exists k o,
    k <= MAX_API_RETRIES
    /\ _make_request_with_retry method url w
       = (outcome_of o, after w (S k) (backoff_trace (1 # 2) method url 0 k))
    /\ (forall r, o = inr r -> raise_for_status r = inr tt).
Proof.
  destruct (first_settled
              (fun j => api_attempt (World.http w (World.made w + j)))
              MAX_API_RETRIES) as (k & Hk & Hfail & Hlast).
  exists k, (api_attempt (World.http w (World.made w + k))).
  split_and!; [done|by apply make_request_with_retry_run|].
  intros r Hr. unfold api_attempt in Hr.
  destruct (World.http w _) as [r'|e']; [|done]. simpl in Hr.
  destruct (raise_for_status r') as [e|[]] eqn:Hs; simpl in Hr; [done|].
  by injection Hr as <-.
Qed.

Lemma append_empty_r (s : string) : s +:+ "" = s.
Proof.
  induction s as [|c s IH]; [done|].
  change (String c (s +:+ "") = String c s). by rewrite IH.
Qed.

(** X5.  Both recipe gateways return in every world and never raise; what they
    return has no error, or has no data and a non-empty error; they make at
    most [MAX_API_RETRIES + 1] requests and leave the credentials alone. *)
Theorem recipe_gateways_outcome :
  (forall ingredients foodType cuisine w,
     exists api_result w',
       fetch_spoonacular_recipes ingredients foodType cuisine w = (Ok api_result, w')
       /\ outcome_shape api_result
       /\ World.made w <= World.made w' <= World.made w + S MAX_API_RETRIES
       /\ World.API_KEYS w' = World.API_KEYS w)
  /\ (forall recipe_id w,
        exists api_result w',
          fetch_spoonacular_details recipe_id w = (Ok api_result, w')
          /\ outcome_shape api_result
          /\ World.made w <= World.made w' <= World.made w + S MAX_API_RETRIES
          /\ World.API_KEYS w' = World.API_KEYS w).
Proof.
  split.
  - intros ingredients foodType cuisine w.
    unfold fetch_spoonacular_recipes, bind at 1, get_api_key.
    destruct (no_key (World.API_KEYS w !! "spoonacular")).
    { eexists _, _. split; [reflexivity|]. split_and!; [|lia|lia|done].
      right. split; [done|]. apply get_error_message_truthy. }
    unfold try_except, bind.
    destruct (make_request_with_retry_bounded "GET" find_by_ingredients_url w)
      as (k & o & Hk & Hrun & _). rewrite Hrun.
    destruct o as [e|r]; simpl.
    { destruct (is_RequestException (Exn.cls e));
        (eexists _, _; split; [reflexivity|]; simpl; split_and!; [|lia|lia|done];
         right; split; [done|]; apply get_error_message_truthy). }
    unfold lift. destruct (response_json r) as [e|data].
    { unfold raise. destruct (is_RequestException (Exn.cls e));
        (eexists _, _; split; [reflexivity|]; simpl; split_and!; [|lia|lia|done];
         right; split; [done|]; apply get_error_message_truthy). }
    eexists _, _. split; [reflexivity|]. simpl. split_and!; [by left|lia|lia|done].
  - intros recipe_id w.
    unfold fetch_spoonacular_details, bind at 1, get_api_key.
    destruct (no_key (World.API_KEYS w !! "spoonacular")).
    { eexists _, _. split; [reflexivity|]. split_and!; [|lia|lia|done].
      right. split; [done|]. apply get_error_message_truthy. }
    unfold try_except, bind.
    destruct (make_request_with_retry_bounded "GET" (information_url recipe_id) w)
      as (k & o & Hk & Hrun & _). rewrite Hrun.
    destruct o as [e|r]; simpl.
    { destruct (is_RequestException (Exn.cls e));
        (eexists _, _; split; [reflexivity|]; simpl; split_and!; [|lia|lia|done];
         right; split; [done|]; apply get_error_message_truthy). }
    unfold lift. destruct (response_json r) as [e|data].
    { unfold raise. destruct (is_RequestException (Exn.cls e));
        (eexists _, _; split; [reflexivity|]; simpl; split_and!; [|lia|lia|done];
         right; split; [done|]; apply get_error_message_truthy). }
    unfold ret at 1.
    destruct (py_in "extendedIngredients" data) as [e|has].
    { unfold raise. destruct (is_RequestException (Exn.cls e));
        (eexists _, _; split; [reflexivity|]; simpl; split_and!; [|lia|lia|done];
         right; split; [done|]; apply get_error_message_truthy). }
    eexists _, _. split; [reflexivity|]. simpl. split_and!; [by left|lia|lia|done].
Qed.

Lemma get_error_message_spoonacular (detail : string) :
  Py.truthy detail = true ->
  get_error_message "SPOONACULAR_ERROR" (VStr detail)
  = "Error communicating with Spoonacular: " +:+ detail.
Proof.
  intros Hd. unfold get_error_message. simpl. rewrite Hd.
  cbn [Py.join]. by rewrite append_empty_r.
Qed.

(** Two failed attempts, the second answered with an error status: the
    wrapper has made two requests half a second apart and raises the
    [HTTPError] of the second answer. *)
Lemma make_request_with_retry_twice (method url : string) (w : World.t)
    (r : Response.t) :
  transient (api_attempt (World.http w (World.made w))) = true ->
  World.http w (World.made w + 1) = Responds r ->
  error_status r = true ->
  _make_request_with_retry method url w
  = (Raise (Exn.mk HTTPError (http_error_msg r) (Some r)),
     after w 2 [Request method url; Sleep (wait_time (1 # 2) 1); Request method url]).
Proof.
  intros Hfirst Hsecond Hstatus.
  rewrite (make_request_with_retry_run method url w 1).
  - rewrite Hsecond. unfold api_attempt, raise_for_status.
    unfold error_status in Hstatus. by rewrite Hstatus.
  - unfold MAX_API_RETRIES. lia.
  - intros j Hj. assert (j = 0) as -> by lia. by rewrite Nat.add_0_r.
  - by right.
Qed.

(** X6.  An error status is retried once, whatever it is, and then classified.
    When the first attempt fails transiently and the second is answered
    with status 401 or 403, the detail gateway reports an authentication
    failure; with 404, that the recipe was not found; with 429, that the
    rate limit was exceeded; the search gateway reports 401, 403 and 429
    alike and has no words of its own for 404.  In each case two requests
    have been made, half a second apart. *)
Theorem http_errors_classified (w : World.t) (r : Response.t) :
  has_key w "spoonacular" = true ->
  transient (api_attempt (World.http w (World.made w))) = true ->
  World.http w (World.made w + 1) = Responds r ->
  error_status r = true ->
  (forall recipe_id,
     exists detail,
       fetch_spoonacular_details recipe_id w
       = (Ok (ApiResult.mk VNone
                (Some ("Error communicating with Spoonacular: " +:+ detail))),
          after w 2 [Request "GET" (information_url recipe_id);
                     Sleep (wait_time (1 # 2) 1);
                     Request "GET" (information_url recipe_id)])
       /\ (Response.status_code r = 401%Z \/ Response.status_code r = 403%Z ->
           detail = "Authentication failed (Invalid API Key?)")
       /\ (Response.status_code r = 404%Z ->
           detail = "Recipe ID " +:+ Py.str_of_Z recipe_id +:+ " not found")
       /\ (Response.status_code r = 429%Z -> detail = "API rate limit exceeded"))
  /\ (forall ingredients foodType cuisine,
        exists detail,
          fetch_spoonacular_recipes ingredients foodType cuisine w
          = (Ok (ApiResult.mk VNone
                   (Some ("Error communicating with Spoonacular: " +:+ detail))),
             after w 2 [Request "GET" find_by_ingredients_url;
                        Sleep (wait_time (1 # 2) 1);
                        Request "GET" find_by_ingredients_url])
          /\ (Response.status_code r = 401%Z \/ Response.status_code r = 403%Z ->
              detail = "Authentication failed (Invalid API Key?)")
          /\ (Response.status_code r = 404%Z ->
              detail = "Status 404: " +:+ http_error_msg r)
          /\ (Response.status_code r = 429%Z -> detail = "API rate limit exceeded")).
Proof.
  intros Hkey%has_key_true Hfirst Hsecond Hstatus. split.
  - intros recipe_id.
    unfold fetch_spoonacular_details, bind at 1, get_api_key. rewrite Hkey.
    unfold try_except, bind.
    rewrite (make_request_with_retry_twice _ _ w r Hfirst Hsecond Hstatus).
    cbn [Exn.cls is_RequestException status_of Exn.response].
    eexists. split.
    + unfold ret. rewrite get_error_message_spoonacular; [reflexivity|].
      destruct (_ || _)%Z; [done|]. destruct (_ =? 404)%Z; [done|].
      by destruct (_ =? 429)%Z.
    + split_and!.
      * by intros [-> | ->].
      * by intros ->.
      * by intros ->.
  - intros ingredients foodType cuisine.
    unfold fetch_spoonacular_recipes, bind at 1, get_api_key. rewrite Hkey.
    unfold try_except, bind.
    rewrite (make_request_with_retry_twice _ _ w r Hfirst Hsecond Hstatus).
    cbn [Exn.cls is_RequestException status_of Exn.response].
    eexists. split.
    + unfold ret. rewrite get_error_message_spoonacular; [reflexivity|].
      destruct (_ || _)%Z; [done|]. by destruct (_ =? 429)%Z.
    + split_and!.
      * by intros [-> | ->].
      * by intros ->.
      * by intros ->.
Qed.

End RecipeGateways.

(** The recipe provider answers 404 twice. *)
Lemma http_errors_classified_witness :
  fst (fetch_spoonacular_details (H := strict_lib) 7
         (world_of recipe_keys [] (respond 404 VNone)))
  = Ok (ApiResult.mk VNone
          (Some "Error communicating with Spoonacular: Recipe ID 7 not found")).
Proof.
  destruct (@http_errors_classified strict_lib
              (world_of recipe_keys [] (respond 404 VNone))
              (Response.mk 404 "" (JsonOk VNone))
              eq_refl eq_refl eq_refl eq_refl) as [Hdetails _].
  destruct (Hdetails 7%Z) as (detail & Hrun & _ & Hnotfound & _).
  rewrite Hrun, (Hnotfound eq_refl). reflexivity.
Defined.

(** ** perception.py: when the analysis raises *)

Section ReasoningGateway.

Context `{Lib} `{PromptText}.

Lemma py_get_dict (v : value) (k : string) (default x : value) :
  py_get v k default = inr x -> is_dict v = true.
Proof. by destruct v. Qed.

Lemma gemini_response_dict (r : Response.t) (v : value) :
  gemini_response r = inr v -> is_dict v = true.
Proof.
  unfold gemini_response.
  destruct (Response.status_code r =? 200)%Z.
  - destruct (response_json r) as [e|response_data]; [done|]. simpl.
    destruct (py_get response_data "promptFeedback" (VDict [])) as [e|feedback] eqn:Hget;
      [done|]. apply py_get_dict in Hget. simpl.
    destruct (py_get feedback "blockReason" VNone) as [e|block]; [done|]. simpl.
    destruct (value_truthy block).
    + destruct (getitem_str response_data "promptFeedback") as [e|f]; [done|]. simpl.
      destruct (getitem_str f "blockReason") as [e|reason]; [done|]. simpl.
      by destruct (py_get feedback "safetyRatings" (VList [])).
    + destruct (py_get response_data "candidates" VNone) as [e|c]; [done|]. simpl.
      destruct (negb (value_truthy c)); [done|]. by intros [= <-].
  - destruct (response_json r) as [e|error_json]; simpl.
    { by destruct (is_JSONDecodeError (Exn.cls e)). }
    destruct (py_get error_json "error" (VDict [])) as [e|error]; simpl.
    { by destruct (is_JSONDecodeError (Exn.cls e)). }
    destruct (py_get error "message" (VStr (Response.text r))) as [e|m]; simpl; [|done].
    by destruct (is_JSONDecodeError (Exn.cls e)).
Qed.

(** The reasoning wrapper always returns a dictionary: the parsed reply or
    an error dictionary of its own. *)
Lemma call_gemini_api_with_retry_dict (prompt api_key : string) (w : World.t) :
  exists k v,
    k <= MAX_LLM_RETRIES
    /\ _call_gemini_api_with_retry prompt api_key w
       = (Ok v, after w (S k) (backoff_trace 1 "POST" (gemini_url api_key) 0 k))
    /\ is_dict v = true.
Proof.
  destruct (first_settled
              (fun j => gemini_attempt (World.http w (World.made w + j)))
              MAX_LLM_RETRIES) as (k & Hk & Hfail & Hlast).
  exists k. rewrite (call_gemini_api_with_retry_run prompt api_key w k Hk Hfail Hlast).
  destruct (gemini_attempt _) as [e|v] eqn:Ha; simpl.
  - destruct (is_RequestException _); eauto.
  - exists v. split_and!; [done..|]. unfold gemini_attempt in Ha.
    destruct (World.http w _) as [r|e]; [|done]. by apply gemini_response_dict in Ha.
Qed.

Lemma getitem_str_caught (v : value) (k : string) (e : Exn.t) :
  getitem_str v k = inl e -> caught_by_analysis e = true.
Proof.
  destruct v; simpl; try (by intros [= <-]).
  destruct (assoc k kv); [done|]. by intros [= <-].
Qed.

Lemma getitem_0_caught (v : value) (e : Exn.t) :
  getitem_0 v = inl e -> caught_by_analysis e = true.
Proof.
  destruct v as [| | | |s|l| |]; simpl; try (by intros [= <-]).
  - destruct s; [by intros [= <-]|done].
  - destruct l; [by intros [= <-]|done].
Qed.

Lemma candidate_text_caught (raw : value) (e : Exn.t) :
  candidate_text raw = inl e -> caught_by_analysis e = true.
Proof.
  unfold candidate_text.
  destruct (getitem_str raw "candidates") as [e1|v1] eqn:H1; simpl;
    [intros [= <-]; by eapply getitem_str_caught|].
  destruct (getitem_0 v1) as [e2|v2] eqn:H2; simpl;
    [intros [= <-]; by eapply getitem_0_caught|].
  destruct (getitem_str v2 "content") as [e3|v3] eqn:H3; simpl;
    [intros [= <-]; by eapply getitem_str_caught|].
  destruct (getitem_str v3 "parts") as [e4|v4] eqn:H4; simpl;
    [intros [= <-]; by eapply getitem_str_caught|].
  destruct (getitem_0 v4) as [e5|v5] eqn:H5; simpl;
    [intros [= <-]; by eapply getitem_0_caught|].
  apply getitem_str_caught.
Qed.

Lemma run_llm_analysis_cases (query : string) (stage : Z) (w : World.t) :
  (exists result w', run_llm_analysis query stage w = (Ok result, w'))
  \/ (exists raw err w',
        has_key w "gemini" = true
        /\ _call_gemini_api_with_retry (build_reasoning_prompt query stage)
             (key_of w "gemini") w = (Ok raw, w')
        /\ py_get raw "error" VNone = inr err
        /\ value_truthy err = true
        /\ is_dict err = false
        /\ run_llm_analysis query stage w
           = (Raise (exn AttributeError
                       ("'" +:+ type_name err +:+ "' object has no attribute 'get'")),
              w')).
Proof.
  remember (run_llm_analysis query stage w) as res eqn:Hres.
  unfold run_llm_analysis, bind at 1, get_api_key in Hres.
  unfold has_key, key_of.
  destruct (no_key (World.API_KEYS w !! "gemini")) eqn:Hkey;
    [left; subst res; eauto|].
  destruct (call_gemini_api_with_retry_dict (build_reasoning_prompt query stage)
              (from_option id "" (World.API_KEYS w !! "gemini")) w)
    as (k & raw & Hk & Hrun & Hdict).
  unfold bind at 1 in Hres. rewrite Hrun in Hres.
  destruct raw as [| | | | | |kv|]; try done.
  unfold bind at 1, lift at 1, py_get at 1, ret at 1 in Hres.
  destruct (value_truthy (from_option id VNone (assoc "error" kv))) eqn:Herr.
  - destruct (assoc "error" kv) as [err|] eqn:Hassoc; [|done]. simpl in Herr.
    unfold bind at 1, lift at 1, getitem_str in Hres. rewrite Hassoc in Hres.
    unfold ret at 1 in Hres.
    destruct (is_dict err) eqn:Hd.
    + left. destruct err; try done. subst res. eauto.
    + right. exists (VDict kv), err. eexists. split_and!.
      * done.
      * exact Hrun.
      * simpl. by rewrite Hassoc.
      * exact Herr.
      * exact Hd.
      * subst res. destruct err; first [discriminate Hd | reflexivity].
  - left. subst res. unfold try_except, bind, lift.
    destruct (candidate_text (VDict kv)) as [e|text] eqn:Htext; [|eauto].
    apply candidate_text_caught in Htext. unfold caught_by_analysis in Htext.
    unfold raise. destruct (Exn.cls e); try done; eauto.
Qed.

(** X7.  What the analysis does with the [error] entry of the dictionary
    that the reasoning wrapper returned, when that entry is truthy.  An
    entry that is a dictionary is reported: the result carries "LLM
    analysis failed: " with the [message] of the entry (or "Unknown API
    error"), default metadata and the prompt.  An entry that is not a
    dictionary makes the analysis raise: the [AttributeError] of calling
    [get] on it, which no handler of the analysis catches. *)
Theorem llm_analysis_error_entry (query : string) (stage : Z) (w w' : World.t)
    (raw err : value) :
  has_key w "gemini" = true ->
  _call_gemini_api_with_retry (build_reasoning_prompt query stage)
    (key_of w "gemini") w = (Ok raw, w') ->
  py_get raw "error" VNone = inr err ->
  value_truthy err = true ->
  (is_dict err = false ->
   run_llm_analysis query stage w
   = (Raise (exn AttributeError
               ("'" +:+ type_name err +:+ "' object has no attribute 'get'")), w'))
  /\ (forall fields,
        err = VDict fields ->
        run_llm_analysis query stage w
        = (Ok (LLMAnalysisResult.mk
                 (VStr ("[Fallback due to LLM API error: "
                        +:+ get_error_message "LLM_FAILURE"
                              (from_option id (VStr "Unknown API error")
                                 (assoc "message" fields))
                        +:+ "]"))
                 LLMMetadata.default
                 (Some (get_error_message "LLM_FAILURE"
                          (from_option id (VStr "Unknown API error")
                             (assoc "message" fields))))
                 0 (Some (build_reasoning_prompt query stage))), w')).
Proof.
  intros Hkey%has_key_true Hrun Hget Herr.
  assert (getitem_str raw "error" = inr err) as Hitem.
  { destruct raw; try done. simpl in Hget. simpl.
    destruct (assoc "error" kv) as [x|]; simpl in Hget; [congruence|].
    injection Hget as <-. done. }
  assert (run_llm_analysis query stage w
          = bind (lift (py_get err "message" (VStr "Unknown API error")))
              (fun message =>
                 ret (LLMAnalysisResult.mk
                        (VStr ("[Fallback due to LLM API error: "
                               +:+ get_error_message "LLM_FAILURE" message +:+ "]"))
                        LLMMetadata.default
                        (Some (get_error_message "LLM_FAILURE" message))
                        0 (Some (build_reasoning_prompt query stage)))) w')
    as Hbody.
  { unfold run_llm_analysis, bind at 1, get_api_key. rewrite Hkey.
    unfold key_of in Hrun. unfold bind at 1. rewrite Hrun.
    unfold bind at 1, lift at 1. rewrite Hget. unfold ret at 1. rewrite Herr.
    unfold bind at 1, lift at 1. rewrite Hitem. unfold ret at 1. reflexivity. }
  split.
  - intros Hd. rewrite Hbody. by destruct err.
  - intros fields ->. rewrite Hbody. reflexivity.
Qed.

End ReasoningGateway.

(** A reply with status 200 whose [error] entry is a string. *)
Lemma llm_analysis_error_entry_witness :
  run_llm_analysis (H := strict_lib) (H0 := plain_prompts) "q" 1
    (world_of all_keys []
       (respond 200 (VDict [("error", VStr "quota"); ("candidates", VList [VInt 1])])))
  = (Raise (exn AttributeError "'str' object has no attribute 'get'"),
     World.mk all_keys
       (fun n => nth n []
          (respond 200 (VDict [("error", VStr "quota"); ("candidates", VList [VInt 1])])))
       1 [Request "POST" (gemini_url "k2")]).
Proof.
  destruct (@llm_analysis_error_entry strict_lib plain_prompts "q" 1
              (world_of all_keys []
                 (respond 200
                    (VDict [("error", VStr "quota"); ("candidates", VList [VInt 1])])))
              (World.mk all_keys
                 (fun n => nth n []
                    (respond 200
                       (VDict [("error", VStr "quota"); ("candidates", VList [VInt 1])])))
                 1 [Request "POST" (gemini_url "k2")])
              (VDict [("error", VStr "quota"); ("candidates", VList [VInt 1])])
              (VStr "quota") eq_refl eq_refl eq_refl eq_refl)
    as [Hraises _].
  exact (Hraises eq_refl).
Defined.

(** ** perception.py: a blocked prompt *)

Section Blocked.

Context `{Lib} `{PromptText}.

Lemma get_error_message_llm_failure (detail : string) :
  Py.truthy detail = true ->
  get_error_message "LLM_FAILURE" (VStr detail) = "LLM analysis failed: " +:+ detail.
Proof.
  intros Hd. unfold get_error_message. simpl. rewrite Hd.
  cbn [Py.join]. by rewrite append_empty_r.
Qed.

(** X8.  A reply with status 200 that carries a block reason is not retried: the
    wrapper returns its error dictionary after that one request, without
    sleeping, and the analysis reports the failure in its [error] field,
    keeps the prompt, and extracts no metadata. *)
Theorem blocked_reply_not_retried (query : string) (stage : Z) (w : World.t)
    (r : Response.t) (kv feedback : list (string * value)) (reason : value) :
  has_key w "gemini" = true ->
  World.http w (World.made w) = Responds r ->
  Response.status_code r = 200%Z ->
  response_json r = inr (VDict kv) ->
  assoc "promptFeedback" kv = Some (VDict feedback) ->
  assoc "blockReason" feedback = Some reason ->
  value_truthy reason = true ->
  _call_gemini_api_with_retry (build_reasoning_prompt query stage)
    (key_of w "gemini") w
  = (Ok (error_dict
           ("LLM call failed: "
            +:+ blocked_text reason
                  (from_option id (VList []) (assoc "safetyRatings" feedback)))),
     after w 1 [Request "POST" (gemini_url (key_of w "gemini"))])
  /\ run_llm_analysis query stage w
     = (Ok (LLMAnalysisResult.mk
              (VStr ("[Fallback due to LLM API error: "
                     +:+ ("LLM analysis failed: LLM call failed: "
                          +:+ blocked_text reason
                                (from_option id (VList [])
                                   (assoc "safetyRatings" feedback)))
                     +:+ "]"))
              LLMMetadata.default
              (Some ("LLM analysis failed: LLM call failed: "
                     +:+ blocked_text reason
                           (from_option id (VList [])
                              (assoc "safetyRatings" feedback))))
              0 (Some (build_reasoning_prompt query stage))),
        after w 1 [Request "POST" (gemini_url (key_of w "gemini"))]).
Proof.
  intros Hkey%has_key_true Hhttp Hstatus Hjson Hfeedback Hreason Htruthy.
  assert (Hattempt :
    gemini_attempt (World.http w (World.made w + 0))
    = inl (exn Exception
             (blocked_text reason
                (from_option id (VList []) (assoc "safetyRatings" feedback))))).
  { rewrite Nat.add_0_r, Hhttp. unfold gemini_attempt, gemini_response.
    rewrite Hstatus, Hjson. simpl. rewrite Hfeedback. simpl. rewrite Hreason. simpl.
    rewrite Htruthy. simpl. rewrite ?Hfeedback. simpl. rewrite ?Hreason. simpl.
    rewrite ?Hfeedback. reflexivity. }
  assert (Hrun :
    _call_gemini_api_with_retry (build_reasoning_prompt query stage)
      (key_of w "gemini") w
    = (Ok (error_dict
             ("LLM call failed: "
              +:+ blocked_text reason
                    (from_option id (VList []) (assoc "safetyRatings" feedback)))),
       after w 1 [Request "POST" (gemini_url (key_of w "gemini"))])).
  { rewrite (call_gemini_api_with_retry_run _ _ w 0).
    - by rewrite Hattempt.
    - lia.
    - intros j Hj. lia.
    - left. by rewrite Hattempt. }
  split; [exact Hrun|].
  unfold run_llm_analysis, bind at 1, get_api_key. rewrite Hkey.
  unfold key_of in Hrun. unfold bind at 1. rewrite Hrun.
  unfold error_dict, bind, lift, ret. cbn [py_get getitem_str assoc String.eqb
    Ascii.eqb Bool.eqb from_option id value_truthy].
  rewrite get_error_message_llm_failure; [reflexivity|done].
Qed.

End Blocked.

Lemma blocked_reply_not_retried_witness :
  World.made
    (snd (run_llm_analysis (H := strict_lib) (H0 := plain_prompts) "q" 1
            (world_of all_keys [] (respond 200 (blocked_reply (VStr "SAFETY"))))))
  = 1.
Proof.
  destruct (@blocked_reply_not_retried strict_lib plain_prompts "q" 1
              (world_of all_keys [] (respond 200 (blocked_reply (VStr "SAFETY"))))
              (Response.mk 200 "" (JsonOk (blocked_reply (VStr "SAFETY"))))
              [("promptFeedback", VDict [("blockReason", VStr "SAFETY")])]
              [("blockReason", VStr "SAFETY")] (VStr "SAFETY")
              eq_refl eq_refl eq_refl eq_refl eq_refl eq_refl eq_refl)
    as [_ Hrun].
  rewrite Hrun. reflexivity.
Defined.

(** ** perception.py: the tag patterns *)

Section Tags.

Lemma length_append (a b : string) :
  String.length (a +:+ b) = String.length a + String.length b.
Proof.
  induction a as [|c a IH]; [done|].
  change (S (String.length (a +:+ b)) = S (String.length a + String.length b)).
  by rewrite IH.
Qed.

Lemma length_lstrip (s : string) : String.length (Py.lstrip s) <= String.length s.
Proof.
  induction s as [|c s IH]; simpl; [done|].
  destruct (Py.isspace c); simpl; lia.
Qed.

Lemma lstrip_fixed (c : ascii) (s : string) :
  Py.lstrip (String c s) = String c s -> Py.isspace c = false.
Proof.
  simpl. destruct (Py.isspace c); [|done]. intros Heq.
  pose proof (length_lstrip s) as Hlen. rewrite Heq in Hlen. simpl in Hlen. lia.
Qed.

Lemma lazy_to_bracket_group (s g : string) (n : nat) :
  Re.lazy_to_bracket s = Some (g, n) ->
  occurs "]" g = false /\ occurs Re.newline g = false
  /\ String.prefix g s = true /\ n = S (String.length g).
Proof.
  revert g n. induction s as [|c s IH]; intros g n; simpl; [done|].
  destruct (Ascii.eqb c "]") eqn:Hb; [by intros [= <- <-]|].
  destruct (Ascii.eqb c Re.newline) eqn:Hn; [done|].
  destruct (Re.lazy_to_bracket s) as [[g' n']|]; [|done].
  intros [= <- <-]. destruct (IH g' n' eq_refl) as (Hb' & Hn' & Hp & ->).
  cbn [occurs String.prefix String.length].
  rewrite (Ascii.eqb_sym "]" c), (Ascii.eqb_sym Re.newline c), Hb, Hn, Hb', Hn'.
  split_and!; [done..| |done].
  destruct (ascii_dec c c); [done|congruence].
Qed.

Lemma prefix_lstrip_fixed (g s : string) :
  String.prefix g (Py.lstrip s) = true -> Py.lstrip g = g.
Proof.
  destruct g as [|c g]; [done|].
  destruct (Py.lstrip s) as [|c' s'] eqn:Hs; [done|]. simpl.
  destruct (ascii_dec c c') as [->|]; [|done]. intros _.
  assert (Py.isspace c' = false) as ->; [|done].
  clear -Hs. induction s as [|a s IH]; simpl in Hs; [done|].
  destruct (Py.isspace a) eqn:Ha; [by apply IH|]. by injection Hs as <- _.
Qed.

Lemma match_tag_at_group (opening s g : string) (n : nat) :
  Re.match_tag_at opening s = Some (g, n) ->
  occurs "]" g = false /\ occurs Re.newline g = false /\ Py.lstrip g = g.
Proof.
  unfold Re.match_tag_at.
  destruct (Re.prefix_ci opening s) as [rest|]; [|done].
  destruct (Re.lazy_to_bracket (Py.lstrip rest)) as [[g' n']|] eqn:Hl; [|done].
  intros [= <- _]. apply lazy_to_bracket_group in Hl as (? & ? & Hp & _).
  split_and!; [done..|]. by eapply prefix_lstrip_fixed.
Qed.

Lemma findall_from_Forall (match_at : string -> option (string * nat))
    (P : string -> Prop) :
  (forall s g n, match_at s = Some (g, n) -> P g) ->
  forall skip s, Forall P (Re.findall_from match_at skip s).
Proof.
  intros Hmatch skip s. revert skip.
  induction s as [|c s IH]; intros skip; simpl; [constructor|].
  destruct skip as [|k]; [|apply IH].
  destruct (match_at (String c s)) as [[g n]|] eqn:Hm; [|apply IH].
  constructor; [by eapply Hmatch|apply IH].
Qed.

(** X9.  The content of an extracted tag holds no closing bracket and no
    newline and does not begin with whitespace, whichever tag it is; so
    the [strip] that follows can only remove trailing whitespace. *)
Theorem extracted_tags_wellformed (opening text : string) :
  Forall (fun m => occurs "]" m = false /\ occurs Re.newline m = false
                   /\ Py.lstrip m = m)
         (Re.findall (Re.match_tag_at opening) text).
Proof.
  apply findall_from_Forall. intros s g n. apply match_tag_at_group.
Qed.

Lemma prefix_ci_lower (pat pat' s : string) :
  Py.lower pat' = Py.lower pat -> Re.prefix_ci pat (pat' +:+ s) = Some s.
Proof.
  revert pat'. induction pat as [|p pat IH]; intros [|p' pat']; simpl; try done.
  intros [= Hp Hpat]. change (String p' pat' +:+ s) with (String p' (pat' +:+ s)).
  rewrite Hp, Ascii.eqb_refl. by apply IH.
Qed.

Lemma lower_char_bracket (c : ascii) :
  Py.lower_char c = "["%char -> c = "["%char.
Proof.
  destruct c as [[] [] [] [] [] [] [] []]; vm_compute; congruence.
Qed.

Lemma findall_from_no_bracket (name pre s : string) :
  occurs "[" pre = false ->
  Re.findall_from (Re.match_tag_at (String "[" name)) 0 (pre +:+ s)
  = Re.findall_from (Re.match_tag_at (String "[" name)) 0 s.
Proof.
  induction pre as [|c pre IH]; [done|].
  cbn [occurs]. intros [Hc Hpre]%orb_false_elim.
  change (String c pre +:+ s) with (String c (pre +:+ s)).
  cbn [Re.findall_from]. unfold Re.match_tag_at at 1. cbn [Re.prefix_ci].
  destruct (Ascii.eqb (Py.lower_char "[") (Py.lower_char c)) eqn:Hl; [|by apply IH].
  apply Ascii.eqb_eq in Hl. symmetry in Hl.
  apply lower_char_bracket in Hl as ->. by rewrite Ascii.eqb_refl in Hc.
Qed.

Lemma findall_from_skip (match_at : string -> option (string * nat)) (a b : string) :
  Re.findall_from match_at (String.length a) (a +:+ b)
  = Re.findall_from match_at 0 b.
Proof.
  induction a as [|c a IH]; [done|].
  change (String c a +:+ b) with (String c (a +:+ b)). exact IH.
Qed.

Lemma lazy_to_bracket_closed (X post : string) :
  occurs "]" X = false -> occurs Re.newline X = false ->
  Re.lazy_to_bracket (X +:+ String "]" post) = Some (X, S (String.length X)).
Proof.
  induction X as [|c X IH]; [done|].
  cbn [occurs]. intros [Hb HX]%orb_false_elim [Hn HX']%orb_false_elim.
  change (String c X +:+ String "]" post) with (String c (X +:+ String "]" post)).
  cbn [Re.lazy_to_bracket].
  rewrite (Ascii.eqb_sym c "]"), (Ascii.eqb_sym c Re.newline), Hb, Hn.
  by rewrite IH.
Qed.

Lemma lstrip_blank_prefix (ws s : string) :
  blank ws = true -> Py.lstrip (ws +:+ s) = Py.lstrip s.
Proof.
  induction ws as [|c ws IH]; [done|]. cbn [blank].
  intros [Hc Hws]%andb_true_iff.
  change (String c ws +:+ s) with (String c (ws +:+ s)).
  cbn [Py.lstrip]. rewrite Hc. by apply IH.
Qed.

Lemma lstrip_closed (X post : string) :
  Py.lstrip X = X -> Py.lstrip (X +:+ String "]" post) = X +:+ String "]" post.
Proof.
  destruct X as [|c X]; [done|]. intros Hc%lstrip_fixed.
  change (String c X +:+ String "]" post) with (String c (X +:+ String "]" post)).
  cbn [Py.lstrip]. by rewrite Hc.
Qed.

(** X10.  A tag written in a reply is read back: after a stretch of text without
    an opening bracket, the tag - in any letter case, with any whitespace
    after the colon - yields its content, and the scan goes on behind the
    closing bracket.  The content has no closing bracket, no newline and no
    leading whitespace. *)
Theorem tag_round_trip (name name' pre ws X post : string) :
  Py.lower name' = Py.lower name ->
  occurs "[" pre = false ->
  blank ws = true ->
  occurs "]" X = false -> occurs Re.newline X = false -> Py.lstrip X = X ->
  Re.findall (Re.match_tag_at (String "[" name))
    (pre +:+ String "[" name' +:+ ws +:+ X +:+ String "]" post)
  = X :: Re.findall (Re.match_tag_at (String "[" name)) post.
Proof.
  intros Hname Hpre Hws Hb Hn HX. unfold Re.findall.
  rewrite findall_from_no_bracket by done.
  change (String "[" name' +:+ ws +:+ X +:+ String "]" post)
    with (String "[" (name' +:+ ws +:+ X +:+ String "]" post)).
  cbn [Re.findall_from]. unfold Re.match_tag_at at 1.
  assert (Re.prefix_ci (String "[" name)
            (String "[" (name' +:+ ws +:+ X +:+ String "]" post))
          = Some (ws +:+ X +:+ String "]" post)) as ->.
  { apply (prefix_ci_lower (String "[" name) (String "[" name')). simpl.
    by rewrite Hname. }
  cbv zeta. rewrite lstrip_blank_prefix, lstrip_closed by done.
  rewrite lazy_to_bracket_closed by done. f_equal.
  assert (String.length (String "[" name)
          + (String.length (ws +:+ X +:+ String "]" post)
             - String.length (X +:+ String "]" post))
          + S (String.length X) - 1
          = String.length (name' +:+ ws +:+ X +:+ "]")) as ->.
  { assert (String.length name' = String.length name) as Hlen.
    { clear -Hname. revert name' Hname.
      induction name as [|c name IH]; intros [|c' name']; simpl; try done.
      intros [= _ Hname]. f_equal. by apply IH. }
    rewrite !length_append. cbn [String.length]. rewrite ?length_append.
    cbn [String.length]. lia. }
  assert (name' +:+ ws +:+ X +:+ String "]" post
          = (name' +:+ ws +:+ X +:+ "]") +:+ post) as ->.
  { clear. induction name' as [|c n IH].
    - change ("" +:+ ws +:+ X +:+ String "]" post) with (ws +:+ X +:+ String "]" post).
      change ("" +:+ ws +:+ X +:+ "]") with (ws +:+ X +:+ "]").
      induction ws as [|c ws IH].
      + change ("" +:+ X +:+ String "]" post) with (X +:+ String "]" post).
        change ("" +:+ X +:+ "]") with (X +:+ "]").
        induction X as [|c X IH]; [done|].
        change (String c (X +:+ String "]" post) = String c ((X +:+ "]") +:+ post)).
        by rewrite IH.
      + change (String c (ws +:+ X +:+ String "]" post)
                = String c ((ws +:+ X +:+ "]") +:+ post)).
        by rewrite IH.
    - change (String c (n +:+ ws +:+ X +:+ String "]" post)
              = String c ((n +:+ ws +:+ X +:+ "]") +:+ post)).
      by rewrite IH. }
  apply findall_from_skip.
Qed.

Lemma tag_round_trip_witness :
  error_tags "Checked. [error:  Invalid ingredients: rocks] [ERROR: x]"
  = ["Invalid ingredients: rocks"; "x"].
Proof.
  exact (tag_round_trip "ERROR:" "error:" "Checked. " "  "
           "Invalid ingredients: rocks" " [ERROR: x]"
           eq_refl eq_refl eq_refl eq_refl eq_refl eq_refl).
Defined.

Lemma span_group (p : ascii -> bool) (s g rest : string) :
  Re.span p s = (g, rest) -> forall c, occurs c g = true -> p c = true.
Proof.
  revert g rest. induction s as [|a s IH]; intros g rest; simpl.
  - by intros [= <- _].
  - destruct (p a) eqn:Ha; [|by intros [= <- _]].
    destruct (Re.span p s) as [g' rest'] eqn:Hs. intros [= <- _] c. cbn [occurs].
    intros [Hc%Ascii.eqb_eq|Hc]%orb_true_iff; [by subst|by eapply IH].
Qed.

End Tags.

(** ** decision_making.py: the recipe search *)

Section FindRecipes.

Context `{Lib} `{PromptText}.

Lemma prefix_append (sub a b : string) :
  String.prefix sub a = true -> String.prefix sub (a +:+ b) = true.
Proof.
  revert a. induction sub as [|c sub IH]; intros a; [by destruct (a +:+ b)|].
  destruct a as [|c' a]; [done|].
  change (String c' a +:+ b) with (String c' (a +:+ b)). cbn [String.prefix].
  destruct (ascii_dec c c'); [apply IH|done].
Qed.

Lemma contains_append_l (sub a b : string) :
  Py.contains sub a = true -> Py.contains sub (a +:+ b) = true.
Proof.
  induction a as [|c a IH].
  - destruct sub; [|done]. intros _. by destruct b.
  - change (String c a +:+ b) with (String c (a +:+ b)). cbn [Py.contains].
    intros [Hp|Hc]%orb_true_iff; apply orb_true_iff.
    + left. by apply (prefix_append sub (String c a) b).
    + right. by apply IH.
Qed.

Lemma contains_append_r (sub a b : string) :
  Py.contains sub b = true -> Py.contains sub (a +:+ b) = true.
Proof.
  intros Hb. induction a as [|c a IH]; [done|].
  change (String c a +:+ b) with (String c (a +:+ b)). cbn [Py.contains].
  rewrite IH. apply orb_true_r.
Qed.

Lemma contains_join (sub sep x : string) (l : list string) :
  x ∈ l -> Py.contains sub x = true -> Py.contains sub (Py.join sep l) = true.
Proof.
  intros Hin Hx. induction l as [|y l IH]; [by apply elem_of_nil in Hin|].
  apply elem_of_cons in Hin as [<-|Hin].
  - destruct l; [done|]. cbn [Py.join]. by apply contains_append_l.
  - destruct l as [|z l]; [by apply elem_of_nil in Hin|].
    cbn [Py.join]. apply contains_append_r, contains_append_r. by apply IH.
Qed.




End FindRecipes.


(** ** decision_making.py: the missing ingredients *)

Section MissingIngredients.

Context `{Lib} `{PromptText}.

Lemma build_ingredients_Forall2 (items : list value)
    (ings : list SpoonacularIngredient.t) :
  Forall2 (fun v i => SpoonacularIngredient_new v = inr i) items ings ->
  build_ingredients items = inr (VIngredient <$> ings).
Proof.
  induction 1 as [|v i items ings Hv _ IH]; [done|].
  cbn [build_ingredients]. by rewrite Hv, IH.
Qed.

Lemma all_required_ingredients (ings : list SpoonacularIngredient.t) :
  all_required (VIngredient <$> ings) = inr (Some <$> ings).
Proof.
  induction ings as [|i ings IH]; [done|].
  change (all_required (VIngredient i :: (VIngredient <$> ings))
          = inr (Some i :: (Some <$> ings))).
  cbn [all_required as_required]. by rewrite IH.
Qed.

Lemma omap_id_Some {A} (l : list A) : omap id (Some <$> l) = l.
Proof. induction l as [|x l IH]; [done|]. cbn. by f_equal. Qed.

(** The detail gateway on a recipe that lists its ingredients. *)
Lemma fetch_spoonacular_details_listed (recipe_id : Z) (w w' : World.t)
    (r : Response.t) (kv : list (string * value)) (extended : value) :
  has_key w "spoonacular" = true ->
  _make_request_with_retry "GET" (information_url recipe_id) w = (Ok r, w') ->
  response_json r = inr (VDict kv) ->
  assoc "extendedIngredients" kv = Some extended ->
  fetch_spoonacular_details recipe_id w
  = (Ok (ApiResult.mk (parse_extended (VDict kv)) None), w').
Proof.
  intros Hkey%negb_true_iff Hrun Hjson Hext.
  unfold fetch_spoonacular_details, bind at 1, get_api_key. rewrite Hkey.
  unfold try_except, bind. rewrite Hrun. unfold lift. rewrite Hjson.
  unfold ret at 1. unfold py_in. rewrite Hext. reflexivity.
Qed.

(** X13.  When the provider's recipe lists at least one ingredient and every
    listed item validates, the pipeline answers exactly: the validated
    ingredients whose normalized name is not empty and which nothing owned
    satisfies, in the recipe's order, each copied field by field, with
    [isEstimate = false] and no error. *)
Theorem missing_ingredients_exact (request : GetMissingIngredientsRequest.t)
    (w w1 w2 : World.t) (llm_result : LLMAnalysisResult.t)
    (r : Response.t) (kv : list (string * value))
    (item : value) (items : list value) (ings : list SpoonacularIngredient.t) :
  run_llm_analysis (missing_ingredients_query request) 2 w = (Ok llm_result, w1) ->
  has_key w1 "spoonacular" = true ->
  _make_request_with_retry "GET"
    (information_url (GetMissingIngredientsRequest.recipeId request)) w1 = (Ok r, w2) ->
  response_json r = inr (VDict kv) ->
  assoc "extendedIngredients" kv = Some (VList (item :: items)) ->
  Forall2 (fun v i => SpoonacularIngredient_new v = inr i) (item :: items) ings ->
  process_get_missing_ingredients request w
  = (Ok (GetMissingIngredientsResponse.mk
           (Some (detail_of_ingredient
                    <$> List.filter
                          (is_missing
                             (Some <$> GetMissingIngredientsRequest.userIngredients request))
                          ings))
           false None (LLMAnalysisResult.prompt llm_result) None), w2).
Proof.
  intros Hllm Hkey Hrun Hjson Hext Hitems.
  unfold process_get_missing_ingredients, bind. rewrite Hllm.
  rewrite (fetch_spoonacular_details_listed _ w1 w2 r kv _ Hkey Hrun Hjson Hext).
  unfold parse_extended, py_get. rewrite Hext. cbn [from_option id py_iter].
  rewrite (build_ingredients_Forall2 _ _ Hitems).
  unfold missing_ingredients_response, extract_required, py_in, getitem_str.
  cbn [ApiResult.error ApiResult.data opt_truthy]. rewrite assoc_dict_set.
  destruct ings as [|i ings]; [by apply Forall2_cons_nil_inv in Hitems|].
  assert (bool_decide (is_Some (Some (VList (VIngredient <$> i :: ings)))) = true)
    as -> by (apply bool_decide_eq_true; eauto).
  change (VIngredient <$> i :: ings) with (VIngredient i :: (VIngredient <$> ings)).
  cbn [rbind getitem_0 py_iter].
  change (VIngredient i :: (VIngredient <$> ings)) with (VIngredient <$> i :: ings).
  rewrite all_required_ingredients. cbn [rbind lift].
  by rewrite find_missing_filter, omap_id_Some.
Qed.

(** X14.  When an item of the recipe's ingredient list fails validation, the
    detail gateway swallows the failure and hands on the raw recipe with no
    error; the pipeline validates the same list again, fails the same way,
    and answers with the fallback estimates and the validation message. *)
Theorem missing_ingredients_invalid_item (request : GetMissingIngredientsRequest.t)
    (w w1 w2 : World.t) (llm_result : LLMAnalysisResult.t)
    (r : Response.t) (kv : list (string * value))
    (items : list value) (e : Exn.t) :
  run_llm_analysis (missing_ingredients_query request) 2 w = (Ok llm_result, w1) ->
  has_key w1 "spoonacular" = true ->
  _make_request_with_retry "GET"
    (information_url (GetMissingIngredientsRequest.recipeId request)) w1 = (Ok r, w2) ->
  response_json r = inr (VDict kv) ->
  assoc "extendedIngredients" kv = Some (VList items) ->
  (forall i, head items <> Some (VIngredient i)) ->
  build_ingredients items = inl e ->
  fetch_spoonacular_details (GetMissingIngredientsRequest.recipeId request) w1
  = (Ok (ApiResult.mk (VDict kv) None), w2)
  /\ process_get_missing_ingredients request w
     = (Ok (fallback_response request llm_result
              ("Error processing recipe ingredients: " +:+ Exn.msg e)), w2).
Proof.
  intros Hllm Hkey Hrun Hjson Hext Hhead Hbuild.
  assert (fetch_spoonacular_details (GetMissingIngredientsRequest.recipeId request) w1
          = (Ok (ApiResult.mk (VDict kv) None), w2)) as Hfetch.
  { rewrite (fetch_spoonacular_details_listed _ w1 w2 r kv _ Hkey Hrun Hjson Hext).
    unfold parse_extended, py_get. rewrite Hext. cbn [from_option id py_iter].
    by rewrite Hbuild. }
  split; [done|].
  unfold process_get_missing_ingredients, bind. rewrite Hllm, Hfetch.
  unfold missing_ingredients_response, extract_required, py_in, getitem_str.
  cbn [ApiResult.error ApiResult.data opt_truthy]. rewrite Hext.
  assert (bool_decide (is_Some (Some (VList items))) = true)
    as -> by (apply bool_decide_eq_true; eauto).
  destruct items as [|first rest]; [done|].
  cbn [rbind getitem_0 py_iter].
  destruct first; try (by rewrite Hbuild).
  by destruct (Hhead i).
Qed.

(** X15.  Whatever the two services do, a response of the pipeline has a list of
    ingredients whose estimate flags all equal the flag of the response.
    An estimated response carries the fallback estimates of the title and a
    non-empty error; an exact one carries no error and lists no ingredient
    that something owned satisfies. *)
Theorem missing_ingredients_response_invariant
    (request : GetMissingIngredientsRequest.t) (w w' : World.t)
    (response : GetMissingIngredientsResponse.t) :
  process_get_missing_ingredients request w = (Ok response, w') ->
  exists missing,
    GetMissingIngredientsResponse.missingIngredients response = Some missing
    /\ Forall (fun d => IngredientDetail.is_estimate d
                        = Some (GetMissingIngredientsResponse.isEstimate response))
              missing
    /\ (GetMissingIngredientsResponse.isEstimate response = true ->
        missing = generate_fallback_ingredients
                    (GetMissingIngredientsRequest.recipeTitle request)
        /\ opt_truthy (GetMissingIngredientsResponse.error response) = true)
    /\ (GetMissingIngredientsResponse.isEstimate response = false ->
        GetMissingIngredientsResponse.error response = None
        /\ Forall (fun d =>
                     satisfied
                       (Some <$> GetMissingIngredientsRequest.userIngredients request)
                       (normalize_ingredient (IngredientDetail.name d)) = false)
                  missing).
Proof.
  unfold process_get_missing_ingredients, bind.
  destruct (run_llm_analysis _ 2 w) as [[llm_result| |] w1]; [|done..].
  destruct (fetch_spoonacular_details _ w1) as [[api_result| |] w2]; [|done..].
  assert (Forall (fun d => IngredientDetail.is_estimate d = Some true)
            (generate_fallback_ingredients
               (GetMissingIngredientsRequest.recipeTitle request))) as Hflags.
  { rewrite generate_fallback_ingredients_chosen.
    apply Forall_app. split; [by repeat constructor|].
    destruct (chosen _) as [[]|]; by repeat constructor. }
  unfold missing_ingredients_response.
  destruct (opt_truthy (ApiResult.error api_result)) eqn:Herr.
  { intros [= <- <-]. eexists. split; [reflexivity|].
    split_and!; [done| |done]. intros _. split; [done|].
    apply truthy_append_l. reflexivity. }
  destruct (extract_required (ApiResult.data api_result)) as [e|required].
  { intros [= <- <-]. eexists. split; [reflexivity|].
    split_and!; [done| |done]. intros _. split; [done|].
    apply truthy_append_l. reflexivity. }
  destruct (all_required required) as [e|required']; [done|].
  intros [= <- <-]. eexists. split; [reflexivity|].
  cbn [GetMissingIngredientsResponse.isEstimate GetMissingIngredientsResponse.error].
  split_and!; [| done |].
  - apply Forall_fmap, Forall_true. done.
  - intros _. split; [done|]. apply Forall_fmap.
    rewrite find_missing_filter. apply Forall_forall.
    intros i [_ Hi]%list_elem_of_In%filter_In.
    unfold is_missing in Hi. apply andb_true_iff in Hi as [_ Hi].
    by apply negb_true_iff in Hi.
Qed.

End MissingIngredients.

(** The user owns salt; the soup also needs a chicken. *)
Lemma missing_ingredients_exact_witness :
  process_get_missing_ingredients (H := strict_lib) (H0 := plain_prompts)
    missing_request
    (soup_world [recipe_item 1 "Salt" "tsp"; recipe_item 2 "Chicken" "lb"])
  = (Ok (GetMissingIngredientsResponse.mk
           (Some [IngredientDetail.mk (Some 2%Z) "Chicken" (Some 1%Q) (Some "lb")
                    (Some false)])
           false None None None),
     soup_world_asked [recipe_item 1 "Salt" "tsp"; recipe_item 2 "Chicken" "lb"]).
Proof.
  rewrite (@missing_ingredients_exact strict_lib plain_prompts missing_request
             (soup_world [recipe_item 1 "Salt" "tsp"; recipe_item 2 "Chicken" "lb"])
             (soup_world [recipe_item 1 "Salt" "tsp"; recipe_item 2 "Chicken" "lb"])
             (soup_world_asked [recipe_item 1 "Salt" "tsp"; recipe_item 2 "Chicken" "lb"])
             skipped_analysis
             (Response.mk 200 ""
                (JsonOk (VDict (soup_recipe [recipe_item 1 "Salt" "tsp";
                                             recipe_item 2 "Chicken" "lb"]))))
             (soup_recipe [recipe_item 1 "Salt" "tsp"; recipe_item 2 "Chicken" "lb"])
             (recipe_item 1 "Salt" "tsp") [recipe_item 2 "Chicken" "lb"]
             [SpoonacularIngredient.mk 1 1 "tsp" "Salt" "Salt";
              SpoonacularIngredient.mk 2 1 "lb" "Chicken" "Chicken"]
             eq_refl eq_refl eq_refl eq_refl eq_refl
             ltac:(repeat constructor)).
  reflexivity.
Defined.

(** The second item of the list has no amount. *)
Lemma missing_ingredients_invalid_item_witness :
  process_get_missing_ingredients (H := strict_lib) (H0 := plain_prompts)
    missing_request
    (soup_world [recipe_item 1 "Salt" "tsp"; VDict [("name", VStr "Chicken")]])
  = (Ok (fallback_response missing_request skipped_analysis
           "Error processing recipe ingredients: validation error for SpoonacularIngredient"),
     soup_world_asked [recipe_item 1 "Salt" "tsp"; VDict [("name", VStr "Chicken")]]).
Proof.
  destruct (@missing_ingredients_invalid_item strict_lib plain_prompts missing_request
              (soup_world [recipe_item 1 "Salt" "tsp"; VDict [("name", VStr "Chicken")]])
              (soup_world [recipe_item 1 "Salt" "tsp"; VDict [("name", VStr "Chicken")]])
              (soup_world_asked [recipe_item 1 "Salt" "tsp"; VDict [("name", VStr "Chicken")]])
              skipped_analysis
              (Response.mk 200 ""
                 (JsonOk (VDict (soup_recipe [recipe_item 1 "Salt" "tsp";
                                              VDict [("name", VStr "Chicken")]]))))
              (soup_recipe [recipe_item 1 "Salt" "tsp"; VDict [("name", VStr "Chicken")]])
              [recipe_item 1 "Salt" "tsp"; VDict [("name", VStr "Chicken")]]
              (exn ValidationError "validation error for SpoonacularIngredient"))
    as [_ Hrun];
    [reflexivity | reflexivity | reflexivity | reflexivity | reflexivity
    | intros i; discriminate | reflexivity | ].
  exact Hrun.
Defined.

Lemma missing_ingredients_response_invariant_witness :
  process_get_missing_ingredients (H := strict_lib) (H0 := plain_prompts)
    missing_request
    (soup_world [recipe_item 1 "Salt" "tsp"; recipe_item 2 "Chicken" "lb"])
  = (Ok chicken_missing,
     soup_world_asked [recipe_item 1 "Salt" "tsp"; recipe_item 2 "Chicken" "lb"])
  /\ exists missing,
       GetMissingIngredientsResponse.missingIngredients chicken_missing = Some missing
       /\ Forall (fun d => IngredientDetail.is_estimate d = Some false) missing.
Proof.
  split; [reflexivity|].
  destruct (@missing_ingredients_response_invariant strict_lib plain_prompts
              missing_request
              (soup_world [recipe_item 1 "Salt" "tsp"; recipe_item 2 "Chicken" "lb"])
              (soup_world_asked [recipe_item 1 "Salt" "tsp"; recipe_item 2 "Chicken" "lb"])
              chicken_missing eq_refl)
    as (missing & Hmissing & Hflags & _).
  exists missing. split; [exact Hmissing|exact Hflags].
Defined.

(** ** decision_making.py: the shape of a search response *)

Section SearchResponse.

Context `{Lib} `{PromptText}.

(** X16.  Whatever the two services do, a response of the recipe search
    carries the metadata and the prompt of the analysis that the pipeline
    ran on the query of the request, and its error is unset exactly when
    it lists at least one recipe: an absent list comes with a non-empty
    error, and an empty list with the "no recipes found" message. *)
Theorem find_recipes_response_invariant (request : FindRecipesRequest.t)
    (w w' : World.t) (response : FindRecipesResponse.t) :
  process_find_recipes request w = (Ok response, w') ->
  (FindRecipesResponse.error response = None
   <-> exists recipe rest,
         FindRecipesResponse.recipes response = Some (recipe :: rest))
  /\ (FindRecipesResponse.recipes response = None ->
      opt_truthy (FindRecipesResponse.error response) = true)
  /\ (FindRecipesResponse.recipes response = Some [] ->
      FindRecipesResponse.error response = Some no_recipes_message)
  /\ (exists llm_result w1,
        run_llm_analysis (find_recipes_query request) 1 w = (Ok llm_result, w1)
        /\ FindRecipesResponse.metadata response
           = Some (LLMAnalysisResult.metadata llm_result)
        /\ FindRecipesResponse.llm_prompt response
           = LLMAnalysisResult.prompt llm_result).
Proof.
  unfold process_find_recipes, bind at 1.
  destruct (run_llm_analysis (find_recipes_query request) 1 w)
    as [[llm_result| |] w1]; [|done..].
  destruct (invalid_ingredients_flagged llm_result).
  { intros [= <- <-]. cbn. split_and!; [|done|done|by eexists _, _].
    split; [done|]. by intros (? & ? & ?). }
  unfold bind.
  destruct (fetch_spoonacular_recipes _ _ _ w1) as [[api_result| |] w2]; [|done..].
  intros [= <- <-]. unfold find_recipes_response.
  destruct (opt_truthy (ApiResult.error api_result)) eqn:Herr.
  { cbn. split_and!; [|done|done|by eexists _, _].
    split; [|by intros (? & ? & ?)].
    intros Hnone. by rewrite Hnone in Herr. }
  destruct (if value_truthy (ApiResult.data api_result)
            then rbind (py_iter (ApiResult.data api_result))
                   (fun items => recipes_of_items items)
            else inr []) as [e|[|recipe rest]].
  - cbn. split_and!; [|done|done|by eexists _, _].
    split; [done|]. by intros (? & ? & ?).
  - cbn. split_and!; [|done|done|by eexists _, _].
    split; [done|]. by intros (? & ? & ?).
  - cbn. split_and!; [|done|done|by eexists _, _].
    split; [eauto|done].
Qed.

End SearchResponse.

(** The provider lists one recipe. *)
Lemma find_recipes_response_invariant_witness :
  process_find_recipes (H := strict_lib) (H0 := plain_prompts) find_request search_world
  = (Ok search_response, search_world_asked)
  /\ FindRecipesResponse.error search_response = None.
Proof.
  split; [reflexivity|].
  destruct (@find_recipes_response_invariant strict_lib plain_prompts find_request
              search_world search_world_asked search_response eq_refl)
    as [Herror _].
  apply Herror. unfold search_response. eauto.
Defined.

(** ** decision_making.py: sending the list *)

Section SendList.

Context `{Lib} `{PromptText}.

Lemma prefix_refl (s : string) : String.prefix s s = true.
Proof.
  induction s as [|c s IH]; [done|]. simpl. by destruct (ascii_dec c c).
Qed.

Lemma contains_refl (s : string) : Py.contains s s = true.
Proof. destruct s; simpl; [done|]. by rewrite prefix_refl, ?orb_true_l; destruct (ascii_dec a a). Qed.

Lemma contains_format_ingredient (ing : IngredientDetail.t) :
  Py.contains (IngredientDetail.name ing) (format_ingredient ing) = true.
Proof.
  unfold format_ingredient. destruct (_ && _); [|apply contains_refl].
  do 4 apply contains_append_r. apply contains_refl.
Qed.

Lemma contains_ingredients_text (request : SendListRequest.t) (ing : IngredientDetail.t) :
  ing ∈ SendListRequest.missingIngredients request ->
  Py.contains (IngredientDetail.name ing) (ingredients_text request) = true.
Proof.
  intros Hin. unfold ingredients_text, formatted_ingredients.
  destruct (SendListRequest.missingIngredients request) as [|first rest] eqn:Hl;
    [by apply elem_of_nil in Hin|].
  rewrite <- Hl in *. clear Hl.
  destruct (format_ingredient <$> SendListRequest.missingIngredients request)
    as [|line lines] eqn:Hf.
  { apply fmap_nil_inv in Hf. rewrite Hf in Hin. by apply elem_of_nil in Hin. }
  rewrite <- Hf.
  apply (contains_join _ _ ("- " +:+ format_ingredient ing)).
  - apply list_elem_of_fmap. exists (format_ingredient ing). split; [done|].
    apply list_elem_of_fmap. by exists ing.
  - apply contains_append_r, contains_format_ingredient.
Qed.

(** With the credential configured, every result of the analysis carries
    the prompt built from the query. *)
Lemma run_llm_analysis_prompt (query : string) (stage : Z) (w w' : World.t)
    (result : LLMAnalysisResult.t) :
  has_key w "gemini" = true ->
  run_llm_analysis query stage w = (Ok result, w') ->
  LLMAnalysisResult.prompt result = Some (build_reasoning_prompt query stage).
Proof.
  intros Hkey%negb_true_iff.
  unfold run_llm_analysis, bind at 1, get_api_key. rewrite Hkey. unfold bind at 1.
  destruct (_call_gemini_api_with_retry _ _ w) as [[raw| |] w1]; [|done..].
  unfold bind at 1, lift at 1.
  destruct (py_get raw "error" VNone) as [e|err]; [done|]. unfold ret at 1.
  destruct (value_truthy err).
  - unfold bind, lift. destruct (getitem_str raw "error") as [e|entry]; [done|].
    unfold ret at 1. destruct (py_get entry "message" _) as [e|message]; [done|].
    by intros [= <- _].
  - unfold try_except, bind, lift.
    destruct (candidate_text raw) as [e|response_text]; [|by intros [= <- _]].
    unfold raise. destruct (Exn.cls e); try done; by intros [= <- _].
Qed.

(** X17.  No ingredient is lost on the way to the reasoning service: with
    the credential of the service configured, the prompt that a response
    of the pipeline carries is the one built from the query of the
    request, and it holds the title of the recipe and the name of every
    ingredient of the request, whatever its amount and unit. *)
Theorem shopping_list_complete (request : SendListRequest.t) (w w' : World.t)
    (response : SendListResponse.t) :
  has_key w "gemini" = true ->
  process_send_list request w = (Ok response, w') ->
  SendListResponse.llm_prompt response
  = Some (build_reasoning_prompt (send_list_query request) 3)
  /\ Py.contains (SendListRequest.recipeTitle request)
       (build_reasoning_prompt (send_list_query request) 3) = true
  /\ Forall (fun ing =>
               Py.contains (IngredientDetail.name ing)
                 (build_reasoning_prompt (send_list_query request) 3) = true)
            (SendListRequest.missingIngredients request).
Proof.
  intros Hkey. unfold process_send_list, bind at 1.
  destruct (run_llm_analysis (send_list_query request) 3 w)
    as [[llm_result| |] w1] eqn:Hllm; [|done..].
  apply (run_llm_analysis_prompt _ _ _ _ _ Hkey) in Hllm.
  unfold bind.
  destruct ((if String.eqb (SendListRequest.deliveryMethod request) "telegram"
             then send_telegram_message (SendListRequest.deliveryDetails request)
                    (send_list_message request)
             else send_sendgrid_email (SendListRequest.deliveryDetails request)
                    (send_list_subject request) (send_list_message request)) w1)
    as [[result| |] w2]; [|done..].
  intros [= <- _]. split_and!; [exact Hllm| |].
  - unfold build_reasoning_prompt.
    apply contains_append_r, contains_append_r, contains_append_l.
    unfold send_list_query.
    apply contains_append_l, contains_append_r, contains_append_l, contains_refl.
  - apply Forall_forall. intros ing Hin.
    pose proof (contains_ingredients_text request ing Hin) as Htext.
    unfold build_reasoning_prompt.
    apply contains_append_r, contains_append_r, contains_append_l.
    unfold send_list_query. by do 3 apply contains_append_r.
Qed.

(** X18.  The list is sent whatever the analysis found: once the analysis has
    returned, the pipeline returns too, with the prompt of the analysis,
    and it reports success exactly when the gateway chosen by the delivery
    method does - the chat gateway for "telegram", the mail gateway for
    every other method. *)
Theorem send_list_delivery (request : SendListRequest.t) (w w1 : World.t)
    (llm_result : LLMAnalysisResult.t) :
  run_llm_analysis (send_list_query request) 3 w = (Ok llm_result, w1) ->
  exists response w2,
    process_send_list request w = (Ok response, w2)
    /\ SendListResponse.llm_prompt response = LLMAnalysisResult.prompt llm_result
    /\ (SendListResponse.success response = true
        <-> if String.eqb (SendListRequest.deliveryMethod request) "telegram"
            then has_key w1 "telegram_bot" = true
                 /\ exists r w',
                      _make_request_with_retry "POST"
                        (telegram_url (key_of w1 "telegram_bot")) w1 = (Ok r, w')
                      /\ payload_ok r = true
            else has_key w1 "sendgrid" = true
                 /\ has_key w1 "sendgrid_sender" = true
                 /\ exists r w',
                      _make_request_with_retry "POST" sendgrid_url w1 = (Ok r, w')
                      /\ Response.status_code r = 202%Z).
Proof.
  intros Hllm. unfold process_send_list, bind at 1. rewrite Hllm.
  destruct (String.eqb (SendListRequest.deliveryMethod request) "telegram").
  - destruct (send_telegram_message_success
                (SendListRequest.deliveryDetails request) (send_list_message request) w1)
      as (result & w2 & Hsend & Hiff).
    unfold bind. rewrite Hsend. eexists _, _. split; [reflexivity|]. by split.
  - destruct (send_sendgrid_email_success
                (SendListRequest.deliveryDetails request) (send_list_subject request)
                (send_list_message request) w1)
      as (result & w2 & Hsend & Hiff).
    unfold bind. rewrite Hsend. eexists _, _. split; [reflexivity|]. by split.
Qed.

End SendList.

Lemma send_list_delivery_witness :
  exists response w2,
    process_send_list (H := strict_lib) (H0 := plain_prompts) chat_request chat_world
    = (Ok response, w2)
    /\ SendListResponse.success response = true.
Proof.
  destruct (@send_list_delivery strict_lib plain_prompts chat_request chat_world
              (World.mk all_keys (World.http chat_world) 1
                 [Request "POST" (gemini_url "k2")])
              (LLMAnalysisResult.mk (VStr "Looks fine.")
                 (extract_reasoning_metadata (VStr "Looks fine.")) None 0
                 (Some (build_reasoning_prompt (H := plain_prompts)
                          (send_list_query (H := strict_lib) chat_request) 3)))
              eq_refl)
    as (response & w2 & Hrun & _ & Hiff).
  exists response, w2. split; [exact Hrun|]. apply Hiff.
  split; [reflexivity|].
  exists (Response.mk 200 "" (JsonOk (VDict [("ok", VBool true)]))).
  eexists. split; reflexivity.
Defined.

(** The list of the chicken soup goes to the chat. *)
Lemma shopping_list_complete_witness :
  process_send_list (H := strict_lib) (H0 := plain_prompts) chat_request chat_world
  = (Ok chat_response, chat_world_sent)
  /\ Py.contains "Chicken" (from_option id "" (SendListResponse.llm_prompt chat_response))
     = true.
Proof.
  split; [reflexivity|].
  destruct (@shopping_list_complete strict_lib plain_prompts chat_request chat_world
              chat_world_sent chat_response eq_refl eq_refl)
    as (Hprompt & _ & Hnames).
  rewrite Hprompt. apply Forall_inv in Hnames. exact Hnames.
Defined.

(** ** main.py: the endpoints *)

Section Endpoints.

Context `{Lib} `{PromptText}.

Lemma fetch_spoonacular_recipes_returns (ingredients : string)
    (foodType cuisine : option string) (w : World.t) :
  exists api_result w',
    fetch_spoonacular_recipes ingredients foodType cuisine w = (Ok api_result, w').
Proof.
  unfold fetch_spoonacular_recipes, bind at 1, get_api_key.
  destruct (no_key (World.API_KEYS w !! "spoonacular")); [by eexists _, _|].
  unfold try_except, bind.
  destruct (make_request_with_retry_cases "GET" find_by_ingredients_url w)
    as [(r & w1 & Hrun & _)|(e & w1 & Hrun)]; rewrite Hrun.
  2:{ destruct (is_RequestException (Exn.cls e)); by eexists _, _. }
  unfold lift. destruct (response_json r) as [e|data]; [|by eexists _, _].
  unfold raise. destruct (is_RequestException (Exn.cls e)); by eexists _, _.
Qed.

Lemma endpoint_returns {A} (process : M A) (detail : string) (w w' : World.t)
    (a : A) :
  process w = (Ok a, w') -> endpoint process detail w = (Ok (inr a), w').
Proof. intros Hrun. unfold endpoint. by rewrite Hrun. Qed.

Lemma endpoint_raises {A} (process : M A) (detail : string) (w w' : World.t)
    (x : Exn.t) :
  process w = (Raise x, w') ->
  endpoint process detail w = (Ok (inl (HTTPException.mk 500 detail)), w').
Proof. intros Hrun. unfold endpoint. by rewrite Hrun. Qed.

(** The search pipeline ends, and raises only what the analysis raises. *)
Lemma process_find_recipes_cases (request : FindRecipesRequest.t) (w : World.t) :
  (exists response w', process_find_recipes request w = (Ok response, w'))
  \/ (exists x w',
        run_llm_analysis (find_recipes_query request) 1 w = (Raise x, w')
        /\ process_find_recipes request w = (Raise x, w')).
Proof.
  destruct (run_llm_analysis_cases (find_recipes_query request) 1 w)
    as [(llm_result & w1 & Hrun)|(raw & err & w1 & _ & _ & _ & _ & _ & Hrun)].
  2:{ right. eexists _, w1. split; [exact Hrun|].
      unfold process_find_recipes, bind. by rewrite Hrun. }
  left. unfold process_find_recipes, bind at 1. rewrite Hrun.
  destruct (invalid_ingredients_flagged llm_result); [by eexists _, _|].
  unfold bind.
  destruct (fetch_spoonacular_recipes_returns
              (Py.strip (FindRecipesRequest.ingredients request))
              (FindRecipesRequest.foodType request)
              (FindRecipesRequest.cuisine request) w1) as (api_result & w2 & Hapi).
  rewrite Hapi. by eexists _, _.
Qed.

(** The pipeline of the missing ingredients ends. *)
Lemma process_get_missing_ingredients_cases
    (request : GetMissingIngredientsRequest.t) (w : World.t) :
  (exists response w', process_get_missing_ingredients request w = (Ok response, w'))
  \/ (exists x w', process_get_missing_ingredients request w = (Raise x, w')).
Proof.
  destruct (run_llm_analysis_cases (missing_ingredients_query request) 2 w)
    as [(llm_result & w1 & Hrun)|(raw & err & w1 & _ & _ & _ & _ & _ & Hrun)].
  2:{ right. eexists _, w1. unfold process_get_missing_ingredients, bind.
      by rewrite Hrun. }
  destruct (fetch_spoonacular_details_result
              (GetMissingIngredientsRequest.recipeId request) w1)
    as (api_result & w2 & Hapi & _).
  assert (process_get_missing_ingredients request w
          = lift (missing_ingredients_response request llm_result api_result) w2)
    as ->.
  { unfold process_get_missing_ingredients, bind. by rewrite Hrun, Hapi. }
  destruct (missing_ingredients_response request llm_result api_result)
    as [x|response]; [right|left]; by eexists _, _.
Qed.

(** The delivery pipeline ends, and raises only what the analysis raises. *)
Lemma process_send_list_cases (request : SendListRequest.t) (w : World.t) :
  (exists response w', process_send_list request w = (Ok response, w'))
  \/ (exists x w',
        run_llm_analysis (send_list_query request) 3 w = (Raise x, w')
        /\ process_send_list request w = (Raise x, w')).
Proof.
  destruct (run_llm_analysis_cases (send_list_query request) 3 w)
    as [(llm_result & w1 & Hrun)|(raw & err & w1 & _ & _ & _ & _ & _ & Hrun)].
  2:{ right. eexists _, w1. split; [exact Hrun|].
      unfold process_send_list, bind. by rewrite Hrun. }
  left. unfold process_send_list, bind at 1. rewrite Hrun. unfold bind.
  destruct (String.eqb (SendListRequest.deliveryMethod request) "telegram").
  - destruct (send_telegram_message_success
                (SendListRequest.deliveryDetails request)
                (send_list_message request) w1) as (result & w2 & Hsend & _).
    rewrite Hsend. by eexists _, _.
  - destruct (send_sendgrid_email_success
                (SendListRequest.deliveryDetails request)
                (send_list_subject request)
                (send_list_message request) w1) as (result & w2 & Hsend & _).
    rewrite Hsend. by eexists _, _.
Qed.

(** X19.  Every endpoint answers in every world, and its answer is fixed
    by what its pipeline does: when the pipeline returns a response, the
    endpoint answers with that response, in the world the pipeline left;
    when the pipeline raises, the endpoint answers with the
    [HTTPException] of status 500 and its own fixed detail.  A pipeline
    always does one or the other; the search and the delivery pipeline
    raise only what the analysis of the reasoning stage raises. *)
Theorem endpoints_settle :
  (forall request w,
     (forall response w',
        process_find_recipes request w = (Ok response, w') ->
        find_recipes request w = (Ok (inr response), w'))
     /\ (forall x w',
           process_find_recipes request w = (Raise x, w') ->
           find_recipes request w
           = (Ok (inl (HTTPException.mk 500 "Internal server error processing recipes.")),
              w')
           /\ run_llm_analysis (find_recipes_query request) 1 w = (Raise x, w'))
     /\ ((exists response w', process_find_recipes request w = (Ok response, w'))
         \/ (exists x w', process_find_recipes request w = (Raise x, w'))))
  /\ (forall request w,
        (forall response w',
           process_get_missing_ingredients request w = (Ok response, w') ->
           get_missing_ingredients request w = (Ok (inr response), w'))
        /\ (forall x w',
              process_get_missing_ingredients request w = (Raise x, w') ->
              get_missing_ingredients request w
              = (Ok (inl (HTTPException.mk 500
                            "Internal server error processing missing ingredients.")),
                 w'))
        /\ ((exists response w',
               process_get_missing_ingredients request w = (Ok response, w'))
            \/ (exists x w',
                  process_get_missing_ingredients request w = (Raise x, w'))))
  /\ (forall request w,
        (forall response w',
           process_send_list request w = (Ok response, w') ->
           send_list request w = (Ok (inr response), w'))
        /\ (forall x w',
              process_send_list request w = (Raise x, w') ->
              send_list request w
              = (Ok (inl (HTTPException.mk 500
                            "Internal server error sending shopping list.")), w')
              /\ run_llm_analysis (send_list_query request) 3 w = (Raise x, w'))
        /\ ((exists response w', process_send_list request w = (Ok response, w'))
            \/ (exists x w', process_send_list request w = (Raise x, w')))).
Proof.
  split_and!.
  - intros request w. split_and!.
    + intros response w'. apply endpoint_returns.
    + intros x w' Hrun. split; [by eapply endpoint_raises|].
      destruct (process_find_recipes_cases request w)
        as [(response & w1 & Hok)|(x' & w1 & Hllm & Hraise)]; congruence.
    + destruct (process_find_recipes_cases request w)
        as [?|(x & w' & _ & ?)]; [by left|right; eauto].
  - intros request w. split_and!.
    + intros response w'. apply endpoint_returns.
    + intros x w'. apply endpoint_raises.
    + apply process_get_missing_ingredients_cases.
  - intros request w. split_and!.
    + intros response w'. apply endpoint_returns.
    + intros x w' Hrun. split; [by eapply endpoint_raises|].
      destruct (process_send_list_cases request w)
        as [(response & w1 & Hok)|(x' & w1 & Hllm & Hraise)]; congruence.
    + destruct (process_send_list_cases request w)
        as [?|(x & w' & _ & ?)]; [by left|right; eauto].
Qed.

End Endpoints.

(** ** action.py: error statuses at the delivery gateways *)

Section DeliveryErrors.

Context `{Lib}.

Lemma get_error_message_detail (key prefix detail : string) :
  ERROR_MESSAGES key = Some [prefix; ""] ->
  Py.truthy detail = true ->
  get_error_message key (VStr detail) = prefix +:+ detail.
Proof.
  intros Hkey Hd. unfold get_error_message. rewrite Hkey. simpl. rewrite Hd.
  cbn [Py.join]. by rewrite append_empty_r.
Qed.

(** X20.  An error status at a delivery gateway is retried once and then
    reported by its code alone: with 401 or 403 as an authentication
    failure, with any other code as "Status" followed by the code and the
    text of the [HTTPError].  The body of the answer is not read, so the
    service's own description of the failure never reaches the message. *)
Theorem delivery_http_errors (w : World.t) (r : Response.t) :
  transient (api_attempt (World.http w (World.made w))) = true ->
  World.http w (World.made w + 1) = Responds r ->
  error_status r = true ->
  (has_key w "telegram_bot" = true ->
   forall chat_id text,
     send_telegram_message chat_id text w
     = (Ok (SendResult.mk false
              ("Error sending Telegram message: "
               +:+ (if ((Response.status_code r =? 401)
                        || (Response.status_code r =? 403))%Z
                    then "Authentication failed (Invalid Bot Token?)"
                    else "Status " +:+ Py.str_of_Z (Response.status_code r)
                         +:+ ": " +:+ http_error_msg r))),
        after w 2 [Request "POST" (telegram_url (key_of w "telegram_bot"));
                   Sleep (wait_time (1 # 2) 1);
                   Request "POST" (telegram_url (key_of w "telegram_bot"))]))
  /\ (has_key w "sendgrid" = true ->
      has_key w "sendgrid_sender" = true ->
      forall to_email subject body,
        send_sendgrid_email to_email subject body w
        = (Ok (SendResult.mk false
                 ("Error sending email via SendGrid: "
                  +:+ (if ((Response.status_code r =? 401)
                           || (Response.status_code r =? 403))%Z
                       then "Authentication failed (Invalid API Key or Permissions?)"
                       else "Status " +:+ Py.str_of_Z (Response.status_code r)
                            +:+ ": " +:+ http_error_msg r))),
           after w 2 [Request "POST" sendgrid_url;
                      Sleep (wait_time (1 # 2) 1);
                      Request "POST" sendgrid_url])).
Proof.
  intros Hfirst Hsecond Hstatus. split.
  - intros Hkey%has_key_true chat_id text.
    unfold send_telegram_message, bind at 1, get_api_key, key_of. rewrite Hkey.
    unfold try_except, bind.
    rewrite (make_request_with_retry_twice _ _ w r Hfirst Hsecond Hstatus).
    cbn [Exn.cls is_RequestException status_of Exn.response].
    unfold ret. rewrite (get_error_message_detail _ "Error sending Telegram message: ");
      [reflexivity|reflexivity|].
    by destruct (_ || _)%Z.
  - intros Hkey%has_key_true Hsender%has_key_true to_email subject body.
    unfold send_sendgrid_email, bind at 1 2, get_api_key. rewrite Hkey, Hsender.
    unfold try_except, bind.
    rewrite (make_request_with_retry_twice _ _ w r Hfirst Hsecond Hstatus).
    cbn [Exn.cls is_RequestException status_of Exn.response].
    unfold ret. rewrite (get_error_message_detail _ "Error sending email via SendGrid: ");
      [reflexivity|reflexivity|].
    by destruct (_ || _)%Z.
Qed.

End DeliveryErrors.

(** The chat service answers 400 twice, naming the cause in its body. *)
Lemma delivery_http_errors_witness :
  fst (send_telegram_message (H := strict_lib) "42" "list"
         (world_of all_keys []
            (respond 400 (VDict [("ok", VBool false); ("error_code", VInt 400);
                                 ("description", VStr "Bad Request: chat not found")]))))
  = Ok (SendResult.mk false "Error sending Telegram message: Status 400: 400 Error").
Proof.
  destruct (@delivery_http_errors strict_lib
              (world_of all_keys []
                 (respond 400 (VDict [("ok", VBool false); ("error_code", VInt 400);
                                      ("description", VStr "Bad Request: chat not found")])))
              (Response.mk 400 ""
                 (JsonOk (VDict [("ok", VBool false); ("error_code", VInt 400);
                                 ("description", VStr "Bad Request: chat not found")])))
              eq_refl eq_refl eq_refl) as [Htelegram _].
  rewrite (Htelegram eq_refl "42" "list"). reflexivity.
Defined.

(** ** perception.py: what the metadata keep *)

Section Metadata.

Lemma contains_lstrip (sub s : string) :
  Py.contains sub (Py.lstrip s) = true -> Py.contains sub s = true.
Proof.
  induction s as [|c s IH]; [done|]. cbn [Py.lstrip].
  destruct (Py.isspace c); [|done]. intros Hc%IH.
  cbn [Py.contains]. rewrite Hc. apply orb_true_r.
Qed.

Lemma rstrip_prefix (s : string) : exists t, s = Py.rstrip s +:+ t.
Proof.
  induction s as [|c s [t IH]]; [by exists ""|]. cbn [Py.rstrip].
  destruct (Py.rstrip s) as [|c' r] eqn:Hr.
  - destruct (Py.isspace c); [by exists (String c s)|]. by exists s.
  - exists t. change (String c s = String c (String c' r +:+ t)). by rewrite <- IH.
Qed.

Lemma contains_rstrip (sub s : string) :
  Py.contains sub (Py.rstrip s) = true -> Py.contains sub s = true.
Proof.
  intros Hc. destruct (rstrip_prefix s) as [t Ht]. rewrite Ht.
  by apply contains_append_l.
Qed.

Lemma contains_strip (sub s : string) :
  Py.contains sub (Py.strip s) = true -> Py.contains sub s = true.
Proof. intros Hc%contains_rstrip. by apply contains_lstrip. Qed.

Lemma lazy_to_terminator_head (s : string) (c : ascii) (g : string) :
  Re.lazy_to_terminator s = String c g -> exists s', s = String c s'.
Proof.
  destruct s as [|a s']; [done|]. cbn [Re.lazy_to_terminator].
  destruct (Re.at_terminator (String a s')); [done|]. intros [= -> _]. eauto.
Qed.

Lemma lazy_to_terminator_no_blank_line (s : string) :
  Py.contains (LF +:+ LF) (Re.lazy_to_terminator s) = false.
Proof.
  induction s as [|c s IH]; [done|]. cbn [Re.lazy_to_terminator].
  destruct (Re.at_terminator (String c s)) eqn:Hterm; [done|].
  cbn [Py.contains]. rewrite IH, orb_false_r.
  apply not_true_is_false. intros Hp.
  change (LF +:+ LF) with (String Re.newline (String Re.newline "")) in Hp.
  cbn [String.prefix] in Hp.
  destruct (ascii_dec Re.newline c) as [<-|]; [|done].
  destruct (Re.lazy_to_terminator s) as [|c' g] eqn:Hg; [done|].
  cbn [String.prefix] in Hp.
  destruct (ascii_dec Re.newline c') as [<-|]; [|done].
  apply lazy_to_terminator_head in Hg as [s' ->].
  unfold Re.at_terminator in Hterm. cbn [String.prefix] in Hterm.
  destruct (ascii_dec Re.newline Re.newline); [|done].
  by destruct s'.
Qed.

(** X21.  The self-check that is extracted from a reply never runs across a blank
    line: it holds no two consecutive line feeds, whatever the reply. *)
Theorem self_check_no_blank_line (text : string) :
  Py.contains (LF +:+ LF)
    (LLMMetadata.selfCheck (extract_reasoning_metadata (VStr text))) = false.
Proof.
  cbn [extract_reasoning_metadata LLMMetadata.selfCheck].
  unfold Re.search_self_check.
  destruct (Re.find_ci "SELF-CHECK" text) as [rest|]; [|reflexivity].
  apply not_true_is_false. intros Hc%contains_strip.
  by rewrite lazy_to_terminator_no_blank_line in Hc.
Qed.

(** X22.  Nothing that was tagged is lost: the content of every error tag,
    stripped, stands in the [errors] of the metadata, and the content of
    every uncertainty tag in the [uncertainties]. *)
Theorem metadata_keeps_tags (text : string) :
  Forall (fun m =>
            Py.contains (Py.strip m)
              (LLMMetadata.errors (extract_reasoning_metadata (VStr text))) = true)
         (error_tags text)
  /\ Forall (fun m =>
               Py.contains (Py.strip m)
                 (LLMMetadata.uncertainties (extract_reasoning_metadata (VStr text)))
               = true)
            (Re.findall (Re.match_tag_at "[UNCERTAINTY:") text).
Proof.
  cbn [extract_reasoning_metadata LLMMetadata.errors LLMMetadata.uncertainties].
  split; apply Forall_forall; intros m Hm.
  - apply contains_append_l, (contains_join _ _ (Py.strip m)); [|apply contains_refl].
    apply sorted_set_elem_of, list_elem_of_fmap. by exists m.
  - apply contains_append_l, (contains_join _ _ (Py.strip m)); [|apply contains_refl].
    apply sorted_set_elem_of, list_elem_of_fmap. by exists m.
Qed.

Lemma findall_from_within (match_at : string -> option (string * nat))
    (Q : string -> string -> Prop) :
  (forall s g n, match_at s = Some (g, n) -> Q g s) ->
  (forall g c s, Q g s -> Q g (String c s)) ->
  forall skip s, Forall (fun g => Q g s) (Re.findall_from match_at skip s).
Proof.
  intros Hmatch Hcons skip s. revert skip.
  induction s as [|c s IH]; intros skip; simpl; [constructor|].
  assert (forall k, Forall (fun g => Q g (String c s)) (Re.findall_from match_at k s))
    as Hrest.
  { intros k. eapply Forall_impl; [apply IH|]. intros g. apply Hcons. }
  destruct skip as [|k]; [|apply Hrest].
  destruct (match_at (String c s)) as [[g n]|] eqn:Hm; [|apply Hrest].
  constructor; [by eapply Hmatch|apply Hrest].
Qed.

Lemma prefix_ci_suffix (pat s rest : string) :
  Re.prefix_ci pat s = Some rest -> exists pre, s = pre +:+ rest.
Proof.
  revert s. induction pat as [|p pat IH]; intros s; simpl.
  - intros [= ->]. by exists "".
  - destruct s as [|c s]; [done|].
    destruct (Ascii.eqb _ _); [|done]. intros [pre ->]%IH. by exists (String c pre).
Qed.

Lemma lstrip_suffix (s : string) : exists ws, s = ws +:+ Py.lstrip s.
Proof.
  induction s as [|c s [ws IH]]; [by exists ""|]. cbn [Py.lstrip].
  destruct (Py.isspace c); [|by exists ""].
  exists (String c ws). change (String c s = String c (ws +:+ Py.lstrip s)).
  by rewrite <- IH.
Qed.

Lemma span_append (p : ascii -> bool) (s g rest : string) :
  Re.span p s = (g, rest) -> s = g +:+ rest.
Proof.
  revert g rest. induction s as [|c s IH]; intros g rest; simpl.
  - by intros [= <- <-].
  - destruct (p c); [|by intros [= <- <-]].
    destruct (Re.span p s) as [g' rest'] eqn:Hs. intros [= <- <-].
    change (String c s = String c (g' +:+ rest')). f_equal. by apply IH.
Qed.

Lemma span_all (p : ascii -> bool) (g : string) (b : ascii) (rest : string) :
  (forall c, occurs c g = true -> p c = true) -> p b = false ->
  Re.span p (g +:+ String b rest) = (g, String b rest).
Proof.
  intros Hg Hb. induction g as [|c g IH].
  - change ("" +:+ String b rest) with (String b rest). simpl. by rewrite Hb.
  - change (String c g +:+ String b rest) with (String c (g +:+ String b rest)).
    cbn [Re.span]. rewrite (Hg c), IH; [done| |].
    + intros c' Hc'. apply Hg. cbn [occurs]. rewrite Hc'. apply orb_true_r.
    + cbn [occurs]. by rewrite Ascii.eqb_refl.
Qed.

Lemma match_reasoning_at_within (s g : string) (n : nat) :
  Re.match_reasoning_at s = Some (g, n) ->
  g <> ""
  /\ (forall c, occurs c g = true -> Re.is_letter_or_underscore c = true)
  /\ Py.contains (g +:+ "]") s = true.
Proof.
  unfold Re.match_reasoning_at.
  destruct (Re.prefix_ci "[REASONING TYPE:" s) as [rest|] eqn:Hp; [|done].
  destruct (Re.span Re.is_letter_or_underscore (Py.lstrip rest))
    as [[|c g'] [|b r]] eqn:Hspan; try done.
  destruct (Ascii.eqb b "]") eqn:Hb; [|done]. intros [= <- _].
  apply Ascii.eqb_eq in Hb as ->.
  split_and!; [done|by eapply span_group|].
  apply prefix_ci_suffix in Hp as [pre ->].
  destruct (lstrip_suffix rest) as [ws Hws]. rewrite Hws.
  apply span_append in Hspan. rewrite Hspan.
  apply contains_append_r, contains_append_r.
  assert (String c g' +:+ String "]" r = (String c g' +:+ "]") +:+ r) as ->.
  { generalize (String c g'). intros t. induction t as [|a t IH]; [done|].
    change (String a (t +:+ String "]" r) = String a ((t +:+ "]") +:+ r)).
    by rewrite IH. }
  apply contains_append_l, contains_refl.
Qed.

Lemma letter_or_underscore_word (c : ascii) :
  Re.is_letter_or_underscore c = true ->
  Py.isword c = true /\ Py.isspace c = false /\ Py.between 48 57 (Py.code c) = false.
Proof.
  destruct c as [[] [] [] [] [] [] [] []]; vm_compute; intuition congruence.
Qed.

Lemma findall_from_unmatched (match_at : string -> option (string * nat))
    (pre s : string) :
  (forall c r, c <> "["%char -> match_at (String c r) = None) ->
  occurs "[" pre = false ->
  Re.findall_from match_at 0 (pre +:+ s) = Re.findall_from match_at 0 s.
Proof.
  intros Hnone. induction pre as [|c pre IH]; [done|].
  cbn [occurs]. intros [Hc Hpre]%orb_false_elim.
  change (String c pre +:+ s) with (String c (pre +:+ s)).
  cbn [Re.findall_from]. rewrite Hnone; [by apply IH|].
  intros ->. by rewrite Ascii.eqb_refl in Hc.
Qed.

Lemma match_reasoning_at_bracket (c : ascii) (r : string) :
  c <> "["%char -> Re.match_reasoning_at (String c r) = None.
Proof.
  intros Hc. unfold Re.match_reasoning_at. cbn [Re.prefix_ci].
  destruct (Ascii.eqb (Py.lower_char "[") (Py.lower_char c)) eqn:Hl; [|done].
  apply Ascii.eqb_eq in Hl. symmetry in Hl. by apply lower_char_bracket in Hl.
Qed.

(** X11.  The reasoning types of a reply come back in strictly ascending
    order of code points, each once.  Every one of them is a non-empty run
    of word characters, none of them whitespace or an ASCII digit, that
    stands in the reply in front of a closing bracket.  And a tag written
    in the reply is found: after a stretch of text without an opening
    bracket, a tag in any letter case, with any whitespace after the colon
    and a name of ASCII letters and underscores, has its name among the
    reasoning types. *)
Theorem reasoning_types_sorted (text : string) :
  StronglySorted String.le
    (LLMMetadata.reasoningTypes (extract_reasoning_metadata (VStr text)))
  /\ NoDup (LLMMetadata.reasoningTypes (extract_reasoning_metadata (VStr text)))
  /\ Forall (fun t =>
               t <> ""
               /\ (forall c, occurs c t = true ->
                             Py.isword c = true /\ Py.isspace c = false
                             /\ Py.between 48 57 (Py.code c) = false)
               /\ Py.contains (t +:+ "]") text = true)
            (LLMMetadata.reasoningTypes (extract_reasoning_metadata (VStr text)))
  /\ (forall name' pre ws T post,
        Py.lower name' = Py.lower "REASONING TYPE:" ->
        occurs "[" pre = false ->
        blank ws = true ->
        T <> "" ->
        (forall c, occurs c T = true -> Re.is_letter_or_underscore c = true) ->
        text = pre +:+ String "[" name' +:+ ws +:+ T +:+ String "]" post ->
        T ∈ LLMMetadata.reasoningTypes (extract_reasoning_metadata (VStr text))).
Proof.
  cbn [extract_reasoning_metadata LLMMetadata.reasoningTypes].
  split_and!.
  - apply (StronglySorted_merge_sort String.le).
  - apply sorted_set_NoDup.
  - apply Forall_forall. intros t Ht.
    apply (proj1 (sorted_set_elem_of _ _)) in Ht. revert t Ht.
    apply (proj1 (Forall_forall _ _)).
    eapply Forall_impl.
    + apply (findall_from_within Re.match_reasoning_at
               (fun g s => g <> ""
                           /\ (forall c, occurs c g = true ->
                                         Re.is_letter_or_underscore c = true)
                           /\ Py.contains (g +:+ "]") s = true)).
      * apply match_reasoning_at_within.
      * intros g c s (Hne & Hchars & Hin). split_and!; [done..|].
        cbn [Py.contains]. rewrite Hin. apply orb_true_r.
    + intros t (Hne & Hchars & Hin). split_and!; [done| |done].
      intros c Hc. by apply letter_or_underscore_word, Hchars.
  - intros name' pre ws T post Hname Hpre Hws Hne Hchars ->.
    apply sorted_set_elem_of. unfold Re.findall.
    rewrite findall_from_unmatched; [|apply match_reasoning_at_bracket|done].
    change (String "[" name' +:+ ws +:+ T +:+ String "]" post)
      with (String "[" (name' +:+ ws +:+ T +:+ String "]" post)).
    cbn [Re.findall_from]. unfold Re.match_reasoning_at at 1.
    assert (Re.prefix_ci "[REASONING TYPE:"
              (String "[" (name' +:+ ws +:+ T +:+ String "]" post))
            = Some (ws +:+ T +:+ String "]" post)) as ->.
    { apply (prefix_ci_lower "[REASONING TYPE:" (String "[" name')).
      change (Py.lower (String "[" name')) with (String "[" (Py.lower name')).
      by rewrite Hname. }
    cbv zeta. rewrite lstrip_blank_prefix by done.
    assert (Py.lstrip (T +:+ String "]" post) = T +:+ String "]" post) as ->.
    { destruct T as [|c T]; [done|].
      change (String c T +:+ String "]" post) with (String c (T +:+ String "]" post)).
      cbn [Py.lstrip].
      destruct (letter_or_underscore_word c) as (_ & -> & _); [|done].
      apply Hchars. cbn [occurs]. by rewrite Ascii.eqb_refl. }
    rewrite span_all; [|done|reflexivity].
    destruct T as [|c T]; [done|]. rewrite Ascii.eqb_refl.
    apply list_elem_of_here.
Qed.

End Metadata.

(** A reply with two tags, the second in lower case. *)
Lemma reasoning_types_sorted_witness :
  LLMMetadata.reasoningTypes
    (extract_reasoning_metadata
       (VStr "Plan. [REASONING TYPE: LOGICAL] then [reasoning type:CAUSAL]."))
  = ["CAUSAL"; "LOGICAL"]
  /\ "LOGICAL"
     ∈ LLMMetadata.reasoningTypes
         (extract_reasoning_metadata
            (VStr "Plan. [REASONING TYPE: LOGICAL] then [reasoning type:CAUSAL].")).
Proof.
  split; [reflexivity|].
  destruct (reasoning_types_sorted
              "Plan. [REASONING TYPE: LOGICAL] then [reasoning type:CAUSAL].")
    as (_ & _ & _ & Hfound).
  apply (Hfound "REASONING TYPE:" "Plan. " " " "LOGICAL"
           " then [reasoning type:CAUSAL].");
    [reflexivity | reflexivity | reflexivity | discriminate | | reflexivity].
  intros c Hc. revert Hc.
  destruct c as [[] [] [] [] [] [] [] []]; vm_compute; congruence.
Defined.

(** ** action.py: a refusal of the chat service *)

Section TelegramRefusal.

Context `{Lib}.


End TelegramRefusal.

